(** * SLP precondition checker and NFT1-child validators

    A shallow embedding of
    - [electroncash/slp_checker.py]   ([SlpTransactionChecker.check_tx_slp]),
    - [electroncash/slp_validator_0x01_nft1.py] (the per-instance validator),
    - [lib/slp_validator_0x01_nft1.py] (the older module-global validator),
    followed by the properties established about them.

    Python dictionaries are finite maps ([gmap]); exceptions are an explicit
    sum ([result]); objects mutated in place (the burn list, the NFT child
    job, the wallet tables) are threaded through as state. *)

From stdpp Require Import gmap strings list numbers.

Set Default Proof Using "Type".

(** ** Python-level values, exceptions, results *)

(** The few dynamic values the checker distinguishes by [isinstance]. *)
Inductive pyval :=
  | PyNone
  | PyInt (z : Z)
  | PyStr (s : string).

Definition isinstance_int (v : pyval) : bool :=
  match v with PyInt _ => true | _ => false end.

(** Python truthiness of a [pyval]. *)
Definition py_truthy (v : pyval) : bool :=
  match v with
  | PyNone => false
  | PyInt z => negb (z =? 0)%Z
  | PyStr s => negb (String.eqb s "")
  end.

(** [total != v], for an integer [total]. *)
Definition py_int_ne (total : Z) (v : pyval) : bool :=
  match v with
  | PyInt z => negb (total =? z)%Z
  | _ => true
  end.

Inductive exn :=
  (* slp_checker.py *)
  | InvalidBurnAmount
  | WalletNotDownloaded          (* Exception('Wallet has not downloaded ...') *)
  | UnsupportedSlpTokenType
  | SlpMissingInputRecord
  | NonSlpTransactionHasSlpInputs
  | MissingCoinToBeBurned
  | SlpWrongTokenID
  | SlpInputsTooLow
  | SlpInputsTooHigh
  | SlpNonMintInput
  | MissingMintBatonOutpoint
  | MissingTokenReceiverOutpoint
  | BadSlpOutpointType
  | PreflightFailed              (* Exception("slp pre-flight check failed ...") *)
  (* validators *)
  | ShouldNeverHappen            (* Exception("This should never happen ...") *)
  | UnexpectedInputs             (* RuntimeError('Unexpected', ...) *)
  | ValidInputMoreThanOne        (* Exception("NFT1 child can not have valid input quanity more than 1.") *)
  | ResponseError                (* Exception raised on an error response *)
  | NoJob                        (* Exception("NO JOB!") *)
  (* interpreter-level *)
  | SlpUnsupportedSlpTokenType_exn
  | SlpInvalidOutputMessage_exn
  | OtherParseError
  | IndexError
  | KeyError
  | AssertionError
  | AttributeError
  | TypeError.

Inductive result (A : Type) :=
  | Ok (a : A)
  | Raise (e : exn).
Arguments Ok {A} a.
Arguments Raise {A} e.

Definition rbind {A B} (r : result A) (k : A → result B) : result B :=
  match r with
  | Ok a => k a
  | Raise e => Raise e
  end.

Notation "'let!' x := r 'in' k" := (rbind r (λ x, k))
  (at level 10, x name, r at level 100, k at level 200, only parsing).

Definition sum_Z (l : list Z) : Z := foldr Z.add 0%Z l.

(** ** Transactions and SLP messages *)

Record txin := mk_txin {
  address : string;
  prevout_hash : string;
  prevout_n : nat
}.

(** What sits in slot 1 of an output triple: an [Address] with a [kind],
    or a [ScriptOutput] (which has no [kind] attribute). *)
Inductive dest :=
  | Address (kind : Z)
  | ScriptOutput (script : string).

(** Modelled from the spec: the two address kinds of [address.py], which is
    not part of the sources at hand ("standard single-signature or
    script-hash"). *)
Definition ADDR_P2PKH : Z := 0.
Definition ADDR_P2SH : Z := 1.

Definition TYPE_SCRIPT : Z := 2.

(** One entry of [tx.outputs()]: [(type, destination, value)]. *)
Record txout := mk_txout {
  out_type : Z;
  out_dest : dest;
  out_value : Z
}.

Record Transaction := mk_tx {
  txid : string;                (* tx.txid() / tx.txid_fast() *)
  inputs : list txin;
  outputs : list txout
}.

Inductive transaction_type := GENESIS | MINT | SEND | COMMIT.

Global Instance transaction_type_eq_dec : EqDecision transaction_type.
Proof. solve_decision. Defined.

(** [op_return_fields], one shape per transaction kind. *)
Inductive op_return_fields :=
  | GenesisFields (decimals : Z) (mint_baton_vout : option nat)
                  (initial_token_mint_quantity : Z)
  | MintFields (token_id_hex : string) (mint_baton_vout : option nat)
               (additional_token_quantity : Z)
  | SendFields (token_id_hex : string) (token_output : list Z)
  | CommitFields (token_id_hex : string).

Record SlpMessage := mk_msg {
  token_type : Z;
  fields : op_return_fields
}.

Definition msg_transaction_type (m : SlpMessage) : transaction_type :=
  match fields m with
  | GenesisFields _ _ _ => GENESIS
  | MintFields _ _ _ => MINT
  | SendFields _ _ => SEND
  | CommitFields _ => COMMIT
  end.

(** Outcome of [SlpMessage.parseSlpOutputScript]: a message, one of the two
    [SlpParsingError] subclasses, or any other exception. *)
Inductive parse_result :=
  | Parsed (m : SlpMessage)
  | ParseUnsupported             (* SlpUnsupportedSlpTokenType *)
  | ParseInvalid                 (* SlpInvalidOutputMessage *)
  | ParseOther.                  (* anything else the parser may raise *)

(** Truthiness of [op_return_fields['mint_baton_vout']]. *)
Definition baton_truthy (b : option nat) : bool :=
  match b with
  | Some n => negb (n =? 0)%nat
  | None => false
  end.

(** [out[1].kind not in [Address.ADDR_P2PKH, Address.ADDR_P2SH]]. *)
Definition kind_not_standard (d : dest) : result bool :=
  match d with
  | Address k => Ok (negb ((k =? ADDR_P2PKH)%Z || (k =? ADDR_P2SH)%Z))
  | ScriptOutput _ => Raise AttributeError
  end.

(** ** slp_checker.py *)

Module slp_checker.

(** An entry of [wallet._slp_txo[addr][prev_out][prev_n]]. *)
Inductive qty_t :=
  | QtyInt (q : Z)
  | QtyBaton.                  (* 'MINT_BATON' *)

Record slp_txo_rec := mk_rec {
  qty : qty_t;
  token_id : string
}.

Record Wallet := mk_wallet {
  transactions : gmap string Transaction;
  _slp_txo : gmap string (gmap string (gmap nat slp_txo_rec))
}.

(** A coin dictionary of the burn list.  [is_in_txn = None] and
    [token_value = None] stand for an absent key. *)
Record coin := mk_coin {
  c_prevout_hash : string;
  c_prevout_n : nat;
  is_in_txn : option bool;
  token_value : option pyval
}.

(** [wallet._slp_txo[addr][prev_out][prev_n]], [None] on [KeyError]. *)
Definition slp_txo_lookup (w : Wallet) (txo : txin) : option slp_txo_rec :=
  by_addr ← _slp_txo w !! address txo;
  by_hash ← by_addr !! prevout_hash txo;
  by_hash !! prevout_n txo.

Definition coins_truthy (coins_to_burn : option (list coin)) : bool :=
  match coins_to_burn with
  | Some (_ :: _) => true
  | _ => false
  end.

Definition coins_list (coins_to_burn : option (list coin)) : list coin :=
  default [] coins_to_burn.

(** Lines 13-16: the two burn-argument guards. *)
Definition burn_args_check (coins_to_burn : option (list coin))
    (amt_to_burn : pyval) : result unit :=
  if coins_truthy coins_to_burn && negb (isinstance_int amt_to_burn) then
    Raise InvalidBurnAmount
  else if py_truthy amt_to_burn && negb (coins_truthy coins_to_burn) then
    Raise InvalidBurnAmount
  else Ok tt.

Section with_parser.
Variable parseSlpOutputScript : dest → parse_result.
(** [networks.net.SLP_PREFLIGHT_CHECK] and the [ok] field of
    [SlpPreflightCheck.query]. *)
Variable SLP_PREFLIGHT_CHECK : bool.
Variable preflight_ok : Transaction → option (list coin) → pyval → bool.

(** The [continue] conditions of step 1 (lines 38-56). *)
Definition input_not_tracked (m : SlpMessage) (prev_n : nat) : bool :=
  match fields m with
  | SendFields _ token_output =>
      match token_output !! prev_n with
      | None => true                        (* prev_n >= len(...) *)
      | Some q => (q =? 0)%Z
      end
  | GenesisFields _ baton q =>
      if baton_truthy baton
         && negb ((prev_n =? 1)%nat || bool_decide (Some prev_n = baton))
      then true
      else if negb (baton_truthy baton) && negb (prev_n =? 1)%nat then true
      else (prev_n =? 1)%nat && (q =? 0)%Z
  | MintFields _ baton q =>
      if baton_truthy baton
         && negb ((prev_n =? 1)%nat || bool_decide (Some prev_n = baton))
      then true
      else if negb (baton_truthy baton) && negb (prev_n =? 1)%nat then true
      else (prev_n =? 1)%nat && (q =? 0)%Z
  | CommitFields _ => false
  end.

(** Step 1 for one input. *)
Definition check_input_known (w : Wallet) (txo : txin) : result unit :=
  match transactions w !! prevout_hash txo with
  | None => Raise WalletNotDownloaded
  | Some input_tx =>
      match outputs input_tx with
      | [] => Raise IndexError
      | o :: _ =>
          match parseSlpOutputScript (out_dest o) with
          | ParseInvalid => Ok tt
          | ParseUnsupported => Raise UnsupportedSlpTokenType
          | ParseOther => Raise OtherParseError
          | Parsed m =>
              if input_not_tracked m (prevout_n txo) then Ok tt
              else match slp_txo_lookup w txo with
                   | Some _ => Ok tt
                   | None => Raise SlpMissingInputRecord
                   end
          end
      end
  end.

(** Step 1 (lines 19-62). *)
Fixpoint check_inputs_known (w : Wallet) (ins : list txin) : result unit :=
  match ins with
  | [] => Ok tt
  | txo :: rest =>
      let! _ := check_input_known w txo in check_inputs_known w rest
  end.

(** Step 2 (lines 65-68): [None] when the candidate is not a token
    transaction. *)
Definition parse_own (tx : Transaction) : result (option SlpMessage) :=
  match outputs tx with
  | [] => Raise IndexError
  | o :: _ =>
      match parseSlpOutputScript (out_dest o) with
      | Parsed m => Ok (Some m)
      | ParseUnsupported | ParseInvalid => Ok None
      | ParseOther => Raise OtherParseError
      end
  end.

(** Lines 84-89 / 212-217: look the outpoint up in the burn list and flag
    every matching coin. *)
Definition coin_matches (txo : txin) (c : coin) : bool :=
  String.eqb (c_prevout_hash c) (prevout_hash txo)
  && (c_prevout_n c =? prevout_n txo)%nat.

Definition mark_in_txn (txo : txin) (c : coin) : coin :=
  if coin_matches txo c
  then mk_coin (c_prevout_hash c) (c_prevout_n c) (Some true) (token_value c)
  else c.

Definition allow_burn (txo : txin) (coins : list coin) : bool * list coin :=
  (existsb (coin_matches txo) coins, map (mark_in_txn txo) coins).

(** Step 3a, first loop (lines 73-94). *)
Fixpoint non_slp_inputs (w : Wallet) (ins : list txin) (coins : list coin)
    : result unit * list coin :=
  match ins with
  | [] => (Ok tt, coins)
  | txo :: rest =>
      match slp_txo_lookup w txo with
      | None => non_slp_inputs w rest coins
      | Some _ =>
          let '(is_burn_allowed, coins') := allow_burn txo coins in
          if is_burn_allowed then non_slp_inputs w rest coins'
          else (Raise NonSlpTransactionHasSlpInputs, coins')
      end
  end.

(** Step 3a, second loop (lines 99-109).  The comparison with
    [amt_to_burn] sits inside the loop body, after the [continue]. *)
Fixpoint burn_total_loop (amt_to_burn : pyval) (coins : list coin)
    (total_burn : Z) : result unit :=
  match coins with
  | [] => Ok tt
  | c :: rest =>
      let compare :=
        if py_int_ne total_burn amt_to_burn then Raise InvalidBurnAmount
        else burn_total_loop amt_to_burn rest total_burn in
      match is_in_txn c with
      | None => Raise MissingCoinToBeBurned
      | Some false => compare
      | Some true =>
          match token_value c with
          | None => Raise MissingCoinToBeBurned
          | Some (PyInt v) =>
              burn_total_loop amt_to_burn rest (total_burn + v)%Z
          | Some _ => compare
          end
      end
  end.

(** SEND, lines 122-141: accumulate [input_slp_qty]. *)
Fixpoint send_input_qty (w : Wallet) (tid : string) (ins : list txin)
    (input_slp_qty : Z) : result Z :=
  match ins with
  | [] => Ok input_slp_qty
  | txo :: rest =>
      match slp_txo_lookup w txo with
      | None => send_input_qty w tid rest input_slp_qty
      | Some slp_input =>
          match qty slp_input with
          | QtyInt 0 => send_input_qty w tid rest input_slp_qty
          | q =>
              let input_slp_qty' :=
                match q with
                | QtyInt v => (input_slp_qty + v)%Z
                | QtyBaton => input_slp_qty
                end in
              if negb (String.eqb (token_id slp_input) tid)
              then Raise SlpWrongTokenID
              else send_input_qty w tid rest input_slp_qty'
          end
      end
  end.

(** SEND, lines 143-151: the quantity comparison. *)
Definition send_quantity_check (coins_to_burn : option (list coin))
    (amt_to_burn : pyval) (input_slp_qty : Z) (slp_outputs : list Z)
    : result unit :=
  if (input_slp_qty <? sum_Z slp_outputs)%Z then Raise SlpInputsTooLow
  else if coins_truthy coins_to_burn then
    match amt_to_burn with
    | PyInt a =>
        if negb (input_slp_qty - a =? sum_Z slp_outputs)%Z
        then Raise InvalidBurnAmount else Ok tt
    | _ => Raise TypeError
    end
  else if (input_slp_qty >? sum_Z slp_outputs)%Z then Raise SlpInputsTooHigh
  else Ok tt.

(** SEND, lines 153-167: every declared output index must exist. *)
Fixpoint send_outputs_check (tx : Transaction) (i : nat) (n : nat)
    : result unit :=
  match n with
  | O => Ok tt
  | S n' =>
      match outputs tx !! i with
      | None => Raise MissingTokenReceiverOutpoint
      | Some out =>
          if (i =? 0)%nat then
            if (out_type out =? TYPE_SCRIPT)%Z
            then send_outputs_check tx (S i) n'
            else Raise AssertionError
          else
            let! bad := kind_not_standard (out_dest out) in
            if bad : bool then Raise BadSlpOutpointType
            else send_outputs_check tx (S i) n'
      end
  end.

(** MINT, lines 174-193. *)
Fixpoint mint_inputs_check (w : Wallet) (tid : string) (ins : list txin)
    : result unit :=
  match ins with
  | [] => Ok tt
  | txo :: rest =>
      match slp_txo_lookup w txo with
      | None => mint_inputs_check w tid rest
      | Some slp_input =>
          match qty slp_input with
          | QtyInt 0 => mint_inputs_check w tid rest
          | QtyInt _ => Raise SlpNonMintInput
          | QtyBaton =>
              if negb (String.eqb (token_id slp_input) tid)
              then Raise SlpWrongTokenID
              else mint_inputs_check w tid rest
          end
      end
  end.

(** GENESIS, lines 200-222. *)
Fixpoint genesis_inputs_check (w : Wallet) (ins : list txin)
    (coins : list coin) : result unit * list coin :=
  match ins with
  | [] => (Ok tt, coins)
  | txo :: rest =>
      match slp_txo_lookup w txo with
      | None => genesis_inputs_check w rest coins
      | Some slp_input =>
          match qty slp_input with
          | QtyInt 0 => genesis_inputs_check w rest coins
          | _ =>
              let '(is_burn_allowed, coins') := allow_burn txo coins in
              if is_burn_allowed then genesis_inputs_check w rest coins'
              else (Raise NonSlpTransactionHasSlpInputs, coins')
          end
      end
  end.

(** GENESIS/MINT, lines 224-251.  Both the baton lookup and the
    token-receiver lookup are in the body of
    [if ...['mint_baton_vout']:]. *)
Definition mint_outputs_check (tx : Transaction) (baton : option nat)
    : result unit :=
  if baton_truthy baton then
    match outputs tx !! default 0%nat baton with
    | None => Raise MissingMintBatonOutpoint
    | Some out =>
        let! bad := kind_not_standard (out_dest out) in
        if bad : bool then Raise BadSlpOutpointType
        else
          match outputs tx !! 1%nat with
          | None => Raise MissingTokenReceiverOutpoint
          | Some out1 =>
              let! bad1 := kind_not_standard (out_dest out1) in
              if bad1 : bool then Raise BadSlpOutpointType else Ok tt
          end
    end
  else Ok tt.

(** Lines 253-261. *)
Definition preflight_step (tx : Transaction)
    (coins_to_burn : option (list coin)) (amt_to_burn : pyval)
    : result bool :=
  if SLP_PREFLIGHT_CHECK && negb (preflight_ok tx coins_to_burn amt_to_burn)
  then Raise PreflightFailed
  else Ok true.

(** The burn list as the caller (and the pre-flight query) sees it
    afterwards: the same list object, with its coins updated in place. *)
Definition coins_after (coins_to_burn : option (list coin))
    (coins : list coin) : option (list coin) :=
  match coins_to_burn with
  | Some _ => Some coins
  | None => None
  end.

(** Step 3 for a SEND candidate. *)
Definition check_send (w : Wallet) (tx : Transaction)
    (coins_to_burn : option (list coin)) (amt_to_burn : pyval)
    (tid : string) (slp_outputs : list Z) : result unit :=
  let! input_slp_qty := send_input_qty w tid (inputs tx) 0%Z in
  let! _ := send_quantity_check coins_to_burn amt_to_burn input_slp_qty slp_outputs in
  send_outputs_check tx 0 (length slp_outputs).

(** Step 3 as a whole (lines 72-251). *)
Definition check_step3 (w : Wallet) (tx : Transaction)
    (coins_to_burn : option (list coin)) (amt_to_burn : pyval)
    (slp_msg : option SlpMessage) : result unit * list coin :=
  let coins := coins_list coins_to_burn in
  match slp_msg with
  | None =>
      let '(r, coins') := non_slp_inputs w (inputs tx) coins in
      (let! _ := r in
       if coins_truthy coins_to_burn
       then burn_total_loop amt_to_burn coins' 0%Z
       else Ok tt,
       coins')
  | Some m =>
      match fields m with
      | SendFields tid slp_outputs =>
          (check_send w tx coins_to_burn amt_to_burn tid slp_outputs, coins)
      | MintFields tid baton _ =>
          (let! _ := mint_inputs_check w tid (inputs tx) in
           mint_outputs_check tx baton, coins)
      | GenesisFields _ baton _ =>
          let '(r, coins') := genesis_inputs_check w (inputs tx) coins in
          (let! _ := r in mint_outputs_check tx baton, coins')
      | CommitFields _ => (Ok tt, coins)
      end
  end.

(** [SlpTransactionChecker.check_tx_slp].  Returns the outcome together
    with the burn list as left behind. *)
Definition check_tx_slp (w : Wallet) (tx : Transaction)
    (coins_to_burn : option (list coin)) (amt_to_burn : pyval)
    (require_tx_in_wallet : bool) : result bool * option (list coin) :=
  match burn_args_check coins_to_burn amt_to_burn with
  | Raise e => (Raise e, coins_to_burn)
  | Ok _ =>
      match (if require_tx_in_wallet
             then check_inputs_known w (inputs tx) else Ok tt) with
      | Raise e => (Raise e, coins_to_burn)
      | Ok _ =>
          match parse_own tx with
          | Raise e => (Raise e, coins_to_burn)
          | Ok slp_msg =>
              let '(r, coins') :=
                check_step3 w tx coins_to_burn amt_to_burn slp_msg in
              let coins_now := coins_after coins_to_burn coins' in
              (let! _ := r in preflight_step tx coins_now amt_to_burn,
               coins_now)
          end
      end
  end.

End with_parser.
End slp_checker.

(** ** Vocabulary shared by the two NFT1-child validators *)

(** [myinfo]: the string ['GENESIS'] or an integer output sum. *)
Inductive myinfo_t :=
  | MyGenesis
  | MySum (m : Z).

(** What [get_info] returns: [('prune', code)] or
    [(vin_mask, myinfo, outputs)]. *)
Inductive info :=
  | Prune (code : nat)
  | Info (vin_mask : list bool) (myinfo : myinfo_t) (outs : list (option Z)).

Global Instance myinfo_eq_dec : EqDecision myinfo_t.
Proof. solve_decision. Defined.
Global Instance info_eq_dec : EqDecision info.
Proof. solve_decision. Defined.

(** One element of [inputs_info]: [(vin, validity, contribution)]. *)
Definition input_info : Type := nat * nat * Z.

Definition inp_validity (inp : input_info) : nat := snd (fst inp).
Definition inp_contribution (inp : input_info) : Z := snd inp.

(** [sum(inp[2] for inp in inputs_info if inp[1] <= 1)]. *)
Definition insum_all (inputs_info : list input_info) : Z :=
  sum_Z (inp_contribution <$>
         filter (λ inp, inp_validity inp ≤ 1) inputs_info).

(** [sum(inp[2] for inp in inputs_info if inp[1] == 1)]. *)
Definition insum_valid (inputs_info : list input_info) : Z :=
  sum_Z (inp_contribution <$>
         filter (λ inp, inp_validity inp = 1) inputs_info).

(** Lines 322-323 / 287-288: truncate or pad [outputs] to the number of
    transaction outputs. *)
Definition fit_outputs (outs : list (option Z)) (n : nat) : list (option Z) :=
  let cut := take n outs in
  cut ++ replicate (n - length cut) None.

(** ** lib/slp_validator_0x01_nft1.py (module-global validator) *)

Module lib_nft1.

Section with_parser.
Variable parseSlpOutputScript : dest → parse_result.

(** [Validator_NFT1.get_info] (lines 212-290). *)
Definition get_info (self_token_id_hex : option string) (tx : Transaction)
    : result info :=
  let txouts := outputs tx in
  let finish (token_id_hex : string) vin_mask myinfo outs :=
    if negb (bool_decide (Some token_id_hex = self_token_id_hex))
    then Ok (Prune 0)
    else Ok (Info vin_mask myinfo (fit_outputs outs (length txouts))) in
  match txouts with
  | [] => Ok (Prune 2)
  | o :: _ =>
      match parseSlpOutputScript (out_dest o) with
      | ParseUnsupported => Ok (Prune 0)
      | ParseInvalid => Ok (Prune 2)
      | ParseOther => Raise OtherParseError
      | Parsed slpMsg =>
          if negb (token_type slpMsg =? 65)%Z then Ok (Prune 0)
          else
            match fields slpMsg with
            | SendFields token_id_hex token_output =>
                if negb (length token_output =? 2)%nat then Ok (Prune 2)
                else
                  match token_output !! 1%nat with
                  | None => Raise IndexError
                  | Some q1 =>
                      if negb (q1 =? 1)%Z then Ok (Prune 2)
                      else finish token_id_hex
                             (replicate (length (inputs tx)) true)
                             (MySum (sum_Z token_output))
                             (Some <$> token_output)
                  end
            | GenesisFields decimals mintvout initial_qty =>
                if bool_decide (mintvout ≠ None) then Ok (Prune 2)
                else if negb (decimals =? 0)%Z then Ok (Prune 2)
                else if (initial_qty >? 1)%Z then Ok (Prune 2)
                else finish (txid tx)
                       (replicate (length (inputs tx)) false)
                       MyGenesis
                       [None; Some initial_qty]
            | MintFields _ _ _ => Ok (Prune 2)
            | CommitFields _ => Ok (Prune 0)
            end
      end
  end.

End with_parser.

(** The validator object together with the part of the job manager and of
    the network it touches from [validate]. *)
Record state := mk_state {
  nft_parent_tx : option Transaction;
  nft_parent_validity : nat;
  nft_child_job : option nat;
  job_current : nat;                 (* validation_jobmgr.job_current *)
  paused : list nat;                 (* jobs paused on the manager *)
  sent : list string                 (* 'blockchain.transaction.get' requests *)
}.

(** [validate_NFT_parent] (lines 390-404), up to the point where control
    returns to [validate]: the job is remembered and paused and the genesis
    download is requested; the rest runs later, in the callbacks. *)
Definition validate_NFT_parent (self_token_id_hex : string) (st : state)
    : state :=
  mk_state (nft_parent_tx st) (nft_parent_validity st)
           (Some (job_current st)) (job_current st)
           (job_current st :: paused st)
           (sent st ++ [self_token_id_hex]).

(** [Validator_NFT1.validate] (lines 406-433). *)
Definition validate (self_token_id_hex : string) (st : state)
    (myinfo : myinfo_t) (inputs_info : list input_info)
    : result (option (bool * nat)) * state :=
  match nft_parent_tx st with
  | None => (Ok None, validate_NFT_parent self_token_id_hex st)
  | Some _ =>
      match myinfo with
      | MyGenesis =>
          if negb (length inputs_info =? 0)%nat then (Raise UnexpectedInputs, st)
          else if (nft_parent_validity st =? 1)%nat then (Ok (Some (true, 1%nat)), st)
          else if (1 <? nft_parent_validity st)%nat
               then (Ok (Some (false, nft_parent_validity st)), st)
          else (Ok None, st)
      | MySum m =>
          if (insum_all inputs_info <? m)%Z then (Ok (Some (false, 3%nat)), st)
          else if (insum_valid inputs_info >=? m)%Z then (Ok (Some (true, 1%nat)), st)
          else (Ok None, st)
      end
  end.

End lib_nft1.

(** ** electroncash/slp_validator_0x01_nft1.py (per-instance validator) *)

Module electroncash_nft1.

(** An entry of [wallet.tx_tokinfo]; ['type'] is ['SLP%d' % token_type]. *)
Record tti := mk_tti {
  tti_type : Z;
  tti_transaction_type : transaction_type;
  tti_token_id : string;
  tti_validity : nat
}.

(** An entry of [wallet.token_types]. *)
Record token_entry := mk_entry {
  te_class : string;
  te_name : string;
  te_decimals : Z;
  te_group_id : option string
}.

Record Wallet := mk_wallet {
  transactions : gmap string Transaction;
  tx_tokinfo : gmap string tti;
  token_types : gmap string token_entry
}.

(** [ValidationJobNFT1Child]: the extra slots, and [root_txid]. *)
Record ValidationJobNFT1Child := mk_job {
  was_reset : bool;
  genesis_tx : option Transaction;
  nft_parent_tx : option Transaction;
  nft_parent_validity : nat;
  forced_failure_val : option nat;
  root_txid : string
}.

(** What [validation_jobmgr.job_current] may hold. *)
Inductive job :=
  | JobNFT1Child (j : ValidationJobNFT1Child)
  | JobPlain.

(** Everything else the validator reaches: the wallet behind the job's
    reference (taken to be alive), [slp_gs_mgr.slp_validity_signal] ([None] when no signal is
    connected, otherwise what has been emitted so far), the requests handed
    to [network.send], and whether the job manager still has a graph
    context. *)
Record env := mk_env {
  wallet : Wallet;
  slp_validity_signal : option (list (string * nat));
  sent : list string;
  graph_context : bool
}.

Inductive response :=
  | RespError
  | RespResult (tx : Transaction).

Definition set_wallet (e : env) (w : Wallet) : env :=
  mk_env w (slp_validity_signal e) (sent e) (graph_context e).

Definition emit (e : env) (t : string) (val : nat) : env :=
  mk_env (wallet e) ((λ log, log ++ [(t, val)]) <$> slp_validity_signal e)
         (sent e) (graph_context e).

Definition send_request (e : env) (t : string) : env :=
  mk_env (wallet e) (slp_validity_signal e) (sent e ++ [t]) (graph_context e).

Definition set_genesis_tx (j : ValidationJobNFT1Child) (tx : Transaction) :=
  mk_job (was_reset j) (Some tx) (nft_parent_tx j) (nft_parent_validity j)
         (forced_failure_val j) (root_txid j).

Definition set_nft_parent_tx (j : ValidationJobNFT1Child) (tx : Transaction) :=
  mk_job (was_reset j) (genesis_tx j) (Some tx) (nft_parent_validity j)
         (forced_failure_val j) (root_txid j).

(** [restart_nft_job] (lines 488-489). *)
Definition restart_nft_job (j : ValidationJobNFT1Child) (val : nat) :=
  mk_job (was_reset j) (genesis_tx j) (nft_parent_tx j) val
         (forced_failure_val j) (root_txid j).

(** [if not wallet.transactions.get(txid): wallet.transactions[txid] = tx]. *)
Definition remember_tx (w : Wallet) (tx : Transaction) : Wallet :=
  match transactions w !! txid tx with
  | Some _ => w
  | None => mk_wallet (<[txid tx := tx]> (transactions w))
                      (tx_tokinfo w) (token_types w)
  end.

Definition set_tokinfo (w : Wallet) (t : string) (i : tti) : Wallet :=
  mk_wallet (transactions w) (<[t := i]> (tx_tokinfo w)) (token_types w).

(** [wallet.add_token_type(id, entry, False)] and in-place entry updates. *)
Definition set_token_type (w : Wallet) (t : string) (en : token_entry) : Wallet :=
  mk_wallet (transactions w) (tx_tokinfo w) (<[t := en]> (token_types w)).

Section with_parser.
Variable parseSlpOutputScript : dest → parse_result.
(** [network.send] followed by the wait on the validator's wait group: the
    response with which the download callback is entered.  The callback is
    run to its end before the validator goes on, and an exception it raises
    is reported as the outcome of the call. *)
Variable network_get : string → response.
(** [graph_context.make_job(tx, ..., nft_type='SLP129_65')] and [job.run()]:
    the single [(txid, validity)] node of the finished parent job, or [None]
    when no job was made. *)
Variable run_parent_job : Transaction → option (string * nat).

(** [Validator_NFT1.get_info] (lines 243-325). *)
Definition get_info (self_token_id_hex : option string) (tx : Transaction)
    (diff_testing_mode : bool) : result info :=
  let txouts := outputs tx in
  let finish (token_id_hex : string) vin_mask myinfo outs :=
    let mismatch := negb (bool_decide (Some token_id_hex = self_token_id_hex)) in
    if diff_testing_mode && bool_decide (self_token_id_hex ≠ None) && mismatch
    then Ok (Prune 0)
    else if negb diff_testing_mode && mismatch then Ok (Prune 0)
    else Ok (Info vin_mask myinfo (fit_outputs outs (length txouts))) in
  match txouts with
  | [] => Ok (Prune 2)
  | o :: _ =>
      match parseSlpOutputScript (out_dest o) with
      | ParseUnsupported => Ok (Prune 0)
      | ParseInvalid => Ok (Prune 2)
      | ParseOther => Raise OtherParseError
      | Parsed slpMsg =>
          if negb (token_type slpMsg =? 65)%Z then Ok (Prune 0)
          else
            match fields slpMsg with
            | SendFields token_id_hex token_output =>
                finish token_id_hex
                  (replicate (length (inputs tx)) true)
                  (MySum (sum_Z token_output))
                  (Some <$> token_output)
            | GenesisFields decimals mintvout initial_qty =>
                if bool_decide (mintvout ≠ None) then Ok (Prune 2)
                else if negb (decimals =? 0)%Z then Ok (Prune 2)
                else if negb (initial_qty =? 1)%Z then Ok (Prune 2)
                else finish (txid tx)
                       (replicate (length (inputs tx)) false)
                       MyGenesis
                       [None; Some initial_qty]
            | MintFields _ _ _ => Ok (Prune 2)
            | CommitFields _ => Ok (Prune 0)
            end
      end
  end.

(** The validity test of the parent download callback (lines 407-409). *)
Definition bad_parent_outpoint (slpMsg : SlpMessage) (nft_parent_idx : nat)
    : bool :=
  match fields slpMsg with
  | GenesisFields _ _ _ | MintFields _ _ _ =>
      negb (nft_parent_idx =? 1)%nat || negb (token_type slpMsg =? 129)%Z
  | SendFields _ token_output =>
      (Z.of_nat nft_parent_idx >? Z.of_nat (length token_output) - 1)%Z
      || negb (token_type slpMsg =? 129)%Z
  | CommitFields _ => negb (token_type slpMsg =? 129)%Z
  end.

Definition parent_token_id (tx : Transaction) (slpMsg : SlpMessage) : string :=
  match fields slpMsg with
  | GenesisFields _ _ _ => txid tx
  | MintFields t _ _ | SendFields t _ | CommitFields t => t
  end.

(** [start_NFT_parent_job] (lines 436-486), with the callback of the nested
    job run to completion. *)
Definition start_NFT_parent_job (e : env) (j : ValidationJobNFT1Child)
    : result (env * ValidationJobNFT1Child) :=
  if (1 <? nft_parent_validity j)%nat then
    match nft_parent_tx j, genesis_tx j, slp_validity_signal e with
    | _, _, None => Ok (e, restart_nft_job j (nft_parent_validity j))
    | Some ptx, Some gtx, Some _ =>
        let e1 := emit e (txid ptx) (nft_parent_validity j) in
        let e2 := emit e1 (txid gtx) 4 in
        let e3 := emit e2 (root_txid j) 4 in
        Ok (e3, restart_nft_job j (nft_parent_validity j))
    | _, _, Some _ => Raise AttributeError
    end
  else if negb (graph_context e) then Ok (e, j)      (* warnings.warn *)
  else
    match nft_parent_tx j with
    | None => Raise AttributeError
    | Some tx =>
          match run_parent_job tx with
          | None => Raise NoJob
          | Some (t, val) =>
              match genesis_tx j with
              | None => Raise AttributeError
              | Some gtx =>
                  let w := wallet e in
                  match tx_tokinfo w !! txid tx with
                  | None => Raise KeyError
                  | Some pinfo =>
                      let group_id := tti_token_id pinfo in
                      let w1 :=
                        match token_types w !! group_id with
                        | Some _ => w
                        | None =>
                            let name :=
                              match token_types w !! txid gtx with
                              | Some en => (te_name en ++ "-parent")%string
                              | None =>
                                  (String.substring 0 5 (txid gtx) ++ "-parent")%string
                              end in
                            set_token_type w group_id
                              (mk_entry "SLP129" name 0 None)
                        end in
                      let w2 :=
                        match token_types w1 !! txid gtx with
                        | Some _ => w1
                        | None =>
                            set_token_type w1 (txid gtx)
                              (mk_entry "SLP65" (String.substring 0 5 (txid gtx))
                                        0 None)
                        end in
                      match token_types w2 !! txid gtx,
                            tx_tokinfo w2 !! txid tx with
                      | Some cen, Some pinfo2 =>
                          let w3 :=
                            set_token_type w2 (txid gtx)
                              (mk_entry (te_class cen) (te_name cen)
                                        (te_decimals cen) (Some group_id)) in
                          let w4 :=
                            set_tokinfo w3 (txid tx)
                              (mk_tti (tti_type pinfo2)
                                      (tti_transaction_type pinfo2)
                                      (tti_token_id pinfo2) val) in
                          Ok (emit (set_wallet e w4) t val, restart_nft_job j val)
                      | _, _ => Raise KeyError
                      end
                  end
              end
          end
    end.

(** [start_nft_parent_validation] (lines 491-495). *)
Definition start_nft_parent_validation (e : env) (j : ValidationJobNFT1Child)
    (success : bool) : result (env * ValidationJobNFT1Child) :=
  if success then start_NFT_parent_job e j
  else Ok (e, restart_nft_job j 4).

(** The callback [dl_cb] of [download_nft_parent_tx] (lines 386-423). *)
Definition parent_dl_cb (e : env) (j : ValidationJobNFT1Child)
    (resp : response) : result (env * ValidationJobNFT1Child) :=
  match resp with
  | RespError => Raise ResponseError
  | RespResult tx =>
      let w1 := remember_tx (wallet e) tx in
      let step :=
        match tx_tokinfo w1 !! txid tx with
        | Some _ => Ok (w1, j)
        | None =>
            let parsed :=
              match outputs tx with
              | [] => None
              | o :: _ =>
                  match parseSlpOutputScript (out_dest o) with
                  | Parsed m => Some m
                  | _ => None
                  end
              end in
            match parsed with
            | None => Ok (w1, restart_nft_job j 4)
            | Some slpMsg =>
                match genesis_tx j with
                | None => Raise AttributeError
                | Some gtx =>
                    match inputs gtx with
                    | [] => Raise IndexError
                    | i0 :: _ =>
                        if bad_parent_outpoint slpMsg (prevout_n i0)
                        then Ok (w1, restart_nft_job j 4)
                        else
                          Ok (set_tokinfo w1 (txid tx)
                                (mk_tti (token_type slpMsg)
                                        (msg_transaction_type slpMsg)
                                        (parent_token_id tx slpMsg) 0),
                              j)
                    end
                end
            end
        end in
      let! wj := step in
      Ok (set_wallet e (fst wj), set_nft_parent_tx (snd wj) tx)
  end.

(** [download_nft_parent_tx] (lines 381-434). *)
Definition download_nft_parent_tx (e : env) (j : ValidationJobNFT1Child)
    : result (env * ValidationJobNFT1Child) :=
  match genesis_tx j with
  | None => Raise AttributeError
  | Some gtx =>
      match inputs gtx with
      | [] => Raise IndexError
      | i0 :: _ =>
          let nft_parent_txid := prevout_hash i0 in
          let! ej :=
            match transactions (wallet e) !! nft_parent_txid with
            | Some tx => parent_dl_cb e j (RespResult tx)
            | None =>
                parent_dl_cb (send_request e nft_parent_txid) j
                             (network_get nft_parent_txid)
            end in
          start_nft_parent_validation (fst ej) (snd ej) true
      end
  end.

(** [start_dl_nft_parent] (lines 497-501). *)
Definition start_dl_nft_parent (e : env) (j : ValidationJobNFT1Child)
    (success : bool) : result (env * ValidationJobNFT1Child) :=
  if success then download_nft_parent_tx e j
  else Ok (e, restart_nft_job j 2).

(** The callback [dl_cb] of [download_nft_genesis] (lines 344-369). *)
Definition genesis_dl_cb (self_token_id_hex : string) (e : env)
    (j : ValidationJobNFT1Child) (resp : response)
    : result (env * ValidationJobNFT1Child) :=
  match resp with
  | RespError => Raise ResponseError
  | RespResult tx =>
      if negb (String.eqb (txid tx) self_token_id_hex) then Raise AssertionError
      else
        let t := self_token_id_hex in
        let w1 :=
          match transactions (wallet e) !! t with
          | Some _ => wallet e
          | None => mk_wallet (<[t := tx]> (transactions (wallet e)))
                              (tx_tokinfo (wallet e)) (token_types (wallet e))
          end in
        let! w2 :=
          match tx_tokinfo w1 !! t with
          | Some _ => Ok w1
          | None =>
              match outputs tx with
              | [] => Raise IndexError
              | o :: _ =>
                  match parseSlpOutputScript (out_dest o) with
                  | Parsed slpMsg =>
                      Ok (set_tokinfo w1 t
                            (mk_tti (token_type slpMsg)
                                    (msg_transaction_type slpMsg) t 0))
                  | ParseUnsupported => Raise SlpUnsupportedSlpTokenType_exn
                  | ParseInvalid => Raise SlpInvalidOutputMessage_exn
                  | ParseOther => Raise OtherParseError
                  end
              end
          end in
        Ok (set_wallet e w2, set_genesis_tx j tx)
  end.

(** [download_nft_genesis] (lines 339-379). *)
Definition download_nft_genesis (self_token_id_hex : string) (e : env)
    (j : ValidationJobNFT1Child) : result (env * ValidationJobNFT1Child) :=
  let! ej :=
    match transactions (wallet e) !! self_token_id_hex with
    | Some tx => genesis_dl_cb self_token_id_hex e j (RespResult tx)
    | None =>
        genesis_dl_cb self_token_id_hex (send_request e self_token_id_hex) j
                      (network_get self_token_id_hex)
    end in
  start_dl_nft_parent (fst ej) (snd ej) true.

(** [validate_NFT_parent] (lines 503-504). *)
Definition validate_NFT_parent (self_token_id_hex : string) (e : env)
    (j : ValidationJobNFT1Child) (myinfo : myinfo_t)
    : result (env * ValidationJobNFT1Child) :=
  download_nft_genesis self_token_id_hex e j.

(** The parent-quantity gate of [validate] (lines 526-536): [Some r] when
    [validate] returns [r] there. *)
Definition parent_gate (parent_tx : Transaction)
    : result (option (bool * nat)) :=
  match outputs parent_tx with
  | [] => Raise IndexError
  | o :: _ =>
      match parseSlpOutputScript (out_dest o) with
      | ParseInvalid => Ok (Some (false, 4%nat))
      | ParseUnsupported => Raise SlpUnsupportedSlpTokenType_exn
      | ParseOther => Raise OtherParseError
      | Parsed parent_slp_msg =>
          match fields parent_slp_msg with
          | GenesisFields _ _ q =>
              if (q <? 1)%Z then Ok (Some (false, 3%nat)) else Ok None
          | MintFields _ _ q =>
              if (q <? 1)%Z then Ok (Some (false, 3%nat)) else Ok None
          | SendFields _ token_output =>
              if (sum_Z token_output <? 1)%Z then Ok (Some (false, 3%nat))
              else Ok None
          | CommitFields _ => Ok None
          end
      end
  end.

(** Lines 538-563: the decision proper. *)
Definition decide_node (j : ValidationJobNFT1Child) (myinfo : myinfo_t)
    (inputs_info : list input_info) : result (option (bool * nat)) :=
  match myinfo with
  | MyGenesis =>
      if negb (length inputs_info =? 0)%nat then Raise UnexpectedInputs
      else if (nft_parent_validity j =? 1)%nat then Ok (Some (true, 1%nat))
      else if (1 <? nft_parent_validity j)%nat
           then Ok (Some (false, nft_parent_validity j))
      else Ok None
  | MySum m =>
      if (insum_all inputs_info <? m)%Z then Ok (Some (false, 3%nat))
      else if (insum_valid inputs_info >? 1)%Z then Raise ValidInputMoreThanOne
      else if (insum_valid inputs_info >=? m)%Z then Ok (Some (true, 1%nat))
      else Ok None
  end.

(** Truthiness of [forced_failure_val]. *)
Definition forced_failure (j : ValidationJobNFT1Child) : option nat :=
  match forced_failure_val j with
  | Some v => if (v =? 0)%nat then None else Some v
  | None => None
  end.

(** [Validator_NFT1.validate] (lines 506-563).  The result comes with the
    environment and the current job as the call leaves them. *)
Definition validate (self_token_id_hex : string) (e : env) (job_current : job)
    (myinfo : myinfo_t) (inputs_info : list input_info)
    : result (option (bool * nat) * env * job) :=
  match job_current with
  | JobPlain => Raise ShouldNeverHappen
  | JobNFT1Child nft_child_job =>
      if (1 <? nft_parent_validity nft_child_job)%nat then
        Ok (Some (false, nft_parent_validity nft_child_job), e, job_current)
      else
        match forced_failure nft_child_job with
        | Some v => Ok (Some (false, v), e, job_current)
        | None =>
            if bool_decide (myinfo = MySum 0) then
              Ok (Some (true, 1%nat), e, job_current)
            else
              match nft_parent_tx nft_child_job with
              | None =>
                  let! ej := validate_NFT_parent self_token_id_hex e
                                                 nft_child_job myinfo in
                  Ok (None, fst ej, JobNFT1Child (snd ej))
              | Some parent_tx =>
                  let! gate := parent_gate parent_tx in
                  match gate with
                  | Some r => Ok (Some r, e, job_current)
                  | None =>
                      let! r := decide_node nft_child_job myinfo inputs_info in
                      Ok (r, e, job_current)
                  end
              end
        end
  end.

End with_parser.
End electroncash_nft1.

(** ** Vocabulary of the statements *)

(** Quantity a spent outpoint contributes when the wallet tracks it with an
    integer quantity. *)
Definition tracked_int_qty (w : slp_checker.Wallet) (txo : txin) : Z :=
  match slp_checker.slp_txo_lookup w txo with
  | Some r => match slp_checker.qty r with
              | slp_checker.QtyInt q => q
              | slp_checker.QtyBaton => 0%Z
              end
  | None => 0%Z
  end.

(** IN: the sum of the wallet-tracked integer token input quantities. *)
Definition wallet_input_sum (w : slp_checker.Wallet) (tx : Transaction) : Z :=
  sum_Z (tracked_int_qty w <$> inputs tx).

(** No tracked, non-zero input carries another token id. *)
Definition inputs_match_token (w : slp_checker.Wallet) (tid : string)
    (ins : list txin) : Prop :=
  ∀ txo r, txo ∈ ins →
    slp_checker.slp_txo_lookup w txo = Some r →
    slp_checker.qty r ≠ slp_checker.QtyInt 0 →
    slp_checker.token_id r = tid.

(** What [check_tx_slp] still does to a SEND once the quantity comparison is
    behind it: the output loop, then the pre-flight step. *)
Definition after_quantity_check (SLP_PREFLIGHT_CHECK : bool)
    (preflight_ok : Transaction → option (list slp_checker.coin) → pyval → bool)
    (tx : Transaction) (coins_to_burn : option (list slp_checker.coin))
    (amt_to_burn : pyval) (slp_outputs : list Z) : result bool :=
  let! _ := slp_checker.send_outputs_check tx 0 (length slp_outputs) in
  slp_checker.preflight_step SLP_PREFLIGHT_CHECK preflight_ok tx
                             coins_to_burn amt_to_burn.

(** Sum of the integer [token_value]s of the burn-list coins flagged as
    spent in the transaction. *)
Definition burned_sum (coins : list slp_checker.coin) : Z :=
  sum_Z ((λ c, match slp_checker.is_in_txn c, slp_checker.token_value c with
               | Some true, Some (PyInt v) => v
               | _, _ => 0%Z
               end) <$> coins).


(** The transactions on which the two [get_info] differ: type-65 SENDs whose
    output list is not [[q0; 1]], and type-65 GENESIS without baton, with
    zero decimals and an initial quantity below 1. *)
Definition get_info_diverges (parseSlpOutputScript : dest → parse_result)
    (tx : Transaction) : bool :=
  match outputs tx with
  | [] => false
  | o :: _ =>
      match parseSlpOutputScript (out_dest o) with
      | Parsed m =>
          (token_type m =? 65)%Z &&
          match fields m with
          | SendFields _ token_output =>
              negb (length token_output =? 2)%nat
              || negb (bool_decide (token_output !! 1%nat = Some 1%Z))
          | GenesisFields decimals baton q =>
              bool_decide (baton = None) && (decimals =? 0)%Z && (q <? 1)%Z
          | _ => false
          end
      | _ => false
      end
  end.

(** The gates [validate] passes before it decides a node on its inputs. *)
Definition reaches_decision (parseSlpOutputScript : dest → parse_result)
    (j : electroncash_nft1.ValidationJobNFT1Child) (myinfo : myinfo_t) : Prop :=
  electroncash_nft1.nft_parent_validity j ≤ 1 ∧
  electroncash_nft1.forced_failure j = None ∧
  myinfo ≠ MySum 0 ∧
  ∃ parent_tx,
    electroncash_nft1.nft_parent_tx j = Some parent_tx ∧
    electroncash_nft1.parent_gate parseSlpOutputScript parent_tx = Ok None.



(** ** Example data *)

Module examples.

(** A toy parser: known scripts map to their message, addresses and unknown
    scripts are not SLP. *)
Definition scripts : list (string * SlpMessage) :=
  [ ("SEND tok 60 40", mk_msg 1 (SendFields "tok" [0; 60; 40]%Z));
    ("SEND tok 100", mk_msg 1 (SendFields "tok" [0; 100]%Z));
    ("GENESIS type1 qty1", mk_msg 1 (GenesisFields 0 None 1));
    ("NFT1 GENESIS qty0", mk_msg 65 (GenesisFields 0 None 0));
    ("NFT1 GENESIS qty1", mk_msg 65 (GenesisFields 0 None 1));
    ("NFT1 SEND 1 1", mk_msg 65 (SendFields "nft" [0; 1; 1]%Z));
    ("GROUP GENESIS qty5", mk_msg 129 (GenesisFields 0 None 5));
    ("TYPE1 SEND 7", mk_msg 1 (SendFields "tok" [0; 7]%Z)) ].

Fixpoint assoc (s : string) (l : list (string * SlpMessage)) : option SlpMessage :=
  match l with
  | [] => None
  | (k, m) :: rest => if String.eqb k s then Some m else assoc s rest
  end.

Definition parse (d : dest) : parse_result :=
  match d with
  | Address _ => ParseInvalid
  | ScriptOutput s =>
      match assoc s scripts with
      | Some m => Parsed m
      | None => ParseInvalid
      end
  end.

Definition no_preflight : Transaction → option (list slp_checker.coin) → pyval → bool :=
  λ _ _ _, true.

Definition op_return (s : string) : txout := mk_txout TYPE_SCRIPT (ScriptOutput s) 0.
Definition pay (k : Z) : txout := mk_txout 0 (Address k) 546.

(** A wallet holding 100 units of ["tok"] on outpoint [("funding", 1)]. *)
Definition funding_tx : Transaction :=
  mk_tx "funding" [] [op_return "SEND tok 100"; pay ADDR_P2PKH].

Definition wallet100 : slp_checker.Wallet :=
  slp_checker.mk_wallet
    {[ "funding" := funding_tx ]}
    {[ "addr" := {[ "funding" := {[ 1%nat := slp_checker.mk_rec (slp_checker.QtyInt 100) "tok" ]} ]} ]}.

Definition spend_funding : txin := mk_txin "addr" "funding" 1.

(** SEND of 60 + 40 funded by the 100 units. *)
Definition send_60_40 : Transaction :=
  mk_tx "send" [spend_funding]
        [op_return "SEND tok 60 40"; pay ADDR_P2PKH; pay ADDR_P2PKH].

(** A plain payment that spends the 100-unit outpoint. *)
Definition plain_spend : Transaction :=
  mk_tx "plain" [spend_funding] [pay ADDR_P2PKH].

Definition burn_coin (v : Z) : slp_checker.coin :=
  slp_checker.mk_coin "funding" 1 None (Some (PyInt v)).

(** GENESIS, quantity 1, no baton, with nothing but the metadata output. *)
Definition genesis_no_receiver : Transaction :=
  mk_tx "gen" [] [op_return "GENESIS type1 qty1"].

(** NFT1 child GENESIS declaring quantity 0. *)
Definition nft_genesis_qty0 : Transaction :=
  mk_tx "nft0" [mk_txin "addr" "group" 1]
        [op_return "NFT1 GENESIS qty0"; pay ADDR_P2PKH].

(** NFT1 child SEND with two token outputs of one unit each. *)
Definition nft_send_1_1 : Transaction :=
  mk_tx "nftsend" [mk_txin "addr" "nft" 1]
        [op_return "NFT1 SEND 1 1"; pay ADDR_P2PKH; pay ADDR_P2PKH].

(** A group-token GENESIS as parent, and an NFT1 child genesis spending its
    output 1. *)
Definition group_tx : Transaction :=
  mk_tx "group" [] [op_return "GROUP GENESIS qty5"; pay ADDR_P2PKH].

Definition child_genesis : Transaction :=
  mk_tx "nft" [mk_txin "addr" "group" 1]
        [op_return "NFT1 GENESIS qty1"; pay ADDR_P2PKH].



Definition empty_wallet : electroncash_nft1.Wallet :=
  electroncash_nft1.mk_wallet ∅ ∅ ∅.


Definition env_of (w : electroncash_nft1.Wallet) : electroncash_nft1.env :=
  electroncash_nft1.mk_env w (Some []) [] true.

(** A child job whose parent has been fetched and found valid. *)
Definition job_parent_valid : electroncash_nft1.ValidationJobNFT1Child :=
  electroncash_nft1.mk_job false (Some child_genesis) (Some group_tx) 1 None "nftsend".

(** A child job that has its genesis but not yet a parent. *)
Definition job_fresh (g : Transaction) : electroncash_nft1.ValidationJobNFT1Child :=
  electroncash_nft1.mk_job false (Some g) None 0 None "nftsend".

Definition no_network : string → electroncash_nft1.response :=
  λ _, electroncash_nft1.RespError.

Definition network_of (txs : list Transaction) (t : string)
    : electroncash_nft1.response :=
  match list_find (λ tx, txid tx = t) txs with
  | Some (_, tx) => electroncash_nft1.RespResult tx
  | None => electroncash_nft1.RespError
  end.

Definition no_parent_job : Transaction → option (string * nat) := λ _, None.

End examples.

(** ** Further code of the validator files *)

(** [Validator_NFT1.check_needed] (electroncash lines 328-337, lib lines
    293-302: the same text in both files).  [out_n] is an element of the
    [outputs] tuple of the spent transaction. *)
Definition check_needed (myinfo : myinfo_t) (out_n : pyval) : result bool :=
  match myinfo with
  | MyGenesis => Raise UnexpectedInputs
  | MySum _ =>
      match out_n with
      | PyNone => Ok false
      | PyStr s => if String.eqb s "MINT" then Ok false else Raise TypeError
      | PyInt q => Ok (q >? 0)%Z
      end
  end.

(** An element of the [outs] of an [Info], as the Python value it is. *)
Definition out_n_of (o : option Z) : pyval :=
  match o with
  | Some q => PyInt q
  | None => PyNone
  end.

(** The loop that ends [done_callback] (electroncash lines 166-169, lib lines
    180-183): every node with a non-zero validity is written to
    [wallet.slpv1_validity].  [nodes] are the items of [job.nodes], in
    iteration order, each with its node's validity. *)
Definition save_validity (nodes : list (string * nat))
    (slpv1_validity : gmap string nat) : gmap string nat :=
  foldl (λ cache tn,
           if (snd tn =? 0)%nat then cache else <[fst tn := snd tn]> cache)
        slpv1_validity nodes.

(** The validators a graph can be built around, the job managers, and the
    graph itself as far as the registries look at it. *)
Inductive jobmgr :=
  | SharedJobMgr                       (* threadname "Validation_NFT1" *)
  | TokenJobMgr (threadname : string)
  | ContextJobMgr (threadname : string).

Global Instance jobmgr_eq_dec : EqDecision jobmgr.
Proof. solve_decision. Defined.

Inductive validator :=
  | Validator_SLP1 (token_id_hex : string) (enforced_token_type : Z)
  | Validator_NFT1 (token_id_hex : string) (validation_jobmgr : jobmgr).

Global Instance validator_eq_dec : EqDecision validator.
Proof. solve_decision. Defined.

Record TokenGraph := mk_graph { graph_validator : validator }.

Global Instance TokenGraph_eq_dec : EqDecision TokenGraph.
Proof. solve_decision. Defined.

(** *** lib/slp_validator_0x01_nft1.py, module level *)

Module lib_module.

(** Outcome of the registry functions: a value, one of the exceptions
    above, or the [UnboundLocalError] of a local never assigned. *)
Inductive outcome (A : Type) :=
  | Returns (a : A)
  | Raises (e : exn)
  | UnboundLocalError.
Arguments Returns {A} a.
Arguments Raises {A} e.
Arguments UnboundLocalError {A}.

(** Line 23 (line 26 has the commented-out alternative [None]). *)
Definition shared_jobmgr : option jobmgr := Some SharedJobMgr.

(** [graph_db], with what [kill_graph] did to the objects it popped. *)
Record registry := mk_registry {
  graph_db : gmap string (TokenGraph * jobmgr);
  killed : list jobmgr;                 (* jobmgr.kill() *)
  was_reset : list TokenGraph           (* graph.reset() *)
}.

(** [get_graph] (lines 34-53). *)
Definition get_graph (r : registry) (token_id_hex : string) (token_type : Z)
    : outcome (TokenGraph * jobmgr) * registry :=
  match graph_db r !! token_id_hex with
  | Some entry => (Returns entry, r)
  | None =>
      let jobmgr :=
        match shared_jobmgr with
        | Some m => m
        | None =>
            TokenJobMgr ("Validation_NFT1_token_id_"
                         ++ String.substring 0 10 token_id_hex)
        end in
      let val :=
        if (token_type =? 129)%Z
        then Some (Validator_SLP1 token_id_hex 129)
        else if (token_type =? 65)%Z
        then Some (Validator_NFT1 token_id_hex jobmgr)
        else None in
      match val with
      | None => (UnboundLocalError, r)
      | Some val =>
          let graph := mk_graph val in
          (Returns (graph, jobmgr),
           mk_registry (<[token_id_hex := (graph, jobmgr)]> (graph_db r))
                       (killed r) (was_reset r))
      end
  end.

(** [kill_graph] (lines 54-61). *)
Definition kill_graph (r : registry) (token_id_hex : string) : registry :=
  match graph_db r !! token_id_hex with
  | None => r
  | Some (graph, jobmgr) =>
      mk_registry (delete token_id_hex (graph_db r))
                  (if bool_decide (Some jobmgr ≠ shared_jobmgr)
                   then killed r ++ [jobmgr] else killed r)
                  (was_reset r ++ [graph])
  end.

(** A job as [make_job] builds and queues it. *)
Record ValidationJob := mk_vjob {
  job_graph : TokenGraph;
  job_txids : list string;
  job_was_reset : bool;
  job_debug : bool
}.

Section with_parser.
Variable parseSlpOutputScript : dest → parse_result.

(** [setup_job] (lines 76-95).  [Returns None] is the bare [return None] of
    a transaction kind that is neither GENESIS, SEND nor MINT. *)
Definition setup_job (r : registry) (tx : Transaction) (reset : bool)
    : outcome (option (TokenGraph * jobmgr)) * registry :=
  match outputs tx with
  | [] => (Raises IndexError, r)
  | o :: _ =>
      match parseSlpOutputScript (out_dest o) with
      | ParseUnsupported => (Raises SlpUnsupportedSlpTokenType_exn, r)
      | ParseInvalid => (Raises SlpInvalidOutputMessage_exn, r)
      | ParseOther => (Raises OtherParseError, r)
      | Parsed slpMsg =>
          let token_id_hex :=
            match fields slpMsg with
            | GenesisFields _ _ _ => Some (txid tx)
            | SendFields t _ | MintFields t _ _ => Some t
            | CommitFields _ => None
            end in
          match token_id_hex with
          | None => (Returns None, r)
          | Some t =>
              let r1 := if reset then kill_graph r t else r in
              match get_graph r1 t (token_type slpMsg) with
              | (Returns entry, r2) => (Returns (Some entry), r2)
              | (Raises e, r2) => (Raises e, r2)
              | (UnboundLocalError, r2) => (UnboundLocalError, r2)
              end
          end
      end
  end.

(** [make_job] (lines 98-188) as far as the registry and the job queue are
    concerned: [Returns None] is the bare [return] of the [except] clause,
    [Returns (Some job)] the job handed to [jobmgr.add_job].  Unpacking the
    [None] that [setup_job] returns is a [TypeError]. *)
Definition make_job (r : registry) (tx : Transaction) (debug reset : bool)
    : outcome (option (ValidationJob * jobmgr)) * registry :=
  match setup_job r tx reset with
  | (Raises IndexError, r') => (Returns None, r')
  | (Raises SlpUnsupportedSlpTokenType_exn, r') => (Returns None, r')
  | (Raises SlpInvalidOutputMessage_exn, r') => (Returns None, r')
  | (Raises e, r') => (Raises e, r')
  | (UnboundLocalError, r') => (UnboundLocalError, r')
  | (Returns None, r') => (Raises TypeError, r')
  | (Returns (Some (graph, jobmgr)), r') =>
      (Returns (Some (mk_vjob graph [txid tx] reset debug, jobmgr)), r')
  end.

End with_parser.

(** [fetch_hook] of [make_job] (lines 142-153): the wallet's copies of the
    requested transactions, and the number of proxy requests afterwards. *)
Definition fetch_hook (transactions : gmap string Transaction)
    (proxy_enable : bool) (num_proxy_requests : nat) (txids : list string)
    : list Transaction * nat :=
  (foldl (λ l t, match transactions !! t with
                 | Some tx => l ++ [tx]
                 | None => l
                 end) [] txids,
   if proxy_enable then S num_proxy_requests else num_proxy_requests).

End lib_module.

(** *** electroncash/slp_validator_0x01_nft1.py, [GraphContext_NFT1] *)

Module graph_context_nft1.

Section with_context.
(** [self.job_mgr] and [self._get_or_make_mgr], of the base class. *)
Variable job_mgr : jobmgr.
Variable _get_or_make_mgr : string → jobmgr.

(** [GraphContext_NFT1.get_graph] (lines 37-53), on [self.graph_db]. *)
Definition get_graph (graph_db : gmap string TokenGraph)
    (token_id_hex : string) (token_type : Z)
    : (TokenGraph * jobmgr) * gmap string TokenGraph :=
  match graph_db !! token_id_hex with
  | Some graph => ((graph, _get_or_make_mgr token_id_hex), graph_db)
  | None =>
      let val :=
        if (token_type =? 65)%Z then Validator_NFT1 token_id_hex job_mgr
        else Validator_SLP1 token_id_hex 129 in
      let graph := mk_graph val in
      ((graph, _get_or_make_mgr token_id_hex),
       <[token_id_hex := graph]> graph_db)
  end.

End with_context.

(** ['SLP129' in nft_type]. *)
Definition contains_SLP129 (nft_type : string) : bool :=
  match String.index 0 "SLP129" nft_type with
  | Some _ => true
  | None => false
  end.

(** [fetch_hook] of [make_job] (lines 116-147).  [gs_get_tx] is
    [gs_job.get_tx] of the graph-search job, [signal] what
    [slp_validation_fetch_signal] has emitted ([None] when not connected).
    Returns the list, [first_fetch_complete] and the signal afterwards. *)
Definition fetch_hook (nft_type : string)
    (gs_get_tx : string → option Transaction)
    (transactions : gmap string Transaction)
    (first_fetch_complete : bool) (signal : option (list nat))
    (txids : list string)
    : list Transaction * bool * option (list nat) :=
  if contains_SLP129 nft_type then
    let emits := negb first_fetch_complete && bool_decide (signal ≠ None) in
    (foldl (λ l t, match gs_get_tx t with
                   | Some txn => l ++ [txn]
                   | None =>
                       match transactions !! t with
                       | Some tx => l ++ [tx]
                       | None => l
                       end
                   end) [] txids,
     if emits then true else first_fetch_complete,
     if emits then (λ log, log ++ [0%nat]) <$> signal else signal)
  else
    (foldl (λ l t, match transactions !! t with
                   | Some tx => l ++ [tx]
                   | None => l
                   end) [] txids,
     first_fetch_complete, signal).

(** [ValidationJobNFT1Child.__init__] (lines 204-215): the slots of a new
    child job; [root_txid] is set by the base class. *)
Definition new_child_job (was_reset : bool) (root_txid : string)
    : electroncash_nft1.ValidationJobNFT1Child :=
  electroncash_nft1.mk_job was_reset None None 0 None root_txid.

End graph_context_nft1.

(** ** Vocabulary of the further statements *)

(** "P2PKH or P2SH": an [Address] of one of the two kinds. *)
Definition standard_dest (d : dest) : Prop :=
  ∃ k, d = Address k ∧ (k = ADDR_P2PKH ∨ k = ADDR_P2SH).

(** The wallet tracks the outpoint with a quantity that is not the
    integer 0. *)
Definition tracked_nonzero (w : slp_checker.Wallet) (txo : txin) : Prop :=
  ∃ r, slp_checker.slp_txo_lookup w txo = Some r ∧
       slp_checker.qty r ≠ slp_checker.QtyInt 0.

(** The outpoint is named by some coin of the burn list. *)
Definition in_burn_list (coins : list slp_checker.coin) (txo : txin) : Prop :=
  ∃ c, c ∈ coins ∧ slp_checker.coin_matches txo c = true.

(** [c'] is [c] with, at most, its flag raised. *)
Definition flag_raised (c c' : slp_checker.coin) : Prop :=
  slp_checker.c_prevout_hash c' = slp_checker.c_prevout_hash c ∧
  slp_checker.c_prevout_n c' = slp_checker.c_prevout_n c ∧
  slp_checker.token_value c' = slp_checker.token_value c ∧
  (slp_checker.is_in_txn c' = slp_checker.is_in_txn c ∨
   slp_checker.is_in_txn c' = Some true).

(** [c'] is [c] with its flag raised, at most, and raised only if [c] names
    a tracked outpoint among [ins]. *)
Definition flag_raised_by (w : slp_checker.Wallet) (ins : list txin)
    (c c' : slp_checker.coin) : Prop :=
  flag_raised c c' ∧
  (slp_checker.is_in_txn c' = slp_checker.is_in_txn c ∨
   ∃ txo, txo ∈ ins ∧ slp_checker.coin_matches txo c = true ∧
          is_Some (slp_checker.slp_txo_lookup w txo)).

(** The baton index a GENESIS or MINT message declares. *)
Definition baton_of (m : SlpMessage) : option nat :=
  match fields m with
  | GenesisFields _ baton _ | MintFields _ baton _ => baton
  | _ => None
  end.

(** What a step leaves of the environment: the wallet's transactions are
    kept, and [new] are the requests it sent, each for a transaction the
    wallet did not have. *)
Definition keeps (e e1 : electroncash_nft1.env) (new : list string) : Prop :=
  electroncash_nft1.transactions (electroncash_nft1.wallet e)
    ⊆ electroncash_nft1.transactions (electroncash_nft1.wallet e1) ∧
  electroncash_nft1.sent e1 = electroncash_nft1.sent e ++ new ∧
  ∀ t, t ∈ new →
    electroncash_nft1.transactions (electroncash_nft1.wallet e) !! t = None.

(** [inp'] is [inp] after its transaction may have been resolved: an input
    that was Unknown may have any validity now, a decided one keeps its. *)
Definition resolved (inp inp' : input_info) : Prop :=
  fst (fst inp') = fst (fst inp) ∧
  inp_contribution inp' = inp_contribution inp ∧
  (inp_validity inp = 0 ∨ inp_validity inp' = inp_validity inp).

(** ** More example data *)

Module more_examples.

(** The toy parser of [examples], knowing one MINT script more. *)
Definition parse (d : dest) : parse_result :=
  match d with
  | ScriptOutput "MINT tok 50 baton2" =>
      Parsed (mk_msg 1 (MintFields "tok" (Some 2%nat) 50))
  | _ => examples.parse d
  end.

(** A wallet holding 100 units of ["tok"] and its mint baton. *)
Definition baton_tx : Transaction :=
  mk_tx "baton" []
        [examples.op_return "MINT tok 50 baton2"; examples.pay ADDR_P2PKH;
         examples.pay ADDR_P2PKH].

Definition wallet_with_baton : slp_checker.Wallet :=
  slp_checker.mk_wallet
    {[ "funding" := examples.funding_tx; "baton" := baton_tx ]}
    {[ "addr" :=
         {[ "funding" := {[ 1%nat := slp_checker.mk_rec (slp_checker.QtyInt 100) "tok" ]};
            "baton" := {[ 2%nat := slp_checker.mk_rec slp_checker.QtyBaton "tok" ]} ]} ]}.

Definition spend_baton : txin := mk_txin "addr" "baton" 2.

(** A MINT that spends the baton and passes it on at output 2. *)
Definition mint_tx : Transaction :=
  mk_tx "mint" [spend_baton]
        [examples.op_return "MINT tok 50 baton2"; examples.pay ADDR_P2PKH;
         examples.pay ADDR_P2SH].

(** A GENESIS that spends (burns) the 100-unit outpoint. *)
Definition genesis_burning : Transaction :=
  mk_tx "gen2" [examples.spend_funding]
        [examples.op_return "GENESIS type1 qty1"; examples.pay ADDR_P2PKH].

(** A network that knows the child genesis and the group transaction, and a
    parent job that finds the group transaction Valid. *)
Definition network : string → electroncash_nft1.response :=
  examples.network_of [examples.child_genesis; examples.group_tx].

Definition parent_job_valid : Transaction → option (string * nat) :=
  λ _, Some ("group", 1%nat).

(** A wallet that has the group transaction and its token info, and a job
    that holds genesis and parent but no parent validity yet. *)
Definition wallet_with_group : electroncash_nft1.Wallet :=
  electroncash_nft1.mk_wallet
    {[ "group" := examples.group_tx ]}
    {[ "group" := electroncash_nft1.mk_tti 129 GENESIS "group" 0 ]}
    ∅.

Definition job_parent_fetched : electroncash_nft1.ValidationJobNFT1Child :=
  electroncash_nft1.mk_job false (Some examples.child_genesis)
                           (Some examples.group_tx) 0 None "nftsend".

Definition lib_state_parent_known : lib_nft1.state :=
  lib_nft1.mk_state (Some examples.group_tx) 1 (Some 7%nat) 7 [] [].

Definition empty_registry : lib_module.registry :=
  lib_module.mk_registry ∅ [] [].

End more_examples.

(** ** Properties of the precondition checker *)

Section checker_properties.
Import slp_checker.

Variable parseSlpOutputScript : dest → parse_result.
Variable SLP_PREFLIGHT_CHECK : bool.
Variable preflight_ok : Transaction → option (list coin) → pyval → bool.

Local Abbreviation check :=
  (check_tx_slp parseSlpOutputScript SLP_PREFLIGHT_CHECK preflight_ok).

Lemma inputs_match_token_cons w tid txo ins :
  inputs_match_token w tid (txo :: ins) →
  inputs_match_token w tid ins.
Proof.
  intros H t r Hin. apply H. by apply list_elem_of_further.
Qed.

Lemma sum_Z_cons x l : sum_Z (x :: l) = (x + sum_Z l)%Z.
Proof. reflexivity. Qed.

(** The accumulation loop of the SEND branch computes the wallet's integer
    input sum, provided no input trips the token-id test. *)
Lemma send_input_qty_sum w tid ins acc :
  inputs_match_token w tid ins →
  send_input_qty w tid ins acc
  = Ok (acc + sum_Z (tracked_int_qty w <$> ins))%Z.
Proof.
  revert acc. induction ins as [|txo ins IH]; intros acc Hm.
  - simpl. apply (f_equal Ok). unfold sum_Z; simpl; lia.
  - pose proof (inputs_match_token_cons _ _ _ _ Hm) as Hm'.
    cbn [send_input_qty]. rewrite fmap_cons, sum_Z_cons.
    unfold tracked_int_qty at 1.
    destruct (slp_txo_lookup w txo) as [r|] eqn:Hl.
    + assert (Htok : qty r ≠ QtyInt 0 → token_id r = tid).
      { intros Hq. eapply Hm; [apply list_elem_of_here | exact Hl | exact Hq]. }
      destruct (qty r) as [q|] eqn:Hq.
      * destruct q as [|p|p].
        -- rewrite IH by done. apply (f_equal Ok). lia.
        -- rewrite Htok by done. rewrite String.eqb_refl. cbn [negb].
           rewrite IH by done. apply (f_equal Ok). lia.
        -- rewrite Htok by done. rewrite String.eqb_refl. cbn [negb].
           rewrite IH by done. apply (f_equal Ok). lia.
      * rewrite Htok by done. rewrite String.eqb_refl. cbn [negb].
        rewrite IH by done. apply (f_equal Ok). lia.
    + rewrite IH by done. apply (f_equal Ok). lia.
Qed.

Lemma coins_after_unchanged coins :
  coins_after coins (coins_list coins) = coins.
Proof. by destruct coins. Qed.

(** Once the argument guards, step 1 and the input loop are passed, a SEND
    candidate's outcome is the quantity comparison followed by the rest. *)
Lemma check_send_unfold w tx coins amt (req : bool) tt0 tid outs :
  burn_args_check coins amt = Ok tt →
  (if req then check_inputs_known parseSlpOutputScript w (inputs tx) else Ok tt)
    = Ok tt →
  parse_own parseSlpOutputScript tx = Ok (Some (mk_msg tt0 (SendFields tid outs))) →
  inputs_match_token w tid (inputs tx) →
  fst (check w tx coins amt req)
  = (let! _ := send_quantity_check coins amt (wallet_input_sum w tx) outs in
     after_quantity_check SLP_PREFLIGHT_CHECK preflight_ok tx coins amt outs).
Proof.
  intros Hb H1 Hp Hm. unfold check_tx_slp.
  rewrite Hb, H1, Hp. simpl. rewrite coins_after_unchanged. unfold check_send.
  rewrite (send_input_qty_sum _ _ _ _ Hm). simpl.
  unfold wallet_input_sum, after_quantity_check.
  replace (0 + sum_Z (tracked_int_qty w <$> inputs tx))%Z
    with (sum_Z (tracked_int_qty w <$> inputs tx)) by lia.
  destruct (send_quantity_check _ _ _ _); simpl; [|done].
  by destruct (send_outputs_check _ _ _).
Qed.

(** The comparison itself, case by case. *)
Lemma send_quantity_check_low coins amt qin outs :
  (qin < sum_Z outs)%Z →
  send_quantity_check coins amt qin outs = Raise SlpInputsTooLow.
Proof.
  intros H. unfold send_quantity_check.
  by rewrite (proj2 (Z.ltb_lt _ _) H).
Qed.

Lemma send_quantity_check_burn coins a qin outs :
  coins_truthy coins = true →
  (sum_Z outs ≤ qin)%Z →
  send_quantity_check coins (PyInt a) qin outs
  = if bool_decide (qin - a = sum_Z outs)%Z then Ok tt
    else Raise InvalidBurnAmount.
Proof.
  intros Hc H. unfold send_quantity_check.
  rewrite (proj2 (Z.ltb_ge _ _) H), Hc.
  case_bool_decide as Heq.
  - by rewrite (proj2 (Z.eqb_eq _ _) Heq).
  - by rewrite (proj2 (Z.eqb_neq _ _) Heq).
Qed.

Lemma send_quantity_check_no_burn coins amt qin outs :
  coins_truthy coins = false →
  (sum_Z outs ≤ qin)%Z →
  send_quantity_check coins amt qin outs
  = if bool_decide (qin = sum_Z outs)%Z then Ok tt
    else Raise SlpInputsTooHigh.
Proof.
  intros Hc H. unfold send_quantity_check.
  rewrite (proj2 (Z.ltb_ge _ _) H), Hc.
  case_bool_decide as Heq.
  - subst qin. by rewrite Z.gtb_ltb, Z.ltb_irrefl.
  - rewrite Z.gtb_ltb, (proj2 (Z.ltb_lt _ _)); [done | lia].
Qed.

(** Without a truthy baton index, neither output lookup takes place. *)
Lemma mint_outputs_check_no_baton tx baton :
  baton_truthy baton = false →
  mint_outputs_check tx baton = Ok tt.
Proof. intros H. unfold mint_outputs_check. by rewrite H. Qed.

(** When every coin of the burn list is flagged and carries an integer, the
    loop never reaches its comparison with [amt_to_burn]. *)
Lemma burn_total_loop_all_flagged amt coins total :
  Forall (λ c, is_in_txn c = Some true ∧ ∃ v, token_value c = Some (PyInt v))
         coins →
  burn_total_loop amt coins total = Ok tt.
Proof.
  intros H. revert total.
  induction H as [|c coins [Hf [v Hv]] _ IH]; intros total; simpl; [done|].
  rewrite Hf, Hv. apply IH.
Qed.

(** C1.  For a SEND candidate that reaches the quantity comparison (argument
    guards and step 1 passed, no input of another token id), with IN the sum
    of the wallet-tracked integer input quantities and OUT the sum of the
    declared outputs, the clauses being tried in the order of the source:
    IN < OUT raises SlpInputsTooLow; otherwise, with a burn list,
    IN - amt_to_burn <> OUT raises InvalidBurnAmount; with no burn list,
    IN > OUT raises SlpInputsTooHigh; and the comparison is passed (the
    check goes on to the output loop) when IN = OUT without a burn list or
    IN - amt_to_burn = OUT with one.  In particular 100 against [60; 40]
    passes, against [60; 50] raises SlpInputsTooLow, and against [60; 30]
    with a burn of 10 passes. *)
Theorem C1_send_quantity_check w tx coins amt (req : bool) tt0 tid outs :
  burn_args_check coins amt = Ok tt →
  (if req then check_inputs_known parseSlpOutputScript w (inputs tx) else Ok tt)
    = Ok tt →
  parse_own parseSlpOutputScript tx = Ok (Some (mk_msg tt0 (SendFields tid outs))) →
  inputs_match_token w tid (inputs tx) →
  let qin := wallet_input_sum w tx in
  let qout := sum_Z outs in
  let outcome := fst (check w tx coins amt req) in
  let rest :=
    after_quantity_check SLP_PREFLIGHT_CHECK preflight_ok tx coins amt outs in
  ((qin < qout)%Z → outcome = Raise SlpInputsTooLow) ∧
  (∀ a, coins_truthy coins = true → amt = PyInt a → (qout ≤ qin)%Z →
        (qin - a)%Z ≠ qout → outcome = Raise InvalidBurnAmount) ∧
  (coins_truthy coins = false → (qin > qout)%Z →
        outcome = Raise SlpInputsTooHigh) ∧
  (coins_truthy coins = false → qin = qout → outcome = rest) ∧
  (∀ a, coins_truthy coins = true → amt = PyInt a → (0 ≤ a)%Z →
        (qin - a)%Z = qout → outcome = rest) ∧
  send_quantity_check None PyNone 100 [60; 40]%Z = Ok tt ∧
  send_quantity_check None PyNone 100 [60; 50]%Z = Raise SlpInputsTooLow ∧
  (∀ c cs, send_quantity_check (Some (c :: cs)) (PyInt 10) 100 [60; 30]%Z
           = Ok tt).
Proof.
  intros Hb H1 Hp Hm qin qout outcome rest.
  assert (Hout : outcome
                 = (let! _ := send_quantity_check coins amt qin outs in rest))
    by (by apply check_send_unfold with (tt0 := tt0) (tid := tid)).
  repeat split.
  - intros Hlt. rewrite Hout, send_quantity_check_low; done.
  - intros a Hc -> Hle Hne.
    rewrite Hout, send_quantity_check_burn by done.
    by rewrite bool_decide_eq_false_2.
  - intros Hc Hgt.
    rewrite Hout, send_quantity_check_no_burn by (done || lia).
    rewrite bool_decide_eq_false_2; [done | lia].
  - intros Hc Heq.
    rewrite Hout, send_quantity_check_no_burn by (done || lia).
    by rewrite bool_decide_eq_true_2.
  - intros a Hc -> Ha Heq.
    rewrite Hout, send_quantity_check_burn by (done || lia).
    by rewrite bool_decide_eq_true_2.
Qed.

(** C9.  When a non-empty burn list comes with a non-integer [amt_to_burn],
    or a non-zero [amt_to_burn] comes without a burn list, the call raises
    InvalidBurnAmount whatever the wallet, the transaction and the
    [require_tx_in_wallet] flag are, and leaves the burn list untouched. *)
Theorem C9_burn_arguments_rejected_first w tx coins amt req :
  (coins_truthy coins = true ∧ isinstance_int amt = false) ∨
  (py_truthy amt = true ∧ coins_truthy coins = false) →
  check w tx coins amt req = (Raise InvalidBurnAmount, coins).
Proof.
  intros H. unfold check_tx_slp, burn_args_check.
  destruct H as [[-> ->]|[-> ->]]; done.
Qed.

End checker_properties.

(** The SEND of 60 + 40 out of a tracked 100 passes the comparison and the
    whole check. *)
Lemma C1_send_quantity_check_witness :
  fst (slp_checker.check_tx_slp examples.parse false examples.no_preflight
         examples.wallet100 examples.send_60_40 None PyNone true)
  = Ok true.
Proof.
  assert (Hm : inputs_match_token examples.wallet100 "tok"
                 (inputs examples.send_60_40)).
  { intros txo r Hin Hl _.
    apply list_elem_of_singleton in Hin. subst txo.
    vm_compute in Hl. by inversion Hl. }
  pose proof (C1_send_quantity_check examples.parse false examples.no_preflight
                examples.wallet100 examples.send_60_40 None PyNone true
                1%Z "tok" [0; 60; 40]%Z
                eq_refl eq_refl eq_refl Hm) as (_ & _ & _ & Hpass & _).
  rewrite Hpass; [|reflexivity|reflexivity].
  reflexivity.
Defined.

(** A one-coin burn list with no amount is turned down at once. *)
Lemma C9_burn_arguments_rejected_first_witness :
  slp_checker.check_tx_slp examples.parse false examples.no_preflight
    examples.wallet100 examples.plain_spend
    (Some [examples.burn_coin 100]) PyNone true
  = (Raise InvalidBurnAmount, Some [examples.burn_coin 100]).
Proof.
  apply (C9_burn_arguments_rejected_first examples.parse false
           examples.no_preflight).
  left. split; reflexivity.
Defined.

(** C2.  A GENESIS that declares quantity 1 and no baton, and whose output 1
    does not exist, is accepted: with no baton index declared the check of
    lines 224-251 looks at no output at all. *)
Theorem C2_genesis_without_receiver_is_accepted :
  outputs examples.genesis_no_receiver !! 1%nat = None ∧
  slp_checker.parse_own examples.parse examples.genesis_no_receiver
    = Ok (Some (mk_msg 1 (GenesisFields 0 None 1))) ∧
  slp_checker.check_tx_slp examples.parse false examples.no_preflight
    examples.wallet100 examples.genesis_no_receiver None PyNone true
    = (Ok true, None).
Proof. repeat split; vm_compute; reflexivity. Qed.

(** C3.  A plain payment that spends the 100-unit token outpoint named in
    the burn list is accepted although [amt_to_burn] is 40: every coin of the
    list is flagged, so the comparison inside the loop is never reached. *)
Theorem C3_burn_amount_mismatch_is_accepted :
  slp_checker.parse_own examples.parse examples.plain_spend = Ok None ∧
  ∃ coins,
    slp_checker.check_tx_slp examples.parse false examples.no_preflight
      examples.wallet100 examples.plain_spend
      (Some [examples.burn_coin 100]) (PyInt 40) true
    = (Ok true, Some coins) ∧
    burned_sum coins = 100%Z ∧
    burned_sum coins ≠ 40%Z.
Proof.
  split; [reflexivity|].
  eexists. split; [vm_compute; reflexivity|].
  split; [reflexivity | discriminate].
Qed.

(** ** Properties of the NFT1-child validators *)

Section validator_properties.
Import electroncash_nft1.

Variable parseSlpOutputScript : dest → parse_result.
Variable network_get : string → response.
Variable run_parent_job : Transaction → option (string * nat).

Local Abbreviation ec_validate :=
  (validate parseSlpOutputScript network_get run_parent_job).

(** Past its gates, [validate] is the decision on the inputs, and neither
    the environment nor the job is touched. *)
Lemma validate_reaches_decision tid e j myinfo inputs_info :
  reaches_decision parseSlpOutputScript j myinfo →
  ec_validate tid e (JobNFT1Child j) myinfo inputs_info
  = (let! r := decide_node j myinfo inputs_info in Ok (r, e, JobNFT1Child j)).
Proof.
  intros (Hv & Hf & Hm & parent_tx & Hp & Hg). unfold validate.
  rewrite (proj2 (Nat.ltb_ge _ _) Hv), Hf.
  rewrite bool_decide_eq_false_2 by done.
  rewrite Hp. simpl. by rewrite Hg.
Qed.

Lemma decide_node_send j m inputs_info :
  decide_node j (MySum m) inputs_info
  = if bool_decide (insum_all inputs_info < m)%Z then Ok (Some (false, 3%nat))
    else if bool_decide (1 < insum_valid inputs_info)%Z
         then Raise ValidInputMoreThanOne
    else if bool_decide (m ≤ insum_valid inputs_info)%Z
         then Ok (Some (true, 1%nat))
    else Ok None.
Proof.
  unfold decide_node.
  repeat case_bool_decide;
    repeat match goal with
      | |- context [(?a <? ?b)%Z] => destruct (Z.ltb_spec a b); try lia
      | |- context [(?a >? ?b)%Z] =>
          rewrite (Z.gtb_ltb a b); destruct (Z.ltb_spec b a); try lia
      | |- context [(?a >=? ?b)%Z] =>
          rewrite (Z.geb_leb a b); destruct (Z.leb_spec b a); try lia
      end; done.
Qed.

(** C4.  A SEND node whose own contribution is [m], once [validate] is past
    its parent gates: if the contributions of the Unknown-or-Valid inputs
    sum to less than [m] the result is Invalid with reason 3; otherwise, if
    the contributions of the Valid inputs sum to more than 1, the
    per-instance validator raises; otherwise it is Valid when that sum
    reaches [m] and Pending when it does not.  The module-global validator,
    once the parent transaction is known, has the same three results and no
    raise. *)
Theorem C4_send_decision tid e j m inputs_info :
  reaches_decision parseSlpOutputScript j (MySum m) →
  let outcome := ec_validate tid e (JobNFT1Child j) (MySum m) inputs_info in
  let returns r := Ok (r, e, JobNFT1Child j) in
  let all := insum_all inputs_info in
  let valid := insum_valid inputs_info in
  ((all < m)%Z → outcome = returns (Some (false, 3%nat))) ∧
  ((m ≤ all)%Z → (1 < valid)%Z → outcome = Raise ValidInputMoreThanOne) ∧
  ((m ≤ all)%Z → (valid ≤ 1)%Z → (m ≤ valid)%Z →
     outcome = returns (Some (true, 1%nat))) ∧
  ((m ≤ all)%Z → (valid ≤ 1)%Z → (valid < m)%Z → outcome = returns None) ∧
  ∀ lib_tid st,
    is_Some (lib_nft1.nft_parent_tx st) →
    let lib_outcome := lib_nft1.validate lib_tid st (MySum m) inputs_info in
    ((all < m)%Z → lib_outcome = (Ok (Some (false, 3%nat)), st)) ∧
    ((m ≤ all)%Z → (m ≤ valid)%Z → lib_outcome = (Ok (Some (true, 1%nat)), st)) ∧
    ((m ≤ all)%Z → (valid < m)%Z → lib_outcome = (Ok None, st)).
Proof.
  intros Hr outcome returns all valid.
  assert (Hout : outcome
                 = (let! r := decide_node j (MySum m) inputs_info in returns r))
    by (by apply validate_reaches_decision).
  rewrite decide_node_send in Hout. fold all valid in Hout.
  split_and!.
  - intros. rewrite Hout. rewrite bool_decide_eq_true_2 by done. done.
  - intros. rewrite Hout.
    rewrite bool_decide_eq_false_2 by lia.
    rewrite bool_decide_eq_true_2 by done. done.
  - intros. rewrite Hout.
    rewrite !bool_decide_eq_false_2 by lia.
    rewrite bool_decide_eq_true_2 by done. done.
  - intros. rewrite Hout.
    rewrite !bool_decide_eq_false_2 by lia. done.
  - intros lib_tid st [ptx Hp] lib_outcome. subst lib_outcome.
    unfold lib_nft1.validate. rewrite Hp. fold all valid.
    split_and!; intros.
    + by rewrite (proj2 (Z.ltb_lt _ _)).
    + rewrite (proj2 (Z.ltb_ge _ _)) by done.
      by rewrite Z.geb_leb, (proj2 (Z.leb_le _ _)).
    + rewrite (proj2 (Z.ltb_ge _ _)) by done.
      by rewrite Z.geb_leb, (proj2 (Z.leb_gt _ _)).
Qed.

(** C6.  For a SEND node past the parent gates of the per-instance
    validator, [validate] raises its valid-input exception exactly when the
    Unknown-or-Valid contributions reach the node's own contribution and
    the Valid contributions sum to more than 1. *)
Theorem C6_valid_sum_above_one tid e j m inputs_info :
  reaches_decision parseSlpOutputScript j (MySum m) →
  ec_validate tid e (JobNFT1Child j) (MySum m) inputs_info
    = Raise ValidInputMoreThanOne
  ↔ (m ≤ insum_all inputs_info)%Z ∧ (1 < insum_valid inputs_info)%Z.
Proof.
  intros Hr. rewrite validate_reaches_decision by done.
  rewrite decide_node_send.
  repeat case_bool_decide; simpl; split; try done; try lia; intros [??]; lia.
Qed.

(** The module-global validator never raises on a SEND node. *)
Lemma lib_validate_send_returns lib_tid st m inputs_info :
  ∃ r st', lib_nft1.validate lib_tid st (MySum m) inputs_info = (Ok r, st').
Proof.
  unfold lib_nft1.validate.
  destruct (lib_nft1.nft_parent_tx st); [|by eauto].
  destruct (_ <? _)%Z; [by eauto|].
  destruct (_ >=? _)%Z; by eauto.
Qed.

(** C10.  With no parent invalidity and no forced failure on the current
    NFT-child job, a node whose own contribution is the integer 0 is Valid
    for every [inputs_info]; nothing is requested from the network and
    neither the wallet nor the job changes, whether or not the parent has
    been fetched or found valid. *)
Theorem C10_zero_sum_is_valid tid e j inputs_info :
  nft_parent_validity j ≤ 1 →
  forced_failure j = None →
  ec_validate tid e (JobNFT1Child j) (MySum 0) inputs_info
  = Ok (Some (true, 1%nat), e, JobNFT1Child j).
Proof.
  intros Hv Hf. unfold validate.
  by rewrite (proj2 (Nat.ltb_ge _ _) Hv), Hf.
Qed.

End validator_properties.

(** ** Properties of the two classifiers *)

Section get_info_properties.
Variable parseSlpOutputScript : dest → parse_result.

Local Abbreviation lib_get_info := (lib_nft1.get_info parseSlpOutputScript).
Local Abbreviation ec_get_info := (electroncash_nft1.get_info parseSlpOutputScript).

(** GENESIS in the per-instance classifier: pruned as malformed exactly when
    a baton is declared, the decimals are not 0 or the quantity is not 1;
    otherwise classified with no relevant input. *)
Lemma ec_get_info_genesis tx o rest decimals baton q diff :
  outputs tx = o :: rest →
  parseSlpOutputScript (out_dest o)
    = Parsed (mk_msg 65 (GenesisFields decimals baton q)) →
  (ec_get_info (Some (txid tx)) tx diff = Ok (Prune 2)
   ↔ baton ≠ None ∨ decimals ≠ 0%Z ∨ q ≠ 1%Z) ∧
  (¬ (baton ≠ None ∨ decimals ≠ 0%Z ∨ q ≠ 1%Z) →
   ec_get_info (Some (txid tx)) tx diff
   = Ok (Info (replicate (length (inputs tx)) false) MyGenesis
              (fit_outputs [None; Some q] (length (outputs tx))))).
Proof.
  intros Ho Hp. unfold electroncash_nft1.get_info. rewrite Ho, Hp. simpl.
  rewrite (bool_decide_eq_true_2 (Some (txid tx) = Some (txid tx))) by done.
  simpl. rewrite andb_false_r. simpl.
  case_bool_decide as Hb; [split; [split; [auto | done] | tauto]|].
  destruct (Z.eqb_spec decimals 0) as [->|Hd]; simpl;
    [|split; [split; [auto | done] | tauto]].
  destruct (Z.eqb_spec q 1) as [->|Hq]; simpl;
    [|split; [split; [auto | done] | tauto]].
  subst baton. destruct diff; simpl.
  all: split; [|done]; split; [done|]; intros [?|[?|?]]; done.
Qed.

(** The same in the module-global classifier, whose quantity test is
    [> 1]. *)
Lemma lib_get_info_genesis tx o rest decimals baton q :
  outputs tx = o :: rest →
  parseSlpOutputScript (out_dest o)
    = Parsed (mk_msg 65 (GenesisFields decimals baton q)) →
  lib_get_info (Some (txid tx)) tx = Ok (Prune 2)
  ↔ baton ≠ None ∨ decimals ≠ 0%Z ∨ (1 < q)%Z.
Proof.
  intros Ho Hp. unfold lib_nft1.get_info. rewrite Ho, Hp. simpl.
  rewrite (bool_decide_eq_true_2 (Some (txid tx) = Some (txid tx))) by done.
  simpl.
  case_bool_decide as Hb; [split; [auto | done]|].
  destruct (Z.eqb_spec decimals 0) as [->|Hd]; simpl; [|split; [auto | done]].
  rewrite Z.gtb_ltb.
  destruct (Z.ltb_spec 1 q) as [Hq|Hq]; simpl; [split; [auto | done]|].
  subst baton.
  split; [done|]. intros [?|[?|?]]; [done | done | lia].
Qed.

(** C8.  The module-global and the per-instance [get_info] return the same
    result on a transaction exactly when it is neither a type-65 SEND whose
    output list is not of length 2 with quantity 1 at index 1, nor a type-65
    GENESIS without baton, with 0 decimals and an initial quantity
    below 1. *)
Theorem C8_get_info_agree_iff self_token_id_hex tx :
  lib_get_info self_token_id_hex tx = ec_get_info self_token_id_hex tx false
  ↔ get_info_diverges parseSlpOutputScript tx = false.
Proof.
  unfold lib_nft1.get_info, electroncash_nft1.get_info, get_info_diverges.
  destruct (outputs tx) as [|o rest]; [done|].
  destruct (parseSlpOutputScript (out_dest o)) as [m| | |]; try done.
  destruct (token_type m =? 65)%Z; simpl; [|done].
  destruct (fields m) as [d b q|t b q|t outs|t]; simpl; try done.
  - (* GENESIS *)
    case_bool_decide as Hb.
    + rewrite bool_decide_eq_false_2 by done. done.
    + subst b.
      rewrite (bool_decide_eq_true_2 (@None nat = None) eq_refl). simpl.
      destruct (Z.eqb_spec d 0) as [->|Hd]; simpl; [|done].
      rewrite Z.gtb_ltb.
      destruct (Z.ltb_spec 1 q), (Z.eqb_spec q 1), (Z.ltb_spec q 1);
        simpl; try lia; try done;
        case_bool_decide; simpl; split; done.
  - (* SEND *)
    destruct (length outs =? 2)%nat; simpl.
    + destruct (outs !! 1%nat) as [q1|]; simpl.
      * destruct (Z.eqb_spec q1 1) as [->|Hq]; simpl.
        -- done.
        -- rewrite (bool_decide_eq_false_2 (Some q1 = Some 1%Z)) by congruence.
           simpl. case_bool_decide; simpl; split; done.
      * case_bool_decide; simpl; split; done.
    + case_bool_decide; simpl; split; done.
Qed.

End get_info_properties.

(** ** Parent resolution of the per-instance validator *)

Section parent_resolution.
Import electroncash_nft1.

Variable parseSlpOutputScript : dest → parse_result.
Variable network_get : string → response.
Variable run_parent_job : Transaction → option (string * nat).





End parent_resolution.

(** ** Instances on the example data *)

Lemma example_reaches_decision m :
  m ≠ 0%Z →
  reaches_decision examples.parse examples.job_parent_valid (MySum m).
Proof.
  intros Hm. split_and!; [simpl; lia | reflexivity | congruence |].
  eexists. split; reflexivity.
Qed.

(** One valid input of one unit makes a one-unit SEND valid. *)
Lemma C4_send_decision_witness :
  electroncash_nft1.validate examples.parse examples.no_network
    examples.no_parent_job "nft" (examples.env_of examples.empty_wallet)
    (electroncash_nft1.JobNFT1Child examples.job_parent_valid)
    (MySum 1) [(0, 1, 1%Z)]%nat
  = Ok (Some (true, 1%nat), examples.env_of examples.empty_wallet,
        electroncash_nft1.JobNFT1Child examples.job_parent_valid).
Proof.
  pose proof (C4_send_decision examples.parse examples.no_network
                examples.no_parent_job "nft"
                (examples.env_of examples.empty_wallet)
                examples.job_parent_valid 1%Z [(0, 1, 1%Z)]%nat
                (example_reaches_decision 1%Z ltac:(lia)))
    as (_ & _ & Hvalid & _).
  apply Hvalid; vm_compute; congruence.
Defined.

(** C4, as stated, fails on the per-instance validator: with own
    contribution 2 and a single Valid input contributing 2, both sums reach
    2, yet the result is an exception and not Valid. *)
Lemma C4_counterexample :
  reaches_decision examples.parse examples.job_parent_valid (MySum 2) ∧
  insum_all [(0, 1, 2%Z)]%nat = 2%Z ∧
  insum_valid [(0, 1, 2%Z)]%nat = 2%Z ∧
  electroncash_nft1.validate examples.parse examples.no_network
    examples.no_parent_job "nft" (examples.env_of examples.empty_wallet)
    (electroncash_nft1.JobNFT1Child examples.job_parent_valid)
    (MySum 2) [(0, 1, 2%Z)]%nat
  = Raise ValidInputMoreThanOne.
Proof.
  split; [by apply example_reaches_decision|].
  split_and!; reflexivity.
Qed.

(** A single Valid input contributing 2 to a SEND of 2 triggers the
    exception. *)
Lemma C6_valid_sum_above_one_witness :
  electroncash_nft1.validate examples.parse examples.no_network
    examples.no_parent_job "nft" (examples.env_of examples.empty_wallet)
    (electroncash_nft1.JobNFT1Child examples.job_parent_valid)
    (MySum 2) [(0, 1, 2%Z)]%nat
  = Raise ValidInputMoreThanOne.
Proof.
  apply (C6_valid_sum_above_one examples.parse examples.no_network
           examples.no_parent_job "nft"
           (examples.env_of examples.empty_wallet)
           examples.job_parent_valid 2%Z [(0, 1, 2%Z)]%nat
           (example_reaches_decision 2%Z ltac:(lia))).
  split; vm_compute; congruence.
Defined.

(** C6, as stated, fails: with own contribution 5 and a single Valid input
    contributing 2, the Valid sum exceeds 1 and [validate] returns Invalid
    with reason 3 instead of raising. *)
Lemma C6_counterexample :
  reaches_decision examples.parse examples.job_parent_valid (MySum 5) ∧
  (1 < insum_valid [(0, 1, 2%Z)]%nat)%Z ∧
  electroncash_nft1.validate examples.parse examples.no_network
    examples.no_parent_job "nft" (examples.env_of examples.empty_wallet)
    (electroncash_nft1.JobNFT1Child examples.job_parent_valid)
    (MySum 5) [(0, 1, 2%Z)]%nat
  = Ok (Some (false, 3%nat), examples.env_of examples.empty_wallet,
        electroncash_nft1.JobNFT1Child examples.job_parent_valid).
Proof.
  split; [by apply example_reaches_decision|].
  split; [vm_compute; congruence | reflexivity].
Qed.

(** A zero-sum node is Valid on a job that has not even fetched its
    parent, with no transaction store and no network to ask. *)
Lemma C10_zero_sum_is_valid_witness :
  electroncash_nft1.validate examples.parse examples.no_network
    examples.no_parent_job "nft" (examples.env_of examples.empty_wallet)
    (electroncash_nft1.JobNFT1Child (examples.job_fresh examples.child_genesis))
    (MySum 0) [(0, 0, 7%Z)]%nat
  = Ok (Some (true, 1%nat), examples.env_of examples.empty_wallet,
        electroncash_nft1.JobNFT1Child (examples.job_fresh examples.child_genesis)).
Proof.
  apply C10_zero_sum_is_valid; [simpl; lia | reflexivity].
Defined.

(** C5.  The module-global classifier accepts an NFT1-child GENESIS that
    declares quantity 0 (no baton, 0 decimals, matching token id), where the
    per-instance classifier prunes it as malformed. *)
Theorem C5_lib_accepts_zero_quantity_genesis :
  examples.parse (ScriptOutput "NFT1 GENESIS qty0")
    = Parsed (mk_msg 65 (GenesisFields 0 None 0)) ∧
  lib_nft1.get_info examples.parse (Some "nft0") examples.nft_genesis_qty0
    = Ok (Info [false] MyGenesis [None; Some 0%Z]) ∧
  electroncash_nft1.get_info examples.parse (Some "nft0")
    examples.nft_genesis_qty0 false
    = Ok (Prune 2).
Proof. split_and!; reflexivity. Qed.

(** C8, as stated, fails: a type-65 SEND with two one-unit token outputs is
    pruned as malformed by the module-global classifier and classified by
    the per-instance one. *)
Lemma C8_counterexample :
  lib_nft1.get_info examples.parse (Some "nft") examples.nft_send_1_1
    = Ok (Prune 2) ∧
  electroncash_nft1.get_info examples.parse (Some "nft") examples.nft_send_1_1
    false
    = Ok (Info [true] (MySum 2) [Some 0%Z; Some 1%Z; Some 1%Z]) ∧
  lib_nft1.get_info examples.parse (Some "nft") examples.nft_send_1_1
    ≠ electroncash_nft1.get_info examples.parse (Some "nft")
        examples.nft_send_1_1 false.
Proof. split_and!; [reflexivity | reflexivity | discriminate]. Qed.



(** ** What an accepted transaction guarantees *)

Section checker_acceptance.
Import slp_checker.

Variable parseSlpOutputScript : dest → parse_result.
Variable SLP_PREFLIGHT_CHECK : bool.
Variable preflight_ok : Transaction → option (list coin) → pyval → bool.

Local Abbreviation check :=
  (check_tx_slp parseSlpOutputScript SLP_PREFLIGHT_CHECK preflight_ok).

(** An accepted call went through every step. *)
Lemma check_ok_inv w tx coins amt (req : bool) b :
  fst (check w tx coins amt req) = Ok b →
  burn_args_check coins amt = Ok tt ∧
  (if req then check_inputs_known parseSlpOutputScript w (inputs tx) else Ok tt)
    = Ok tt ∧
  ∃ slp_msg,
    parse_own parseSlpOutputScript tx = Ok slp_msg ∧
    fst (check_step3 w tx coins amt slp_msg) = Ok tt ∧
    snd (check w tx coins amt req)
      = coins_after coins (snd (check_step3 w tx coins amt slp_msg)) ∧
    preflight_step SLP_PREFLIGHT_CHECK preflight_ok tx
      (snd (check w tx coins amt req)) amt = Ok b.
Proof.
  unfold check_tx_slp.
  destruct (burn_args_check coins amt) as [[]|e]; [|done].
  destruct (if req then _ else _) as [[]|e]; [|done].
  destruct (parse_own parseSlpOutputScript tx) as [slp_msg|e]; [|done].
  destruct (check_step3 w tx coins amt slp_msg) as [r coins'] eqn:H3.
  simpl. destruct r as [[]|e]; [|done]. simpl. intros Hpre.
  split_and!; try done. exists slp_msg. by rewrite H3.
Qed.

Lemma check_input_known_ok w txo :
  check_input_known parseSlpOutputScript w txo = Ok tt →
  ∃ input_tx,
    transactions w !! prevout_hash txo = Some input_tx ∧
    ∀ o rest m,
      outputs input_tx = o :: rest →
      parseSlpOutputScript (out_dest o) = Parsed m →
      input_not_tracked m (prevout_n txo) = false →
      is_Some (slp_txo_lookup w txo).
Proof.
  unfold check_input_known.
  destruct (transactions w !! prevout_hash txo) as [input_tx|]; [|done].
  intros H. exists input_tx. split; [done|].
  intros o rest m Ho Hp Hn. rewrite Ho, Hp, Hn in H.
  destruct (slp_txo_lookup w txo); [by eexists | done].
Qed.

(** X1.  When step 1 is asked for and the call is accepted, the wallet holds
    the source transaction of every input, and every input that spends a
    token-carrying outpoint of an SLP source transaction is on record in
    [_slp_txo]. *)
Theorem X1_accepted_inputs_are_known w tx coins amt b txo :
  fst (check w tx coins amt true) = Ok b →
  txo ∈ inputs tx →
  ∃ input_tx,
    transactions w !! prevout_hash txo = Some input_tx ∧
    ∀ o rest m,
      outputs input_tx = o :: rest →
      parseSlpOutputScript (out_dest o) = Parsed m →
      input_not_tracked m (prevout_n txo) = false →
      is_Some (slp_txo_lookup w txo).
Proof.
  intros Hok Hin. apply check_ok_inv in Hok as (_ & H1 & _).
  induction (inputs tx) as [|t ins IH]; [by apply elem_of_nil in Hin|].
  simpl in H1.
  destruct (check_input_known parseSlpOutputScript w t) as [[]|e] eqn:Ht;
    [|done].
  apply elem_of_cons in Hin as [->|Hin].
  - by apply check_input_known_ok.
  - by apply IH.
Qed.

(** The input loop of a SEND succeeds only if no tracked non-zero input has
    another token id, and fails with SlpWrongTokenID only. *)
Lemma send_input_qty_inv w tid ins acc :
  match send_input_qty w tid ins acc with
  | Ok _ => inputs_match_token w tid ins
  | Raise e => e = SlpWrongTokenID ∧ ¬ inputs_match_token w tid ins
  end.
Proof.
  revert acc. induction ins as [|txo ins IH]; intros acc.
  - simpl. intros t r Hin. by apply elem_of_nil in Hin.
  - cbn [send_input_qty].
    assert (Hext : ∀ acc',
      (∀ r, slp_txo_lookup w txo = Some r → qty r ≠ QtyInt 0 →
            token_id r = tid) →
      match send_input_qty w tid ins acc' with
      | Ok _ => inputs_match_token w tid (txo :: ins)
      | Raise e => e = SlpWrongTokenID ∧ ¬ inputs_match_token w tid (txo :: ins)
      end).
    { intros acc' Hhead. specialize (IH acc').
      destruct (send_input_qty w tid ins acc') as [v|e].
      - intros t r [->|Hin]%elem_of_cons Hl Hq; [by eapply Hhead | by eapply IH].
      - destruct IH as [-> Hn]. split; [done|]. intros Hm. apply Hn.
        by eapply inputs_match_token_cons. }
    destruct (slp_txo_lookup w txo) as [r|] eqn:Hl.
    + destruct (qty r) as [q|] eqn:Hq.
      * destruct q as [|p|p].
        -- apply Hext. intros r' [= <-]. by rewrite Hq.
        -- destruct (String.eqb_spec (token_id r) tid) as [Ht|Ht]; simpl.
           ++ apply Hext. by intros r' [= <-].
           ++ split; [done|]. intros Hm. apply Ht.
              eapply Hm; [apply list_elem_of_here | done | by rewrite Hq].
        -- destruct (String.eqb_spec (token_id r) tid) as [Ht|Ht]; simpl.
           ++ apply Hext. by intros r' [= <-].
           ++ split; [done|]. intros Hm. apply Ht.
              eapply Hm; [apply list_elem_of_here | done | by rewrite Hq].
      * destruct (String.eqb_spec (token_id r) tid) as [Ht|Ht]; simpl.
        -- apply Hext. by intros r' [= <-].
        -- split; [done|]. intros Hm. apply Ht.
           eapply Hm; [apply list_elem_of_here | done | by rewrite Hq].
    + apply Hext. by intros r' [=].
Qed.

Lemma send_quantity_check_ok coins amt qin outs :
  send_quantity_check coins amt qin outs = Ok tt →
  (sum_Z outs ≤ qin)%Z ∧
  (coins_truthy coins = false → qin = sum_Z outs) ∧
  (coins_truthy coins = true → ∃ a, amt = PyInt a ∧ (qin - a)%Z = sum_Z outs).
Proof.
  unfold send_quantity_check.
  destruct (Z.ltb_spec qin (sum_Z outs)); [done|].
  destruct (coins_truthy coins).
  - destruct amt as [|a|]; try done.
    destruct (Z.eqb_spec (qin - a) (sum_Z outs)); [|done].
    intros _. split_and!; [done | done | by eauto].
  - rewrite Z.gtb_ltb. destruct (Z.ltb_spec (sum_Z outs) qin); [done|].
    intros _. split_and!; [done | intros; lia | done].
Qed.

(** X2.  An accepted SEND conserves quantity: no tracked non-zero input has
    another token id, the wallet-tracked integer inputs sum to at least the
    declared outputs, to exactly the declared outputs when there is no burn
    list, and to the declared outputs plus [amt_to_burn] when there is
    one. *)
Theorem X2_accepted_send_conserves w tx coins amt req b tt0 tid outs :
  fst (check w tx coins amt req) = Ok b →
  parse_own parseSlpOutputScript tx = Ok (Some (mk_msg tt0 (SendFields tid outs))) →
  inputs_match_token w tid (inputs tx) ∧
  (sum_Z outs ≤ wallet_input_sum w tx)%Z ∧
  (coins_truthy coins = false → wallet_input_sum w tx = sum_Z outs) ∧
  (coins_truthy coins = true →
     ∃ a, amt = PyInt a ∧ (wallet_input_sum w tx - a)%Z = sum_Z outs).
Proof.
  intros Hok Hp. apply check_ok_inv in Hok as (_ & _ & msg & Hp' & H3 & _).
  rewrite Hp in Hp'. injection Hp' as <-.
  unfold check_step3 in H3. simpl in H3. unfold check_send in H3.
  pose proof (send_input_qty_inv w tid (inputs tx) 0) as Hinv.
  destruct (send_input_qty w tid (inputs tx) 0) as [v|e] eqn:Hq; [|done].
  rewrite send_input_qty_sum in Hq by done. injection Hq as <-.
  simpl in H3.
  replace (0 + sum_Z (tracked_int_qty w <$> inputs tx))%Z
    with (wallet_input_sum w tx) in H3 by (unfold wallet_input_sum; lia).
  destruct (send_quantity_check coins amt (wallet_input_sum w tx) outs)
    as [[]|e] eqn:Hc; [|done].
  apply send_quantity_check_ok in Hc as (? & ? & ?). done.
Qed.

Lemma kind_not_standard_false d :
  kind_not_standard d = Ok false → standard_dest d.
Proof.
  destruct d as [k|]; [|done]. simpl. intros [= H].
  exists k. split; [done|].
  apply negb_false_iff, orb_true_iff in H as [H|H]; apply Z.eqb_eq in H; auto.
Qed.

Lemma send_outputs_check_ok tx i n :
  send_outputs_check tx i n = Ok tt →
  i + n ≤ max i (length (outputs tx)) ∧
  ∀ k out, i ≤ k < i + n → outputs tx !! k = Some out →
    if (k =? 0)%nat then out_type out = TYPE_SCRIPT
    else standard_dest (out_dest out).
Proof.
  revert i. induction n as [|n IH]; intros i; simpl.
  - intros _. split; [lia|]. intros; lia.
  - destruct (outputs tx !! i) as [out|] eqn:Ho; [|done].
    apply lookup_lt_Some in Ho as Hlt.
    assert (Hrest : send_outputs_check tx (S i) n = Ok tt →
              (if (i =? 0)%nat then out_type out = TYPE_SCRIPT
               else standard_dest (out_dest out)) →
              i + S n ≤ max i (length (outputs tx)) ∧
              ∀ k out0, i ≤ k < i + S n → outputs tx !! k = Some out0 →
                if (k =? 0)%nat then out_type out0 = TYPE_SCRIPT
                else standard_dest (out_dest out0)).
    { intros Hr Hi. apply IH in Hr as [Hle Hall]. split; [lia|].
      intros k out0 Hk Hk0.
      destruct (decide (k = i)) as [->|Hne].
      - rewrite Ho in Hk0. by injection Hk0 as <-.
      - apply Hall; [lia | done]. }
    destruct (Nat.eqb_spec i 0) as [->|Hi].
    + destruct (Z.eqb_spec (out_type out) TYPE_SCRIPT); [|done].
      intros Hr. by apply Hrest.
    + destruct (kind_not_standard (out_dest out)) as [[]|e] eqn:Hk; try done.
      simpl. intros Hr. apply Hrest; [done|].
      by apply kind_not_standard_false.
Qed.

(** X3.  In an accepted SEND every declared output index exists on the
    transaction, output 0 is a script output and every other declared index
    is a P2PKH or P2SH address. *)
Theorem X3_accepted_send_outputs w tx coins amt req b tt0 tid outs :
  fst (check w tx coins amt req) = Ok b →
  parse_own parseSlpOutputScript tx = Ok (Some (mk_msg tt0 (SendFields tid outs))) →
  length outs ≤ length (outputs tx) ∧
  ∀ k, k < length outs →
    ∃ out, outputs tx !! k = Some out ∧
      if (k =? 0)%nat then out_type out = TYPE_SCRIPT
      else standard_dest (out_dest out).
Proof.
  intros Hok Hp. apply check_ok_inv in Hok as (_ & _ & msg & Hp' & H3 & _).
  rewrite Hp in Hp'. injection Hp' as <-.
  unfold check_step3 in H3. simpl in H3. unfold check_send in H3.
  destruct (send_input_qty w tid (inputs tx) 0) as [v|e]; [|done].
  simpl in H3.
  destruct (send_quantity_check coins amt v outs) as [[]|e]; [|done].
  simpl in H3. apply send_outputs_check_ok in H3 as [Hle Hall].
  split; [lia|]. intros k Hk.
  destruct (outputs tx !! k) as [out|] eqn:Ho.
  - exists out. split; [done|]. apply Hall; [lia | done].
  - apply lookup_ge_None in Ho. lia.
Qed.

Lemma coin_matches_mark t txo c :
  coin_matches txo (mark_in_txn t c) = coin_matches txo c.
Proof. unfold mark_in_txn. by destruct (coin_matches t c). Qed.

Lemma in_burn_list_marked t coins txo :
  in_burn_list (map (mark_in_txn t) coins) txo → in_burn_list coins txo.
Proof.
  intros (c' & Hin & Hm). apply list_elem_of_fmap in Hin as (c & -> & Hin).
  exists c. split; [done|]. by rewrite coin_matches_mark in Hm.
Qed.

Lemma existsb_in_burn_list txo coins :
  existsb (coin_matches txo) coins = true → in_burn_list coins txo.
Proof.
  intros (c & Hin & Hm)%existsb_exists. exists c.
  split; [by apply list_elem_of_In | done].
Qed.

Lemma flag_raised_by_refl w ins c : flag_raised_by w ins c c.
Proof. repeat split; auto. Qed.

Lemma flag_raised_by_mark w ins t c c' :
  t ∈ ins → is_Some (slp_txo_lookup w t) →
  flag_raised_by w ins (mark_in_txn t c) c' → flag_raised_by w ins c c'.
Proof.
  intros Hin Hl. unfold mark_in_txn.
  destruct (coin_matches t c) eqn:Hm; [|done].
  intros [(Hh & Hn & Hv & Hf) Hby]. simpl in *.
  split.
  - split_and!; try done. destruct Hf as [-> | ->]; auto.
  - right. by exists t.
Qed.

Lemma flag_raised_by_weaken w t ins c c' :
  flag_raised_by w ins c c' → flag_raised_by w (t :: ins) c c'.
Proof.
  intros [Hf [Hs|(txo & Hin & Hm & Hl)]]; split; auto.
  right. exists txo. split_and!; try done. by apply list_elem_of_further.
Qed.

(** One marking step followed by more of the loop. *)
Lemma Forall2_flag_raised_by_step w t ins coins coins' :
  is_Some (slp_txo_lookup w t) →
  Forall2 (flag_raised_by w ins) (map (mark_in_txn t) coins) coins' →
  Forall2 (flag_raised_by w (t :: ins)) coins coins'.
Proof.
  intros Hl H.
  change (map (mark_in_txn t) coins) with (mark_in_txn t <$> coins) in H.
  rewrite Forall2_fmap_l in H.
  eapply Forall2_impl; [|exact H]. intros c c' Hc. simpl in Hc.
  eapply flag_raised_by_mark; [apply list_elem_of_here | done |].
  by apply flag_raised_by_weaken.
Qed.

Lemma Forall2_flag_raised_by_refl w ins coins :
  Forall2 (flag_raised_by w ins) coins coins.
Proof. apply Forall_Forall2_diag, Forall_forall. intros. apply flag_raised_by_refl. Qed.

Lemma non_slp_inputs_coins w ins coins :
  Forall2 (flag_raised_by w ins) coins (snd (non_slp_inputs w ins coins)).
Proof.
  revert coins. induction ins as [|t ins IH]; intros coins; simpl.
  - apply Forall2_flag_raised_by_refl.
  - destruct (slp_txo_lookup w t) as [r|] eqn:Hl.
    + destruct (existsb (coin_matches t) coins); simpl.
      * apply Forall2_flag_raised_by_step; [by eexists | apply IH].
      * apply Forall2_flag_raised_by_step; [by eexists |].
        apply Forall2_flag_raised_by_refl.
    + eapply Forall2_impl; [|apply IH]. intros. by apply flag_raised_by_weaken.
Qed.

Lemma genesis_inputs_check_coins w ins coins :
  Forall2 (flag_raised_by w ins) coins (snd (genesis_inputs_check w ins coins)).
Proof.
  revert coins. induction ins as [|t ins IH]; intros coins; simpl.
  - apply Forall2_flag_raised_by_refl.
  - assert (Hskip : Forall2 (flag_raised_by w (t :: ins)) coins
                      (snd (genesis_inputs_check w ins coins))).
    { eapply Forall2_impl; [|apply IH]. intros. by apply flag_raised_by_weaken. }
    assert (Hmark : is_Some (slp_txo_lookup w t) →
      Forall2 (flag_raised_by w (t :: ins)) coins
        (snd (let '(is_burn_allowed, coins') := allow_burn t coins in
              if is_burn_allowed then genesis_inputs_check w ins coins'
              else (Raise NonSlpTransactionHasSlpInputs, coins')))).
    { intros Hl. unfold allow_burn.
      destruct (existsb (coin_matches t) coins); simpl.
      - apply Forall2_flag_raised_by_step; [done | apply IH].
      - apply Forall2_flag_raised_by_step; [done |].
        apply Forall2_flag_raised_by_refl. }
    destruct (slp_txo_lookup w t) as [r|] eqn:Hl; [|done].
    destruct (qty r) as [[|p|p]|]; [done | | |]; by apply Hmark.
Qed.

Lemma non_slp_inputs_ok w ins coins txo :
  fst (non_slp_inputs w ins coins) = Ok tt →
  txo ∈ ins → is_Some (slp_txo_lookup w txo) → in_burn_list coins txo.
Proof.
  revert coins. induction ins as [|t ins IH]; intros coins Hok Hin Hl.
  { by apply elem_of_nil in Hin. }
  simpl in Hok.
  destruct (slp_txo_lookup w t) as [r|] eqn:Ht.
  - destruct (existsb (coin_matches t) coins) eqn:Hex; simpl in Hok; [|done].
    apply elem_of_cons in Hin as [->|Hin].
    + by apply existsb_in_burn_list.
    + eapply in_burn_list_marked, IH; done.
  - apply elem_of_cons in Hin as [->|Hin].
    + rewrite Ht in Hl. by destruct Hl.
    + by eapply IH.
Qed.

(** X4.  An accepted transaction that is not an SLP transaction spends no
    outpoint the wallet tracks, except those named in the burn list; with
    no burn list it spends none at all. *)
Theorem X4_accepted_non_slp_spends_only_burn_list w tx coins amt req b txo :
  fst (check w tx coins amt req) = Ok b →
  parse_own parseSlpOutputScript tx = Ok None →
  txo ∈ inputs tx →
  is_Some (slp_txo_lookup w txo) →
  coins_truthy coins = true ∧ in_burn_list (coins_list coins) txo.
Proof.
  intros Hok Hp Hin Hl.
  apply check_ok_inv in Hok as (_ & _ & msg & Hp' & H3 & _).
  rewrite Hp in Hp'. injection Hp' as <-.
  unfold check_step3 in H3.
  destruct (non_slp_inputs w (inputs tx) (coins_list coins)) as [r coins']
    eqn:Hn.
  simpl in H3. destruct r as [[]|e]; [|done].
  assert (Hb : in_burn_list (coins_list coins) txo).
  { eapply non_slp_inputs_ok; [by rewrite Hn | done | done]. }
  split; [|done].
  destruct Hb as (c & Hc & _). destruct coins as [[|c0 l]|]; simpl in *;
    [by apply elem_of_nil in Hc | done | by apply elem_of_nil in Hc].
Qed.

(** X5.  Whatever the outcome, the call leaves the burn list with the same
    coins in the same order: outpoint and [token_value] of each coin are
    untouched, and the only change is a flag [is_in_txn] set to [True] on
    coins that name an input of the transaction that the wallet tracks. *)
Theorem X5_burn_list_only_gets_flags w tx coins amt req :
  let coins' := snd (check w tx coins amt req) in
  (coins' = None ↔ coins = None) ∧
  Forall2 (flag_raised_by w (inputs tx)) (coins_list coins) (coins_list coins').
Proof.
  simpl. unfold check_tx_slp.
  assert (Hsame : (coins = None ↔ coins = None) ∧
            Forall2 (flag_raised_by w (inputs tx)) (coins_list coins)
                    (coins_list coins))
    by (split; [done | apply Forall2_flag_raised_by_refl]).
  destruct (burn_args_check coins amt) as [[]|e]; [|done].
  destruct (if req then _ else _) as [[]|e]; [|done].
  destruct (parse_own parseSlpOutputScript tx) as [slp_msg|e]; [|done].
  destruct (check_step3 w tx coins amt slp_msg) as [r coins'] eqn:H3.
  simpl.
  assert (Hinv : Forall2 (flag_raised_by w (inputs tx)) (coins_list coins) coins').
  { unfold check_step3 in H3.
    destruct slp_msg as [m|].
    - destruct (fields m).
      + pose proof (genesis_inputs_check_coins w (inputs tx) (coins_list coins)).
        destruct (genesis_inputs_check _ _ _); by injection H3 as _ <-.
      + injection H3 as _ <-. apply Forall2_flag_raised_by_refl.
      + injection H3 as _ <-. apply Forall2_flag_raised_by_refl.
      + injection H3 as _ <-. apply Forall2_flag_raised_by_refl.
    - pose proof (non_slp_inputs_coins w (inputs tx) (coins_list coins)).
      destruct (non_slp_inputs _ _ _); by injection H3 as _ <-. }
  destruct coins as [l|]; simpl in *; [done|].
  split; [done|]. apply Forall2_nil_inv_l in Hinv as ->. constructor.
Qed.

Lemma burn_total_loop_ok_flags amt coins total :
  burn_total_loop amt coins total = Ok tt →
  Forall (λ c, is_in_txn c ≠ None) coins.
Proof.
  revert total. induction coins as [|c coins IH]; intros total; [done|].
  simpl. destruct (is_in_txn c) as [[]|] eqn:Hf; [| |done].
  - destruct (token_value c) as [[|v|]|]; try done.
    + destruct (py_int_ne total amt); [done|]. intros H.
      constructor; [by rewrite Hf | by eapply IH].
    + intros H. constructor; [by rewrite Hf | by eapply IH].
    + destruct (py_int_ne total amt); [done|]. intros H.
      constructor; [by rewrite Hf | by eapply IH].
  - destruct (py_int_ne total amt); [done|]. intros H.
    constructor; [by rewrite Hf | by eapply IH].
Qed.

(** X6.  When a transaction that is not an SLP transaction is accepted with
    a burn list whose coins carry no flag on entry, every coin of the list
    names an input of the transaction that the wallet tracks: a burn list
    with a coin the transaction does not spend is refused. *)
Theorem X6_accepted_burn_list_is_spent w tx coins amt req b c :
  fst (check w tx coins amt req) = Ok b →
  parse_own parseSlpOutputScript tx = Ok None →
  Forall (λ c, is_in_txn c = None) (coins_list coins) →
  c ∈ coins_list coins →
  ∃ txo, txo ∈ inputs tx ∧ coin_matches txo c = true ∧
         is_Some (slp_txo_lookup w txo).
Proof.
  intros Hok Hp Hfresh Hc.
  apply check_ok_inv in Hok as (_ & _ & msg & Hp' & H3 & _).
  rewrite Hp in Hp'. injection Hp' as <-.
  unfold check_step3 in H3.
  pose proof (non_slp_inputs_coins w (inputs tx) (coins_list coins)) as Hinv.
  destruct (non_slp_inputs w (inputs tx) (coins_list coins)) as [r coins']
    eqn:Hn.
  simpl in H3, Hinv. destruct r as [[]|e]; [|done]. simpl in H3.
  assert (Ht : coins_truthy coins = true).
  { destruct coins as [[|c0 l]|]; simpl in *;
      [by apply elem_of_nil in Hc | done | by apply elem_of_nil in Hc]. }
  rewrite Ht in H3. apply burn_total_loop_ok_flags in H3.
  apply list_elem_of_lookup_1 in Hc as [i Hi].
  destruct (Forall2_lookup_l _ _ _ _ _ Hinv Hi) as (c' & Hi' & [_ Hby]).
  pose proof (Forall_lookup_1 _ _ _ _ Hfresh Hi) as Hnone.
  pose proof (Forall_lookup_1 _ _ _ _ H3 Hi') as Hsome.
  simpl in Hnone, Hsome.
  destruct Hby as [Heq|Hby]; [|done].
  rewrite Heq, Hnone in Hsome. done.
Qed.

Lemma mint_inputs_check_ok w tid ins :
  mint_inputs_check w tid ins = Ok tt →
  ∀ txo r, txo ∈ ins → slp_txo_lookup w txo = Some r →
    qty r ≠ QtyInt 0 → qty r = QtyBaton ∧ token_id r = tid.
Proof.
  induction ins as [|t ins IH]; intros Hok txo r Hin Hl Hq.
  { by apply elem_of_nil in Hin. }
  simpl in Hok.
  apply elem_of_cons in Hin as [->|Hin].
  - rewrite Hl in Hok. destruct (qty r) as [[|p|p]|]; try done.
    destruct (String.eqb_spec (token_id r) tid); done.
  - destruct (slp_txo_lookup w t) as [r0|]; [|by eapply IH].
    destruct (qty r0) as [[|p|p]|]; try done; [by eapply IH|].
    destruct (String.eqb (token_id r0) tid); [by eapply IH | done].
Qed.

(** X7.  In an accepted MINT every input that the wallet tracks with a
    non-zero quantity is a mint baton of the token being minted. *)
Theorem X7_accepted_mint_spends_only_its_baton
    w tx coins amt req b tt0 tid baton q txo r :
  fst (check w tx coins amt req) = Ok b →
  parse_own parseSlpOutputScript tx
    = Ok (Some (mk_msg tt0 (MintFields tid baton q))) →
  txo ∈ inputs tx →
  slp_txo_lookup w txo = Some r →
  qty r ≠ QtyInt 0 →
  qty r = QtyBaton ∧ token_id r = tid.
Proof.
  intros Hok Hp Hin Hl Hq.
  apply check_ok_inv in Hok as (_ & _ & msg & Hp' & H3 & _).
  rewrite Hp in Hp'. injection Hp' as <-.
  unfold check_step3 in H3. simpl in H3.
  destruct (mint_inputs_check w tid (inputs tx)) as [[]|e] eqn:Hm; [|done].
  by eapply mint_inputs_check_ok.
Qed.

Lemma genesis_inputs_check_ok w ins coins txo :
  fst (genesis_inputs_check w ins coins) = Ok tt →
  txo ∈ ins → tracked_nonzero w txo → in_burn_list coins txo.
Proof.
  revert coins. induction ins as [|t ins IH]; intros coins Hok Hin Hl.
  { by apply elem_of_nil in Hin. }
  simpl in Hok.
  assert (Hmark :
    fst (let '(is_burn_allowed, coins') := allow_burn t coins in
         if is_burn_allowed then genesis_inputs_check w ins coins'
         else (Raise NonSlpTransactionHasSlpInputs, coins')) = Ok tt →
    in_burn_list coins txo).
  { unfold allow_burn.
    destruct (existsb (coin_matches t) coins) eqn:Hex; simpl; [|done].
    intros Hr. apply elem_of_cons in Hin as [->|Hin].
    - by apply existsb_in_burn_list.
    - eapply in_burn_list_marked, IH; done. }
  destruct (slp_txo_lookup w t) as [r0|] eqn:Ht.
  - destruct (qty r0) as [[|p|p]|] eqn:Hq0; try by apply Hmark.
    apply elem_of_cons in Hin as [->|Hin]; [|by eapply IH].
    destruct Hl as (r & Hr & Hq). rewrite Ht in Hr. injection Hr as <-.
    by rewrite Hq0 in Hq.
  - apply elem_of_cons in Hin as [->|Hin]; [|by eapply IH].
    destruct Hl as (r & Hr & _). by rewrite Ht in Hr.
Qed.

(** X8.  An accepted GENESIS spends no outpoint that the wallet tracks with
    a non-zero quantity, except those named in the burn list. *)
Theorem X8_accepted_genesis_spends_only_burn_list
    w tx coins amt req b tt0 decimals baton q txo :
  fst (check w tx coins amt req) = Ok b →
  parse_own parseSlpOutputScript tx
    = Ok (Some (mk_msg tt0 (GenesisFields decimals baton q))) →
  txo ∈ inputs tx →
  tracked_nonzero w txo →
  in_burn_list (coins_list coins) txo.
Proof.
  intros Hok Hp Hin Hl.
  apply check_ok_inv in Hok as (_ & _ & msg & Hp' & H3 & _).
  rewrite Hp in Hp'. injection Hp' as <-.
  unfold check_step3 in H3. simpl in H3.
  destruct (genesis_inputs_check w (inputs tx) (coins_list coins))
    as [r coins'] eqn:Hg.
  simpl in H3. destruct r as [[]|e]; [|done].
  eapply genesis_inputs_check_ok; [by rewrite Hg | done | done].
Qed.

Lemma mint_outputs_check_ok tx n :
  n ≠ 0 →
  mint_outputs_check tx (Some n) = Ok tt →
  ∃ out_baton out1,
    outputs tx !! n = Some out_baton ∧ standard_dest (out_dest out_baton) ∧
    outputs tx !! 1 = Some out1 ∧ standard_dest (out_dest out1).
Proof.
  intros Hn. unfold mint_outputs_check. simpl.
  rewrite (proj2 (Nat.eqb_neq _ _) Hn). simpl.
  destruct (outputs tx !! n) as [ob|]; [|done].
  destruct (kind_not_standard (out_dest ob)) as [[]|e] eqn:Hb; try done.
  simpl. destruct (outputs tx !! 1) as [o1|]; [|done].
  destruct (kind_not_standard (out_dest o1)) as [[]|e] eqn:H1; try done.
  intros _. exists ob, o1.
  split_and!; try done; by apply kind_not_standard_false.
Qed.

(** X9.  In an accepted GENESIS or MINT that declares a non-zero baton
    index, the baton output and output 1 both exist on the transaction and
    are P2PKH or P2SH addresses. *)
Theorem X9_accepted_baton_outputs w tx coins amt req b m n :
  fst (check w tx coins amt req) = Ok b →
  parse_own parseSlpOutputScript tx = Ok (Some m) →
  baton_of m = Some n →
  n ≠ 0 →
  ∃ out_baton out1,
    outputs tx !! n = Some out_baton ∧ standard_dest (out_dest out_baton) ∧
    outputs tx !! 1 = Some out1 ∧ standard_dest (out_dest out1).
Proof.
  intros Hok Hp Hb Hn.
  apply check_ok_inv in Hok as (_ & _ & msg & Hp' & H3 & _).
  rewrite Hp in Hp'. injection Hp' as <-.
  unfold check_step3 in H3. unfold baton_of in Hb.
  destruct (fields m) as [d b0 q|t b0 q| |]; try done; subst b0.
  - destruct (genesis_inputs_check w (inputs tx) (coins_list coins))
      as [r coins'].
    simpl in H3. destruct r as [[]|e]; [|done].
    by apply mint_outputs_check_ok.
  - simpl in H3.
    destruct (mint_inputs_check w t (inputs tx)) as [[]|e]; [|done].
    by apply mint_outputs_check_ok.
Qed.

(** X10.  The call never returns [False]: what it returns is [True], and
    when the pre-flight check is switched on it returns only if the
    pre-flight query, made with the burn list as the call leaves it,
    answered ok. *)
Theorem X10_accepted_means_true_and_preflight_ok w tx coins amt req b :
  fst (check_tx_slp parseSlpOutputScript SLP_PREFLIGHT_CHECK
         preflight_ok w tx coins amt req) = Ok b →
  b = true ∧
  (SLP_PREFLIGHT_CHECK = true →
   preflight_ok tx
     (snd (check_tx_slp parseSlpOutputScript SLP_PREFLIGHT_CHECK
             preflight_ok w tx coins amt req)) amt = true).
Proof.
  intros Hok. apply check_ok_inv in Hok as (_ & _ & msg & _ & _ & _ & Hpre).
  unfold preflight_step in Hpre.
  destruct SLP_PREFLIGHT_CHECK; simpl in Hpre.
  - destruct (preflight_ok _ _ _); [|done]. by injection Hpre as <-.
  - by injection Hpre as <-.
Qed.

End checker_acceptance.

(** ** What a classification guarantees *)

Section classification.
Variable parseSlpOutputScript : dest → parse_result.

Local Abbreviation lib_get_info := (lib_nft1.get_info parseSlpOutputScript).
Local Abbreviation ec_get_info := (electroncash_nft1.get_info parseSlpOutputScript).

Lemma fit_outputs_length outs n : length (fit_outputs outs n) = n.
Proof.
  unfold fit_outputs. rewrite length_app, length_replicate, length_take. lia.
Qed.

Lemma fit_outputs_lookup (token_output : list Z) n i :
  i < n →
  fit_outputs (Some <$> token_output) n !! i = Some (token_output !! i).
Proof.
  intros Hi. unfold fit_outputs.
  destruct (decide (i < length token_output)) as [Hlt|Hge].
  - rewrite lookup_app_l by (rewrite length_take, length_fmap; lia).
    rewrite lookup_take_lt by done. rewrite list_lookup_fmap.
    destruct (token_output !! i) eqn:E; [done|].
    apply lookup_ge_None in E. lia.
  - rewrite lookup_app_r by (rewrite length_take, length_fmap; lia).
    rewrite (proj2 (lookup_ge_None token_output i)) by lia.
    apply lookup_replicate_2.
    rewrite length_take, length_fmap. lia.
Qed.

(** X11.  Whenever either classifier returns a classification, its input
    mask has one entry per transaction input and its output tuple one entry
    per transaction output. *)
Theorem X11_get_info_shape self_token_id_hex tx diff vin_mask myinfo outs :
  electroncash_nft1.get_info parseSlpOutputScript self_token_id_hex tx diff
    = Ok (Info vin_mask myinfo outs)
  ∨ lib_nft1.get_info parseSlpOutputScript self_token_id_hex tx
    = Ok (Info vin_mask myinfo outs) →
  length vin_mask = length (inputs tx) ∧ length outs = length (outputs tx).
Proof.
  unfold electroncash_nft1.get_info, lib_nft1.get_info.
  destruct (outputs tx) as [|o rest] eqn:Ho; [by intros [|]|].
  destruct (parseSlpOutputScript (out_dest o)) as [m| | |]; try by intros [|].
  destruct (token_type m =? 65)%Z; simpl; [|by intros [|]].
  destruct (fields m) as [d b q|t b q|t out|t]; simpl; try by intros [|].
  - intros [H|H].
    + repeat case_match; try done; injection H as <- <- <-;
        by rewrite length_replicate, fit_outputs_length.
    + repeat case_match; try done; injection H as <- <- <-;
        by rewrite length_replicate, fit_outputs_length.
  - intros [H|H].
    + repeat case_match; try done; injection H as <- <- <-;
        by rewrite length_replicate, fit_outputs_length.
    + repeat case_match; try done; injection H as <- <- <-;
        by rewrite length_replicate, fit_outputs_length.
Qed.

(** X12.  With [diff_testing_mode] off, the per-instance classifier returns
    a classification only for a type-65 message that is either a SEND of
    the validator's own token id (all inputs relevant, own contribution the
    sum of the declared outputs) or the validator's own unit-supply GENESIS
    (no baton, 0 decimals, quantity 1; no input relevant). *)
Theorem X12_classified_is_own_send_or_genesis
    self_token_id_hex tx vin_mask myinfo outs :
  electroncash_nft1.get_info parseSlpOutputScript self_token_id_hex tx false
    = Ok (Info vin_mask myinfo outs) →
  ∃ o rest m,
    outputs tx = o :: rest ∧
    parseSlpOutputScript (out_dest o) = Parsed m ∧
    token_type m = 65%Z ∧
    ((∃ tid token_output,
        fields m = SendFields tid token_output ∧
        self_token_id_hex = Some tid ∧
        myinfo = MySum (sum_Z token_output) ∧
        vin_mask = replicate (length (inputs tx)) true)
     ∨ (fields m = GenesisFields 0 None 1 ∧
        self_token_id_hex = Some (txid tx) ∧
        myinfo = MyGenesis ∧
        vin_mask = replicate (length (inputs tx)) false)).
Proof.
  unfold electroncash_nft1.get_info.
  destruct (outputs tx) as [|o rest] eqn:Ho; [done|].
  destruct (parseSlpOutputScript (out_dest o)) as [m| | |] eqn:Hp; try done.
  destruct (Z.eqb_spec (token_type m) 65) as [Ht|]; simpl; [|done].
  destruct (fields m) as [d b q|t b q|t out|t] eqn:Hf; simpl; try done.
  - case_bool_decide as Hb; [done|]. subst b.
    destruct (Z.eqb_spec d 0) as [->|]; simpl; [|done].
    destruct (Z.eqb_spec q 1) as [->|]; simpl; [|done].
    case_bool_decide as Hs; simpl; [|done].
    intros [= <- <- <-]. exists o, rest, m. split_and!; try done.
    right. by rewrite Hf.
  - case_bool_decide as Hs; simpl; [|done].
    intros [= <- <- <-]. exists o, rest, m. split_and!; try done.
    left. exists t, out. by rewrite Hf.
Qed.

Lemma ec_get_info_send
    self_token_id_hex tx diff vin_mask myinfo outs o rest tt0 tid token_output :
  outputs tx = o :: rest →
  parseSlpOutputScript (out_dest o) = Parsed (mk_msg tt0 (SendFields tid token_output)) →
  ec_get_info self_token_id_hex tx diff = Ok (Info vin_mask myinfo outs) →
  myinfo = MySum (sum_Z token_output) ∧
  outs = fit_outputs (Some <$> token_output) (length (outputs tx)).
Proof.
  intros Ho Hp. unfold electroncash_nft1.get_info. rewrite Ho, Hp. simpl.
  destruct (tt0 =? 65)%Z; simpl; [|done].
  intros H. repeat case_match; try done; by injection H as <- <- <-.
Qed.

(** X13.  For a SEND the own contribution is the sum of all declared
    quantities, also of those beyond the last transaction output, and the
    output tuple carries the declared quantity at every transaction output
    index, with no contribution at indices the message does not declare. *)
Theorem X13_send_outputs_carried
    self_token_id_hex tx diff vin_mask myinfo outs o rest tt0 tid token_output :
  outputs tx = o :: rest →
  parseSlpOutputScript (out_dest o) = Parsed (mk_msg tt0 (SendFields tid token_output)) →
  electroncash_nft1.get_info parseSlpOutputScript self_token_id_hex tx diff
    = Ok (Info vin_mask myinfo outs) →
  myinfo = MySum (sum_Z token_output) ∧
  ∀ i, i < length (outputs tx) → outs !! i = Some (token_output !! i).
Proof.
  intros Ho Hp H.
  destruct (ec_get_info_send _ _ _ _ _ _ _ _ _ _ _ Ho Hp H) as [-> ->].
  split; [done|]. intros i Hi. by apply fit_outputs_lookup.
Qed.

(** X14.  A spender with an integer own contribution needs exactly those
    outputs of a classified SEND that exist on the transaction and carry a
    positive declared quantity; [check_needed] never raises on them. *)
Theorem X14_needed_outputs_of_a_send
    self_token_id_hex tx diff vin_mask myinfo outs o rest tt0 tid token_output
    m i :
  outputs tx = o :: rest →
  parseSlpOutputScript (out_dest o) = Parsed (mk_msg tt0 (SendFields tid token_output)) →
  electroncash_nft1.get_info parseSlpOutputScript self_token_id_hex tx diff
    = Ok (Info vin_mask myinfo outs) →
  i < length (outputs tx) →
  ∃ out_n,
    outs !! i = Some out_n ∧
    check_needed (MySum m) (out_n_of out_n)
    = Ok (match token_output !! i with
          | Some q => bool_decide (0 < q)%Z
          | None => false
          end).
Proof.
  intros Ho Hp H Hlt.
  destruct (ec_get_info_send _ _ _ _ _ _ _ _ _ _ _ Ho Hp H) as [_ ->].
  exists (token_output !! i). split; [by apply fit_outputs_lookup|].
  destruct (token_output !! i) as [q|]; simpl; [|done].
  rewrite Z.gtb_ltb. f_equal.
  destruct (Z.ltb_spec 0 q).
  - by rewrite bool_decide_eq_true_2.
  - rewrite bool_decide_eq_false_2; [done | lia].
Qed.

End classification.

(** ** What a decision of the per-instance validator guarantees *)

Section decisions.
Import electroncash_nft1.

Variable parseSlpOutputScript : dest → parse_result.
Variable network_get : string → response.
Variable run_parent_job : Transaction → option (string * nat).

Local Abbreviation ec_validate :=
  (validate parseSlpOutputScript network_get run_parent_job).

(** The ways [validate] can return. *)
Lemma validate_ok_cases tid e job myinfo inputs_info r e' job' :
  ec_validate tid e job myinfo inputs_info = Ok (r, e', job') →
  ∃ j, job = JobNFT1Child j ∧
    ((e' = e ∧ job' = job ∧
      ((1 < nft_parent_validity j ∧ r = Some (false, nft_parent_validity j)) ∨
       (nft_parent_validity j ≤ 1 ∧
        ∃ v, forced_failure j = Some v ∧ r = Some (false, v)) ∨
       (nft_parent_validity j ≤ 1 ∧ forced_failure j = None ∧
        myinfo = MySum 0 ∧ r = Some (true, 1)) ∨
       (nft_parent_validity j ≤ 1 ∧ forced_failure j = None ∧
        myinfo ≠ MySum 0 ∧
        ∃ p, nft_parent_tx j = Some p ∧
          ((∃ g, parent_gate parseSlpOutputScript p = Ok (Some g) ∧ r = Some g) ∨
           (parent_gate parseSlpOutputScript p = Ok None ∧
            decide_node j myinfo inputs_info = Ok r))))) ∨
     (nft_parent_validity j ≤ 1 ∧ forced_failure j = None ∧
      myinfo ≠ MySum 0 ∧ nft_parent_tx j = None ∧ r = None ∧
      ∃ j', validate_NFT_parent parseSlpOutputScript network_get
              run_parent_job tid e j myinfo = Ok (e', j') ∧
            job' = JobNFT1Child j')).
Proof.
  unfold validate. destruct job as [j|]; [|done]. intros H. exists j.
  split; [done|].
  destruct (Nat.ltb_spec 1 (nft_parent_validity j)) as [Hv|Hv].
  { injection H as <- <- <-. left. split_and!; try done. left. done. }
  destruct (forced_failure j) as [v|] eqn:Hf.
  { injection H as <- <- <-. left. split_and!; try done.
    right; left. split; [done|]. by exists v. }
  case_bool_decide as Hm.
  { injection H as <- <- <-. left. split_and!; try done.
    right; right; left. done. }
  destruct (nft_parent_tx j) as [p|] eqn:Hp.
  - destruct (parent_gate parseSlpOutputScript p) as [[g|]|err] eqn:Hg;
      simpl in H; [| |done].
    + injection H as <- <- <-. left. split_and!; try done.
      right; right; right. split_and!; try done.
      exists p. split; [done|]. left. by exists g.
    + destruct (decide_node j myinfo inputs_info) as [r0|err] eqn:Hd;
        simpl in H; [|done].
      injection H as <- <- <-. left. split_and!; try done.
      right; right; right. split_and!; try done.
      exists p. split; [done|]. right. done.
  - destruct (validate_NFT_parent _ _ _ _ _ _ _) as [[e1 j1]|err] eqn:Hn;
      simpl in H; [|done].
    injection H as <- <- <-. right. split_and!; try done. by exists j1.
Qed.

Lemma forced_failure_nonzero j v : forced_failure j = Some v → v ≠ 0.
Proof.
  unfold forced_failure. destruct (forced_failure_val j) as [v0|]; [|done].
  destruct (Nat.eqb_spec v0 0); [done|]. by intros [= <-].
Qed.

Lemma parent_gate_some p g :
  parent_gate parseSlpOutputScript p = Ok (Some g) →
  g = (false, 4) ∨ g = (false, 3).
Proof.
  unfold parent_gate. destruct (outputs p) as [|o rest]; [done|].
  destruct (parseSlpOutputScript (out_dest o)) as [m| | |]; try done.
  - destruct (fields m); try done;
      destruct (_ <? _)%Z; try done; intros [= <-]; auto.
  - intros [= <-]. auto.
Qed.

Lemma decide_node_some j myinfo inputs_info b c :
  decide_node j myinfo inputs_info = Ok (Some (b, c)) →
  (b = true ∧ c = 1 ∧
   match myinfo with
   | MyGenesis => nft_parent_validity j = 1 ∧ inputs_info = []
   | MySum m => (m ≤ insum_valid inputs_info ≤ 1)%Z
   end) ∨
  (b = false ∧ 1 < c ∧
   match myinfo with
   | MyGenesis => c = nft_parent_validity j
   | MySum m => c = 3 ∧ (insum_all inputs_info < m)%Z
   end).
Proof.
  destruct myinfo as [|m].
  - unfold decide_node.
    destruct inputs_info as [|inp l]; simpl; [|done].
    destruct (Nat.eqb_spec (nft_parent_validity j) 1) as [Hv|Hv].
    + intros [= <- <-]. left. done.
    + destruct (Nat.ltb_spec 1 (nft_parent_validity j)); [|done].
      intros [= <- <-]. right. done.
  - rewrite decide_node_send.
    repeat case_bool_decide; try done; intros [= <- <-].
    + right. split_and!; [done | lia | done | done].
    + left. split_and!; [done | done | lia | lia].
Qed.

(** X15.  A GENESIS node is declared Valid only on a job whose parent
    transaction has been fetched and whose parent validity is Valid(1), and
    only with no input information; the call then touches neither the
    wallet nor the job. *)
Theorem X15_genesis_valid_only_after_parent
    tid e job inputs_info c e' job' :
  validate parseSlpOutputScript network_get run_parent_job
    tid e job MyGenesis inputs_info = Ok (Some (true, c), e', job') →
  ∃ j, job = JobNFT1Child j ∧
       nft_parent_validity j = 1 ∧
       is_Some (nft_parent_tx j) ∧
       inputs_info = [] ∧ c = 1 ∧ e' = e ∧ job' = job.
Proof.
  intros H. apply validate_ok_cases in H as (j & -> & [(-> & -> & H)|H]).
  - exists j. split; [done|].
    destruct H as [[_ [=]]|[(_ & v & _ & [=])|[(_ & _ & [=] & _)|H]]].
    destruct H as (_ & _ & _ & p & Hp & [(g & Hg & [= <-])|[_ Hd]]).
    + apply parent_gate_some in Hg as [[=]|[=]].
    + apply decide_node_some in Hd as [(_ & -> & Hv & ->)|([=] & _)].
      split_and!; by eauto.
  - by destruct H as (_ & _ & _ & _ & [=] & _).
Qed.

(** X16.  A node with an integer own contribution [m] is declared Valid
    only if [m] is at most 1: either [m] is 0, or the Valid inputs
    contribute at least [m] and at most 1. *)
Theorem X16_valid_send_has_at_most_one_unit
    tid e job m inputs_info c e' job' :
  validate parseSlpOutputScript network_get run_parent_job
    tid e job (MySum m) inputs_info = Ok (Some (true, c), e', job') →
  (m ≤ 1)%Z ∧ (m = 0%Z ∨ (m ≤ insum_valid inputs_info ≤ 1)%Z).
Proof.
  intros H. apply validate_ok_cases in H as (j & -> & [(-> & -> & H)|H]).
  - destruct H as [[_ [=]]|[(_ & v & _ & [=])|[(_ & _ & [= ->] & _)|H]]].
    { split; [lia | by left]. }
    destruct H as (_ & _ & _ & p & Hp & [(g & Hg & [= <-])|[_ Hd]]).
    + apply parent_gate_some in Hg as [[=]|[=]].
    + apply decide_node_some in Hd as [(_ & _ & Hv)|([=] & _)].
      split; [lia | by right].
  - by destruct H as (_ & _ & _ & _ & [=] & _).
Qed.

(** X17.  A decision never carries the code Unknown(0): a Valid decision
    carries 1 and an Invalid decision a non-zero code. *)
Theorem X17_decisions_carry_a_code
    tid e job myinfo inputs_info b c e' job' :
  validate parseSlpOutputScript network_get run_parent_job
    tid e job myinfo inputs_info = Ok (Some (b, c), e', job') →
  c ≠ 0 ∧ (b = true → c = 1).
Proof.
  intros H. apply validate_ok_cases in H as (j & -> & [(-> & -> & H)|H]).
  - destruct H as [[Hv [= -> ->]]|[(_ & v & Hf & [= -> ->])|
                   [(_ & _ & _ & [= -> ->])|H]]].
    + split; [lia | done].
    + by pose proof (forced_failure_nonzero _ _ Hf).
    + done.
    + destruct H as (_ & _ & _ & p & Hp & [(g & Hg & [= <-])|[_ Hd]]).
      * by apply parent_gate_some in Hg as [[= -> ->]|[= -> ->]].
      * apply decide_node_some in Hd as [(-> & -> & _)|(-> & Hc & _)];
          [done | split; [lia | done]].
  - by destruct H as (_ & _ & _ & _ & [=] & _).
Qed.

(** X18.  A call on a job whose parent transaction is already stored
    changes neither the wallet, nor the requests sent, nor the emitted
    signals, nor the job: the parent is fetched at most once. *)
Theorem X18_no_fetch_once_parent_is_stored
    tid e j myinfo inputs_info r e' job' :
  is_Some (nft_parent_tx j) →
  validate parseSlpOutputScript network_get run_parent_job
    tid e (JobNFT1Child j) myinfo inputs_info = Ok (r, e', job') →
  e' = e ∧ job' = JobNFT1Child j.
Proof.
  intros [p Hp] H.
  apply validate_ok_cases in H as (j0 & [= <-] & [(-> & -> & _)|H]); [done|].
  destruct H as (_ & _ & _ & Hnone & _). by rewrite Hp in Hnone.
Qed.

End decisions.

(** ** Decisions taken while inputs are still Unknown *)

Section prevalidation.
Import electroncash_nft1.

Variable parseSlpOutputScript : dest → parse_result.
Variable network_get : string → response.
Variable run_parent_job : Transaction → option (string * nat).

Lemma insum_all_cons inp l :
  insum_all (inp :: l)
  = Z.add (if decide (inp_validity inp ≤ 1) then inp_contribution inp else 0%Z)
          (insum_all l).
Proof.
  unfold insum_all. rewrite filter_cons.
  destruct (decide (inp_validity inp ≤ 1)); [by rewrite fmap_cons|].
  simpl. lia.
Qed.

Lemma insum_valid_cons inp l :
  insum_valid (inp :: l)
  = Z.add (if decide (inp_validity inp = 1) then inp_contribution inp else 0%Z)
          (insum_valid l).
Proof.
  unfold insum_valid. rewrite filter_cons.
  destruct (decide (inp_validity inp = 1)); [by rewrite fmap_cons|].
  simpl. lia.
Qed.

(** Resolving Unknown inputs can only take away from what Unknown and Valid
    inputs contribute together, and can only add to what Valid inputs
    contribute. *)
Lemma insums_resolved l l' :
  Forall (λ inp, (0 ≤ inp_contribution inp)%Z) l →
  Forall2 resolved l l' →
  (insum_all l' ≤ insum_all l)%Z ∧
  (insum_valid l ≤ insum_valid l')%Z ∧
  (insum_valid l' ≤ insum_all l')%Z.
Proof.
  intros Hpos Hres. induction Hres as [|inp inp' l l' (_ & Hc & Hv) _ IH].
  - unfold insum_all, insum_valid; simpl. lia.
  - inversion_clear Hpos as [|? ? Hp Hpos']. specialize (IH Hpos').
    rewrite !insum_all_cons, !insum_valid_cons, Hc.
    repeat case_decide; lia.
Qed.

(** X19.  Once the per-instance validator has declared a node Invalid, it
    declares it Invalid with the same code after any of its Unknown inputs
    has been resolved, contributions being non-negative: an early Invalid is
    final. *)
Theorem X19_invalid_survives_resolution
    tid e job m inputs_info inputs_info' c e' job' :
  Forall (λ inp, (0 ≤ inp_contribution inp)%Z) inputs_info →
  Forall2 resolved inputs_info inputs_info' →
  validate parseSlpOutputScript network_get run_parent_job tid e job
           (MySum m) inputs_info = Ok (Some (false, c), e', job') →
  validate parseSlpOutputScript network_get run_parent_job tid e job
           (MySum m) inputs_info' = Ok (Some (false, c), e', job').
Proof.
  intros Hpos Hres H.
  destruct (insums_resolved _ _ Hpos Hres) as (Hall & _ & _).
  unfold validate in *. destruct job as [j|]; [|done].
  destruct (1 <? nft_parent_validity j); [done|].
  destruct (forced_failure j); [done|].
  case_bool_decide; [done|].
  destruct (nft_parent_tx j) as [p|]; [|done].
  destruct (parent_gate parseSlpOutputScript p) as [[g|]|err]; [done| |done].
  rewrite (decide_node_send j m inputs_info) in H.
  rewrite (decide_node_send j m inputs_info').
  repeat case_bool_decide; simpl in *; try done; lia.
Qed.

(** X20.  In the module-global validator every decision on a node with an
    integer own contribution, Valid or Invalid, is the same after any of its
    Unknown inputs has been resolved, contributions being non-negative. *)
Theorem X20_lib_decision_survives_resolution
    tid st m inputs_info inputs_info' d st' :
  Forall (λ inp, (0 ≤ inp_contribution inp)%Z) inputs_info →
  Forall2 resolved inputs_info inputs_info' →
  lib_nft1.validate tid st (MySum m) inputs_info = (Ok (Some d), st') →
  lib_nft1.validate tid st (MySum m) inputs_info' = (Ok (Some d), st').
Proof.
  intros Hpos Hres H.
  destruct (insums_resolved _ _ Hpos Hres) as (Hall & Hvalid & Hle).
  unfold lib_nft1.validate in *.
  destruct (lib_nft1.nft_parent_tx st); [|done].
  rewrite !Z.geb_leb in *.
  destruct (Z.ltb_spec (insum_all inputs_info) m),
           (Z.ltb_spec (insum_all inputs_info') m),
           (Z.leb_spec m (insum_valid inputs_info)),
           (Z.leb_spec m (insum_valid inputs_info')); try done; lia.
Qed.

End prevalidation.

(** ** The fetches of the first call *)

Section fetches.
Import electroncash_nft1.

Variable parseSlpOutputScript : dest → parse_result.
Variable network_get : string → response.
Variable run_parent_job : Transaction → option (string * nat).

Lemma keeps_refl e : keeps e e [].
Proof.
  split_and!; [done | by rewrite app_nil_r |].
  intros t Ht. by apply elem_of_nil in Ht.
Qed.

Lemma keeps_trans e e1 e2 new1 new2 :
  keeps e e1 new1 → keeps e1 e2 new2 → keeps e e2 (new1 ++ new2).
Proof.
  intros (Hs1 & Hn1 & Hf1) (Hs2 & Hn2 & Hf2). split_and!.
  - by etrans.
  - by rewrite Hn2, Hn1, app_assoc.
  - intros t [Ht|Ht]%elem_of_app; [by apply Hf1|].
    apply Hf2 in Ht.
    destruct (transactions (wallet e) !! t) as [tx|] eqn:Hl; [|done].
    eapply lookup_weaken in Hl; [|exact Hs1]. by rewrite Hl in Ht.
Qed.

Lemma keeps_send_request e t :
  transactions (wallet e) !! t = None → keeps e (send_request e t) [t].
Proof.
  intros Ht. split_and!; [done | done |].
  by intros t' ->%list_elem_of_singleton.
Qed.

Lemma genesis_dl_cb_ok tid e j resp e1 j1 :
  genesis_dl_cb parseSlpOutputScript tid e j resp = Ok (e1, j1) →
  ∃ g, resp = RespResult g ∧ txid g = tid ∧ j1 = set_genesis_tx j g ∧
       keeps e e1 [] ∧ is_Some (transactions (wallet e1) !! tid).
Proof.
  unfold genesis_dl_cb. destruct resp as [|g]; [done|].
  destruct (String.eqb_spec (txid g) tid) as [Hid|]; simpl; [|done].
  set (w1 := match transactions (wallet e) !! tid with
             | Some _ => wallet e
             | None => mk_wallet (<[tid := g]> (transactions (wallet e)))
                                 (tx_tokinfo (wallet e)) (token_types (wallet e))
             end).
  assert (Hw1 : transactions (wallet e) ⊆ transactions w1 ∧
                is_Some (transactions w1 !! tid)).
  { subst w1. destruct (transactions (wallet e) !! tid) as [tx|] eqn:Hl.
    - split; [done | by rewrite Hl].
    - simpl. split; [by apply insert_subseteq|].
      rewrite lookup_insert_eq. by eexists. }
  destruct Hw1 as [Hsub Hsome].
  intros H.
  assert (∃ w2, transactions w2 = transactions w1 ∧
                e1 = set_wallet e w2 ∧ j1 = set_genesis_tx j g)
    as (w2 & Hw2 & -> & ->).
  { destruct (tx_tokinfo w1 !! tid).
    - simpl in H. injection H as <- <-. by exists w1.
    - destruct (outputs g) as [|o rest]; [done|].
      destruct (parseSlpOutputScript (out_dest o)); try done.
      simpl in H. injection H as <- <-.
      eexists; split_and!; [|reflexivity|reflexivity]; reflexivity. }
  exists g. split_and!; try done.
  - split_and!; simpl; [by rewrite Hw2 | by rewrite app_nil_r |].
    intros t Ht. by apply elem_of_nil in Ht.
  - simpl. by rewrite Hw2.
Qed.

Lemma transactions_remember_tx w tx :
  transactions w ⊆ transactions (remember_tx w tx) ∧
  is_Some (transactions (remember_tx w tx) !! txid tx).
Proof.
  unfold remember_tx. destruct (transactions w !! txid tx) as [t|] eqn:Hl.
  - split; [done | by rewrite Hl].
  - simpl. split; [by apply insert_subseteq|].
    rewrite lookup_insert_eq. by eexists.
Qed.

Lemma parent_dl_cb_ok e j resp e1 j1 :
  parent_dl_cb parseSlpOutputScript e j resp = Ok (e1, j1) →
  ∃ p, resp = RespResult p ∧ nft_parent_tx j1 = Some p ∧
       genesis_tx j1 = genesis_tx j ∧
       keeps e e1 [] ∧ is_Some (transactions (wallet e1) !! txid p).
Proof.
  unfold parent_dl_cb. destruct resp as [|p]; [done|].
  destruct (transactions_remember_tx (wallet e) p) as [Hsub Hsome].
  intros H.
  assert (∃ w2 j2, transactions w2 = transactions (remember_tx (wallet e) p) ∧
                   genesis_tx j2 = genesis_tx j ∧
                   e1 = set_wallet e w2 ∧ j1 = set_nft_parent_tx j2 p)
    as (w2 & j2 & Hw2 & Hj2 & -> & ->).
  { destruct (tx_tokinfo (remember_tx (wallet e) p) !! txid p).
    - simpl in H. injection H as <- <-.
      eexists _, _; split_and!; [| |reflexivity|reflexivity]; reflexivity.
    - destruct (match outputs p with
                | [] => None
                | o :: _ => match parseSlpOutputScript (out_dest o) with
                            | Parsed m => Some m
                            | _ => None
                            end
                end) as [slpMsg|].
      + destruct (genesis_tx j) as [gtx|] eqn:Hg; [|done].
        destruct (inputs gtx) as [|i0 rest]; [done|].
        destruct (bad_parent_outpoint slpMsg (prevout_n i0));
          simpl in H; injection H as <- <-;
          (eexists _, _; split_and!; [| |reflexivity|reflexivity];
           [reflexivity | first [reflexivity | simpl; congruence]]).
      + simpl in H. injection H as <- <-.
        eexists _, _; split_and!; [| |reflexivity|reflexivity]; reflexivity. }
  exists p. split_and!; simpl; try done.
  - split_and!; simpl; [by rewrite Hw2 | by rewrite app_nil_r |].
    intros t Ht. by apply elem_of_nil in Ht.
  - by rewrite Hw2.
Qed.

Lemma start_NFT_parent_job_ok e j e1 j1 :
  start_NFT_parent_job run_parent_job e j = Ok (e1, j1) →
  genesis_tx j1 = genesis_tx j ∧ nft_parent_tx j1 = nft_parent_tx j ∧
  transactions (wallet e1) = transactions (wallet e) ∧ sent e1 = sent e.
Proof.
  unfold start_NFT_parent_job.
  destruct (1 <? nft_parent_validity j).
  { destruct (nft_parent_tx j) eqn:?, (genesis_tx j) eqn:?,
             (slp_validity_signal e) eqn:?;
      try done; intros [= <- <-]; simpl; split_and!; congruence. }
  destruct (graph_context e); simpl; [|by intros [= <- <-]].
  destruct (nft_parent_tx j) as [tx|] eqn:?; [|done].
  destruct (run_parent_job tx) as [[t val]|]; [|done].
  destruct (genesis_tx j) as [gtx|] eqn:?; [|done].
  destruct (tx_tokinfo (wallet e) !! txid tx) as [pinfo|]; [|done].
  repeat case_match; try done; intros [= <- <-]; simpl;
    split_and!; try congruence; by repeat case_match.
Qed.

Lemma download_nft_parent_tx_ok e j e1 j1 :
  download_nft_parent_tx parseSlpOutputScript network_get run_parent_job e j
    = Ok (e1, j1) →
  ∃ p new, nft_parent_tx j1 = Some p ∧ genesis_tx j1 = genesis_tx j ∧
           keeps e e1 new ∧ length new ≤ 1 ∧
           is_Some (transactions (wallet e1) !! txid p).
Proof.
  unfold download_nft_parent_tx.
  destruct (genesis_tx j) as [gtx|] eqn:Hg; [|done].
  destruct (inputs gtx) as [|i0 rest]; [done|].
  intros H.
  assert (∃ e0 new0 ej, keeps e e0 new0 ∧ length new0 ≤ 1 ∧
            (∃ resp, parent_dl_cb parseSlpOutputScript e0 j resp = Ok ej) ∧
            start_nft_parent_validation run_parent_job (fst ej) (snd ej) true
              = Ok (e1, j1))
    as (e0 & new0 & [e2 j2] & Hk0 & Hlen & [resp Hcb] & Hstart).
  { destruct (transactions (wallet e) !! prevout_hash i0) as [tx|] eqn:Hl.
    - destruct (parent_dl_cb _ e j (RespResult tx)) as [ej|] eqn:Hcb; [|done].
      exists e, [], ej. split_and!; [apply keeps_refl | simpl; lia | by eauto | done].
    - destruct (parent_dl_cb _ (send_request e (prevout_hash i0)) j _)
        as [ej|] eqn:Hcb; [|done].
      exists (send_request e (prevout_hash i0)), [prevout_hash i0], ej.
      split_and!; [by apply keeps_send_request | simpl; lia | by eauto | done]. }
  apply parent_dl_cb_ok in Hcb as (p & _ & Hp & Hgen & Hk & Hsome).
  simpl in Hstart. apply start_NFT_parent_job_ok in Hstart
    as (Hg1 & Hp1 & Ht1 & Hs1).
  exists p, new0. split_and!.
  - by rewrite Hp1.
  - by rewrite Hg1, Hgen.
  - replace new0 with (new0 ++ ([] ++ [])) by (simpl; by rewrite app_nil_r).
    eapply keeps_trans; [exact Hk0|]. eapply keeps_trans; [exact Hk|].
    split_and!; [by rewrite Ht1 | by rewrite Hs1, app_nil_r |].
    intros t Ht. by apply elem_of_nil in Ht.
  - done.
  - by rewrite Ht1.
Qed.

Lemma validate_NFT_parent_ok tid e j myinfo e1 j1 :
  validate_NFT_parent parseSlpOutputScript network_get run_parent_job
    tid e j myinfo = Ok (e1, j1) →
  ∃ g p new,
    genesis_tx j1 = Some g ∧ txid g = tid ∧ nft_parent_tx j1 = Some p ∧
    keeps e e1 new ∧ length new ≤ 2 ∧
    is_Some (transactions (wallet e1) !! tid) ∧
    is_Some (transactions (wallet e1) !! txid p).
Proof.
  unfold validate_NFT_parent, download_nft_genesis. intros H.
  assert (∃ e0 new0 ej, keeps e e0 new0 ∧ length new0 ≤ 1 ∧
            (∃ resp, genesis_dl_cb parseSlpOutputScript tid e0 j resp = Ok ej) ∧
            start_dl_nft_parent parseSlpOutputScript network_get run_parent_job
              (fst ej) (snd ej) true = Ok (e1, j1))
    as (e0 & new0 & [e2 j2] & Hk0 & Hlen & [resp Hcb] & Hstart).
  { destruct (transactions (wallet e) !! tid) as [tx|] eqn:Hl.
    - destruct (genesis_dl_cb _ tid e j (RespResult tx)) as [ej|] eqn:Hcb;
        [|done].
      exists e, [], ej. split_and!; [apply keeps_refl | simpl; lia | by eauto | done].
    - destruct (genesis_dl_cb _ tid (send_request e tid) j _) as [ej|] eqn:Hcb;
        [|done].
      exists (send_request e tid), [tid], ej.
      split_and!; [by apply keeps_send_request | simpl; lia | by eauto | done]. }
  apply genesis_dl_cb_ok in Hcb as (g & _ & Hid & -> & Hk & Hsome).
  simpl in Hstart. unfold start_dl_nft_parent in Hstart.
  apply download_nft_parent_tx_ok in Hstart
    as (p & new1 & Hp & Hg & Hk1 & Hlen1 & Hsome1).
  exists g, p, (new0 ++ ([] ++ new1)). split_and!; try done.
  - eapply keeps_trans; [exact Hk0|]. by eapply keeps_trans.
  - rewrite length_app. simpl. lia.
  - destruct Hsome as [tx Htx]. destruct Hk1 as (Hsub & _).
    eapply lookup_weaken in Htx; [|exact Hsub]. by eexists.
Qed.

(** X21.  The first call for a node of a job that has no parent yet (no
    parent invalidity, no forced failure, own contribution not 0), when it
    returns, returns Pending; the job then holds the genesis transaction,
    whose id is the validator's token id, and a parent transaction, and the
    wallet holds both. *)
Theorem X21_first_call_fetches_genesis_and_parent
    tid e j myinfo inputs_info r e' job' :
  nft_parent_validity j ≤ 1 →
  forced_failure j = None →
  myinfo ≠ MySum 0 →
  nft_parent_tx j = None →
  validate parseSlpOutputScript network_get run_parent_job tid e
           (JobNFT1Child j) myinfo inputs_info = Ok (r, e', job') →
  r = None ∧
  ∃ j' g p,
    job' = JobNFT1Child j' ∧
    genesis_tx j' = Some g ∧ txid g = tid ∧
    nft_parent_tx j' = Some p ∧
    is_Some (transactions (wallet e') !! tid) ∧
    is_Some (transactions (wallet e') !! txid p).
Proof.
  intros Hv Hf Hm Hp. unfold validate.
  rewrite (proj2 (Nat.ltb_ge _ _) Hv), Hf.
  rewrite bool_decide_eq_false_2 by done. rewrite Hp.
  destruct (validate_NFT_parent _ _ _ _ _ _ _) as [[e1 j1]|err] eqn:Hn; [|done].
  simpl. intros [= <- <- <-]. split; [done|].
  apply validate_NFT_parent_ok in Hn as (g & p & new & ? & ? & ? & _ & _ & ? & ?).
  by exists j1, g, p.
Qed.


End fetches.

(** ** The bookkeeping after the parent job *)

Section parent_job_bookkeeping.
Import electroncash_nft1.

Variable run_parent_job : Transaction → option (string * nat).

(** X23.  When [start_NFT_parent_job] runs the parent job (parent validity
    not above 1, graph context present) and returns, the validity the job
    reported is the job's parent validity and the validity in the parent's
    token info; the child's token-type entry exists and points to the
    parent's token id as its group, which has a token-type entry too; and
    the only signal emitted is the reported validity. *)
Theorem X23_parent_job_result_is_recorded e j e' j' :
  nft_parent_validity j ≤ 1 →
  graph_context e = true →
  start_NFT_parent_job run_parent_job e j = Ok (e', j') →
  ∃ p g t val pinfo,
    nft_parent_tx j = Some p ∧ genesis_tx j = Some g ∧
    run_parent_job p = Some (t, val) ∧
    tx_tokinfo (wallet e) !! txid p = Some pinfo ∧
    nft_parent_validity j' = val ∧
    (∃ en, token_types (wallet e') !! txid g = Some en ∧
           te_group_id en = Some (tti_token_id pinfo)) ∧
    is_Some (token_types (wallet e') !! tti_token_id pinfo) ∧
    (∃ i, tx_tokinfo (wallet e') !! txid p = Some i ∧
          tti_validity i = val ∧ tti_token_id i = tti_token_id pinfo) ∧
    slp_validity_signal e'
      = (λ log, log ++ [(t, val)]) <$> slp_validity_signal e.
Proof.
  intros Hv Hg. unfold start_NFT_parent_job.
  rewrite (proj2 (Nat.ltb_ge _ _) Hv), Hg. simpl.
  destruct (nft_parent_tx j) as [p|] eqn:Hp; [|done].
  destruct (run_parent_job p) as [[t val]|] eqn:Hrun; [|done].
  destruct (genesis_tx j) as [g|] eqn:Hgen; [|done].
  destruct (tx_tokinfo (wallet e) !! txid p) as [pinfo|] eqn:Hinfo; [|done].
  set (group_id := tti_token_id pinfo).
  set (w1 := match token_types (wallet e) !! group_id with
             | Some _ => wallet e
             | None => _
             end).
  set (w2 := match token_types w1 !! txid g with
             | Some _ => w1
             | None => _
             end).
  assert (H1 : is_Some (token_types w1 !! group_id) ∧
               tx_tokinfo w1 = tx_tokinfo (wallet e)).
  { subst w1. destruct (token_types (wallet e) !! group_id) eqn:E.
    - split; [by rewrite E | done].
    - simpl. split; [|done]. rewrite lookup_insert_eq. by eexists. }
  destruct H1 as [Hgroup1 Htok1].
  assert (H2 : is_Some (token_types w2 !! group_id) ∧
               is_Some (token_types w2 !! txid g) ∧
               tx_tokinfo w2 = tx_tokinfo (wallet e)).
  { subst w2. destruct (token_types w1 !! txid g) eqn:E.
    - split_and!; [done | by rewrite E | done].
    - simpl. split_and!; [| |done].
      + rewrite lookup_insert. case_decide; [by eexists | done].
      + rewrite lookup_insert_eq. by eexists. }
  destruct H2 as (Hgroup2 & [cen Hcen] & Htok2).
  rewrite Hcen, Htok2, Hinfo.
  intros [= <- <-].
  exists p, g, t, val, pinfo. split_and!; try done; simpl.
  - eexists. rewrite lookup_insert_eq. done.
  - rewrite lookup_insert. case_decide; [by eexists | done].
  - eexists. rewrite lookup_insert_eq. done.
Qed.

End parent_job_bookkeeping.

(** ** Saving validities and fetching transactions *)

Lemma save_validity_app nodes1 nodes2 cache :
  save_validity (nodes1 ++ nodes2) cache
  = save_validity nodes2 (save_validity nodes1 cache).
Proof. unfold save_validity. by rewrite foldl_app. Qed.

Lemma save_validity_untouched nodes cache t :
  (∀ v, (t, v) ∈ nodes → v = 0) →
  save_validity nodes cache !! t = cache !! t.
Proof.
  revert cache. induction nodes as [|[k u] nodes IH]; intros cache Hz; [done|].
  change (save_validity ((k, u) :: nodes) cache)
    with (save_validity nodes
            (if (u =? 0)%nat then cache else <[k := u]> cache)).
  rewrite IH by (intros v Hv; apply Hz; by apply list_elem_of_further).
  destruct (Nat.eqb_spec u 0) as [->|Hu]; [done|].
  rewrite lookup_insert_ne; [done|]. intros ->.
  apply Hu, Hz, list_elem_of_here.
Qed.

(** X24.  After the loop that ends [done_callback], the validity cache
    holds the validity of every node of the job whose validity is not 0,
    and every other entry is as before: Unknown(0) is never written, and
    never overwrites what the cache already has. *)
Theorem X24_save_validity_lookup nodes cache t :
  NoDup (fst <$> nodes) →
  (∀ v, (t, v) ∈ nodes → v ≠ 0 → save_validity nodes cache !! t = Some v) ∧
  ((∀ v, (t, v) ∈ nodes → v = 0) →
   save_validity nodes cache !! t = cache !! t).
Proof.
  intros Hnd. split; [|apply save_validity_untouched].
  intros v Hin Hv.
  apply list_elem_of_split in Hin as (l1 & l2 & ->).
  rewrite save_validity_app.
  change (save_validity ((t, v) :: l2) (save_validity l1 cache))
    with (save_validity l2
            (if (v =? 0)%nat then save_validity l1 cache
             else <[t := v]> (save_validity l1 cache))).
  rewrite (proj2 (Nat.eqb_neq _ _) Hv).
  rewrite save_validity_untouched; [by rewrite lookup_insert_eq|].
  intros v' Hin'. exfalso.
  rewrite fmap_app, fmap_cons in Hnd.
  apply list.NoDup_app in Hnd as (_ & _ & Hnd).
  apply list.NoDup_cons in Hnd as [Hnotin _]. apply Hnotin.
  apply list_elem_of_fmap. by exists (t, v').
Qed.

Lemma foldl_collect {A} (f : string → option A) (acc : list A) txids :
  foldl (λ l t, match f t with Some x => l ++ [x] | None => l end) acc txids
  = acc ++ omap f txids.
Proof.
  revert acc. induction txids as [|t txids IH]; intros acc; simpl.
  - by rewrite app_nil_r.
  - rewrite IH. destruct (f t); [by rewrite <- app_assoc | done].
Qed.

Lemma foldl_collect_gs (gs : string → option Transaction)
    (txs : gmap string Transaction) (acc : list Transaction) txids :
  foldl (λ l t, match gs t with
                | Some txn => l ++ [txn]
                | None => match txs !! t with
                          | Some tx => l ++ [tx]
                          | None => l
                          end
                end) acc txids
  = acc ++ omap (λ t, match gs t with
                      | Some txn => Some txn
                      | None => txs !! t
                      end) txids.
Proof.
  revert acc. induction txids as [|t txids IH]; intros acc; simpl.
  - by rewrite app_nil_r.
  - rewrite IH. destruct (gs t); [by rewrite <- app_assoc|].
    destruct (txs !! t); [by rewrite <- app_assoc | done].
Qed.

(** X25.  [fetch_hook] of the module-global validator returns the wallet's
    copies of the requested transactions, in the order requested, and skips
    the ids the wallet does not have; it counts one proxy request per call
    when the proxy is enabled and none otherwise. *)
Theorem X25_lib_fetch_hook transactions proxy_enable n txids :
  lib_module.fetch_hook transactions proxy_enable n txids
  = (omap (λ t, transactions !! t) txids,
     if proxy_enable then S n else n).
Proof.
  unfold lib_module.fetch_hook. f_equal.
  apply (foldl_collect (λ t, transactions !! t) []).
Qed.

(** X26.  [fetch_hook] of the per-instance validator, for an [nft_type]
    that contains SLP129, returns for each requested id the graph-search
    copy if there is one and else the wallet's copy, in the order
    requested; for any other [nft_type] it returns the wallet's copies only
    and emits nothing.  Over two calls in a row the fetch signal is emitted
    at most once: the second call never emits. *)
Theorem X26_ec_fetch_hook nft_type gs_get_tx transactions ffc signal txids
    gs_get_tx' transactions' txids' :
  let '(l, ffc1, signal1) :=
    graph_context_nft1.fetch_hook nft_type gs_get_tx transactions ffc signal
                                  txids in
  let '(_, _, signal2) :=
    graph_context_nft1.fetch_hook nft_type gs_get_tx' transactions' ffc1
                                  signal1 txids' in
  l = (if graph_context_nft1.contains_SLP129 nft_type
       then omap (λ t, match gs_get_tx t with
                       | Some txn => Some txn
                       | None => transactions !! t
                       end) txids
       else omap (λ t, transactions !! t) txids) ∧
  (graph_context_nft1.contains_SLP129 nft_type = false → signal1 = signal) ∧
  signal2 = signal1.
Proof.
  unfold graph_context_nft1.fetch_hook.
  destruct (graph_context_nft1.contains_SLP129 nft_type).
  - split_and!; [ | done | ].
    + apply (foldl_collect_gs gs_get_tx transactions []).
    + destruct ffc, signal as [log|]; simpl; try done.
  - split_and!; [|done|done].
    apply (foldl_collect (λ t, transactions !! t) []).
Qed.

(** ** The graph registry of the module-global validator *)

Section registry.
Import lib_module.

Variable parseSlpOutputScript : dest → parse_result.

(** X27.  [get_graph] caches: once it has returned an entry for a token id,
    the registry holds that entry under the token id, the other token ids
    are as before, and every later call for the token id returns the same
    entry and leaves the registry alone, whatever token type it is called
    with. *)
Theorem X27_get_graph_caches r t ty entry r' :
  get_graph r t ty = (Returns entry, r') →
  graph_db r' !! t = Some entry ∧
  (∀ t', t' ≠ t → graph_db r' !! t' = graph_db r !! t') ∧
  ∀ ty', get_graph r' t ty' = (Returns entry, r').
Proof.
  unfold get_graph at 1.
  destruct (graph_db r !! t) as [old|] eqn:Hl.
  - intros [= <- <-]. split_and!; [done | done |].
    intros ty'. unfold get_graph. by rewrite Hl.
  - simpl. intros H.
    assert (∃ val, entry = (mk_graph val, SharedJobMgr) ∧
              r' = mk_registry (<[t := entry]> (graph_db r))
                               (killed r) (was_reset r))
      as (val & -> & ->).
    { destruct (ty =? 129)%Z; [injection H as <- <-; by eexists|].
      destruct (ty =? 65)%Z; [injection H as <- <-; by eexists | done]. }
    simpl. split_and!.
    + by rewrite lookup_insert_eq.
    + intros t' Hne. by rewrite lookup_insert_ne.
    + intros ty'. unfold get_graph. simpl. by rewrite lookup_insert_eq.
Qed.

(** X28.  [kill_graph] followed by [get_graph] builds the graph anew from
    the token type passed: an NFT1 validator for 65, an SLP1 validator
    enforcing 129 for 129, both on the shared job manager, which is never
    killed; the graph that was there is reset; and for any other token type
    the call fails on its unassigned local and the token id is left
    without a graph. *)
Theorem X28_kill_then_get_rebuilds r t ty :
  let r1 := kill_graph r t in
  graph_db r1 !! t = None ∧
  (∀ t', t' ≠ t → graph_db r1 !! t' = graph_db r !! t') ∧
  (∀ g, graph_db r !! t = Some (g, SharedJobMgr) →
        killed r1 = killed r ∧ was_reset r1 = was_reset r ++ [g]) ∧
  match get_graph r1 t ty with
  | (Returns (g, m), r2) =>
      m = SharedJobMgr ∧ graph_db r2 !! t = Some (g, m) ∧
      ((ty = 65%Z ∧ g = mk_graph (Validator_NFT1 t SharedJobMgr)) ∨
       (ty = 129%Z ∧ g = mk_graph (Validator_SLP1 t 129)))
  | (UnboundLocalError, r2) =>
      ty ≠ 65%Z ∧ ty ≠ 129%Z ∧ r2 = r1
  | (Raises _, _) => False
  end.
Proof.
  simpl.
  assert (Hnone : graph_db (kill_graph r t) !! t = None).
  { unfold kill_graph. destruct (graph_db r !! t) as [[g m]|] eqn:Hl; [|done].
    simpl. apply lookup_delete_eq. }
  split_and!; [done | | |].
  - intros t' Hne. unfold kill_graph.
    destruct (graph_db r !! t) as [[g m]|]; [|done].
    simpl. by apply lookup_delete_ne.
  - intros g Hg. unfold kill_graph. rewrite Hg. by split.
  - unfold get_graph. rewrite Hnone. simpl.
    destruct (Z.eqb_spec ty 129) as [->|H129]; simpl.
    { split_and!; [done | by rewrite lookup_insert_eq | by right]. }
    destruct (Z.eqb_spec ty 65) as [->|H65]; simpl.
    { split_and!; [done | by rewrite lookup_insert_eq | by left]. }
    done.
Qed.

Lemma get_graph_never_raises r t ty e r' : get_graph r t ty ≠ (Raises e, r').
Proof.
  unfold get_graph. destruct (graph_db r !! t); [done|]. simpl.
  destruct (ty =? 129)%Z; [done|]. destruct (ty =? 65)%Z; done.
Qed.

(** [setup_job] on a message that parses. *)
Lemma setup_job_parsed r tx reset o rest m :
  outputs tx = o :: rest →
  parseSlpOutputScript (out_dest o) = Parsed m →
  match setup_job parseSlpOutputScript r tx reset with
  | (Returns None, r') => (∃ t, fields m = CommitFields t) ∧ r' = r
  | (Returns (Some _), _) | (UnboundLocalError, _) =>
      ∀ t, fields m ≠ CommitFields t
  | (Raises _, _) => False
  end.
Proof.
  intros Ho Hp. unfold setup_job. rewrite Ho, Hp.
  destruct (fields m) as [d b q|t b q|t out|t]; simpl; [| | |by eauto].
  all: match goal with
       | |- context [get_graph ?r1 ?t ?ty] =>
           pose proof (get_graph_never_raises r1 t ty) as Hnr;
           destruct (get_graph r1 t ty) as [[[g jm]|e|] r2]
       end; simpl; try done; by eapply Hnr.
Qed.

(** X29.  [make_job] returns [None] exactly for a transaction that has no
    output or whose first output is not an SLP message (invalid, or of an
    unsupported type), and then leaves the registry alone; for a COMMIT
    message it fails with a [TypeError]. *)
Theorem X29_make_job_without_job r tx debug reset :
  (fst (make_job parseSlpOutputScript r tx debug reset) = Returns None
   ↔ outputs tx = [] ∨
     ∃ o rest, outputs tx = o :: rest ∧
       (parseSlpOutputScript (out_dest o) = ParseUnsupported ∨
        parseSlpOutputScript (out_dest o) = ParseInvalid)) ∧
  (fst (make_job parseSlpOutputScript r tx debug reset) = Returns None →
   snd (make_job parseSlpOutputScript r tx debug reset) = r) ∧
  (∀ o rest tt0 t,
     outputs tx = o :: rest →
     parseSlpOutputScript (out_dest o) = Parsed (mk_msg tt0 (CommitFields t)) →
     make_job parseSlpOutputScript r tx debug reset = (Raises TypeError, r)).
Proof.
  destruct (outputs tx) as [|o rest] eqn:Ho.
  { unfold make_job, setup_job. rewrite Ho.
    split_and!; [split; [by left | done] | done | done]. }
  destruct (parseSlpOutputScript (out_dest o)) as [m| | |] eqn:Hp.
  - pose proof (setup_job_parsed r tx reset o rest m Ho Hp) as Hs.
    unfold make_job.
    destruct (setup_job parseSlpOutputScript r tx reset)
      as [[[[g jm]|]|e|] r'] eqn:Hsj; simpl; try done.
    + split_and!; [|done|].
      * split; [done|].
        intros [?|(o0 & rest0 & [= <- <-] & [H|H])]; [done| |];
          by rewrite Hp in H.
      * intros o0 rest0 tt0 t [= <- <-] H. rewrite Hp in H.
        injection H as ->. by destruct (Hs t).
    + destruct Hs as [_ ->]. split_and!; [|done|done].
      split; [done|].
      intros [?|(o0 & rest0 & [= <- <-] & [H|H])]; [done| |];
        by rewrite Hp in H.
    + split_and!; [|done|].
      * split; [done|].
        intros [?|(o0 & rest0 & [= <- <-] & [H|H])]; [done| |];
          by rewrite Hp in H.
      * intros o0 rest0 tt0 t [= <- <-] H. rewrite Hp in H.
        injection H as ->. by destruct (Hs t).
  - unfold make_job, setup_job. rewrite Ho, Hp. simpl. split_and!; [|done|].
    + split; [|done]. intros _. right. exists o, rest. by auto.
    + intros o0 rest0 tt0 t [= <- <-] H. by rewrite Hp in H.
  - unfold make_job, setup_job. rewrite Ho, Hp. simpl. split_and!; [|done|].
    + split; [|done]. intros _. right. exists o, rest. by auto.
    + intros o0 rest0 tt0 t [= <- <-] H. by rewrite Hp in H.
  - unfold make_job, setup_job. rewrite Ho, Hp. simpl. split_and!; [|done|].
    + split; [done|].
      intros [?|(o0 & rest0 & [= <- <-] & [H|H])]; [done| |];
        by rewrite Hp in H.
    + intros o0 rest0 tt0 t [= <- <-] H. by rewrite Hp in H.
Qed.

(** X30.  For a message of a token type that is neither 129 nor 65 and a
    token id with no graph yet, the module-global [get_graph] fails on its
    unassigned local and registers nothing, whereas the per-instance
    [get_graph] builds and registers an SLP1 validator enforcing type 129;
    for type 65 both build an NFT1 validator, for type 129 both an SLP1
    validator enforcing 129. *)
Theorem X30_get_graph_token_types r db job_mgr get_mgr t ty :
  graph_db r !! t = None →
  db !! t = None →
  let ec := graph_context_nft1.get_graph job_mgr get_mgr db t ty in
  snd ec !! t = Some (fst (fst ec)) ∧
  graph_validator (fst (fst ec))
    = (if (ty =? 65)%Z then Validator_NFT1 t job_mgr else Validator_SLP1 t 129) ∧
  match get_graph r t ty with
  | (Returns (g, _), r') =>
      (ty = 65%Z ∨ ty = 129%Z) ∧
      graph_validator g
        = (if (ty =? 65)%Z then Validator_NFT1 t SharedJobMgr
           else Validator_SLP1 t 129)
  | (UnboundLocalError, r') => ty ≠ 65%Z ∧ ty ≠ 129%Z ∧ r' = r
  | (Raises _, _) => False
  end.
Proof.
  intros Hr Hdb. simpl. unfold graph_context_nft1.get_graph, get_graph.
  rewrite Hr, Hdb. simpl. split_and!.
  - by rewrite lookup_insert_eq.
  - by destruct (ty =? 65)%Z.
  - destruct (Z.eqb_spec ty 129) as [->|H129]; simpl; [by auto|].
    destruct (Z.eqb_spec ty 65) as [->|H65]; simpl; [by auto | done].
Qed.

End registry.

(** ** Instances of the further properties *)

(** The SEND of 60 + 40 is accepted; its one input is known to the wallet
    and tracked. *)
Lemma X1_accepted_inputs_are_known_witness :
  ∃ input_tx,
    slp_checker.transactions examples.wallet100 !! prevout_hash examples.spend_funding
      = Some input_tx ∧
    ∀ o rest m,
      outputs input_tx = o :: rest →
      examples.parse (out_dest o) = Parsed m →
      slp_checker.input_not_tracked m (prevout_n examples.spend_funding) = false →
      is_Some (slp_checker.slp_txo_lookup examples.wallet100 examples.spend_funding).
Proof.
  apply (X1_accepted_inputs_are_known examples.parse false examples.no_preflight
           examples.wallet100 examples.send_60_40 None PyNone true
           examples.spend_funding).
  - reflexivity.
  - apply list_elem_of_here.
Defined.

(** The accepted SEND of 60 + 40 spends exactly the 100 tracked units. *)
Lemma X2_accepted_send_conserves_witness :
  wallet_input_sum examples.wallet100 examples.send_60_40 = sum_Z [0; 60; 40]%Z.
Proof.
  pose proof (X2_accepted_send_conserves examples.parse false
                examples.no_preflight examples.wallet100 examples.send_60_40
                None PyNone true true 1%Z "tok" [0; 60; 40]%Z
                eq_refl eq_refl) as (_ & _ & Heq & _).
  apply Heq. reflexivity.
Defined.

(** The accepted SEND of 60 + 40 has its three declared outputs. *)
Lemma X3_accepted_send_outputs_witness :
  length [0; 60; 40]%Z ≤ length (outputs examples.send_60_40).
Proof.
  apply (X3_accepted_send_outputs examples.parse false examples.no_preflight
           examples.wallet100 examples.send_60_40 None PyNone true true
           1%Z "tok" [0; 60; 40]%Z eq_refl eq_refl).
Defined.

(** The accepted plain payment spends a tracked outpoint, which is on the
    burn list. *)
Lemma X4_accepted_non_slp_spends_only_burn_list_witness :
  slp_checker.coins_truthy (Some [examples.burn_coin 100]) = true ∧
  in_burn_list (slp_checker.coins_list (Some [examples.burn_coin 100]))
               examples.spend_funding.
Proof.
  apply (X4_accepted_non_slp_spends_only_burn_list examples.parse false
           examples.no_preflight examples.wallet100 examples.plain_spend
           (Some [examples.burn_coin 100]) (PyInt 100) true true
           examples.spend_funding).
  - reflexivity.
  - reflexivity.
  - apply list_elem_of_here.
  - eexists. reflexivity.
Defined.

(** The one coin of the burn list of the accepted plain payment is spent by
    it. *)
Lemma X6_accepted_burn_list_is_spent_witness :
  ∃ txo, txo ∈ inputs examples.plain_spend ∧
         slp_checker.coin_matches txo (examples.burn_coin 100) = true ∧
         is_Some (slp_checker.slp_txo_lookup examples.wallet100 txo).
Proof.
  apply (X6_accepted_burn_list_is_spent examples.parse false
           examples.no_preflight examples.wallet100 examples.plain_spend
           (Some [examples.burn_coin 100]) (PyInt 100) true true).
  - reflexivity.
  - reflexivity.
  - repeat constructor.
  - apply list_elem_of_here.
Defined.

(** The accepted MINT spends the baton of its own token. *)
Lemma X7_accepted_mint_spends_only_its_baton_witness :
  slp_checker.qty (slp_checker.mk_rec slp_checker.QtyBaton "tok")
    = slp_checker.QtyBaton ∧
  slp_checker.token_id (slp_checker.mk_rec slp_checker.QtyBaton "tok") = "tok".
Proof.
  apply (X7_accepted_mint_spends_only_its_baton more_examples.parse false
           examples.no_preflight more_examples.wallet_with_baton
           more_examples.mint_tx None PyNone true true 1%Z "tok"
           (Some 2%nat) 50%Z more_examples.spend_baton).
  - reflexivity.
  - reflexivity.
  - apply list_elem_of_here.
  - reflexivity.
  - discriminate.
Defined.

(** The accepted GENESIS spends the 100 tracked units, which are on the burn
    list. *)
Lemma X8_accepted_genesis_spends_only_burn_list_witness :
  in_burn_list (slp_checker.coins_list (Some [examples.burn_coin 100]))
               examples.spend_funding.
Proof.
  apply (X8_accepted_genesis_spends_only_burn_list examples.parse false
           examples.no_preflight examples.wallet100
           more_examples.genesis_burning (Some [examples.burn_coin 100])
           (PyInt 100) true true 1%Z 0%Z None 1%Z).
  - reflexivity.
  - reflexivity.
  - apply list_elem_of_here.
  - vm_compute. eexists. split; [reflexivity|discriminate].
Defined.

(** The accepted MINT has its baton output 2 and its receiver output 1. *)
Lemma X9_accepted_baton_outputs_witness :
  ∃ out_baton out1,
    outputs more_examples.mint_tx !! 2%nat = Some out_baton ∧
    standard_dest (out_dest out_baton) ∧
    outputs more_examples.mint_tx !! 1%nat = Some out1 ∧
    standard_dest (out_dest out1).
Proof.
  apply (X9_accepted_baton_outputs more_examples.parse false
           examples.no_preflight more_examples.wallet_with_baton
           more_examples.mint_tx None PyNone true true
           (mk_msg 1 (MintFields "tok" (Some 2%nat) 50))).
  - reflexivity.
  - reflexivity.
  - reflexivity.
  - discriminate.
Defined.

(** The accepted SEND of 60 + 40 returns [True]. *)
Lemma X10_accepted_means_true_and_preflight_ok_witness :
  true = true ∧
  (false = true →
   examples.no_preflight examples.send_60_40
     (snd (slp_checker.check_tx_slp examples.parse false examples.no_preflight
             examples.wallet100 examples.send_60_40 None PyNone true))
     PyNone = true).
Proof.
  apply (X10_accepted_means_true_and_preflight_ok examples.parse false
           examples.no_preflight examples.wallet100 examples.send_60_40
           None PyNone true true).
  reflexivity.
Defined.

(** The classification of the NFT1 SEND of 1 + 1 has one mask entry and
    three outputs. *)
Lemma X11_get_info_shape_witness :
  length [true] = length (inputs examples.nft_send_1_1) ∧
  length [Some 0%Z; Some 1%Z; Some 1%Z] = length (outputs examples.nft_send_1_1).
Proof.
  apply (X11_get_info_shape examples.parse (Some "nft") examples.nft_send_1_1
           false [true] (MySum 2)).
  left. reflexivity.
Defined.

(** The NFT1 SEND of 1 + 1 is classified as a SEND of the job's token. *)
Lemma X12_classified_is_own_send_or_genesis_witness :
  ∃ o rest m,
    outputs examples.nft_send_1_1 = o :: rest ∧
    examples.parse (out_dest o) = Parsed m ∧
    token_type m = 65%Z ∧
    ((∃ tid token_output,
        fields m = SendFields tid token_output ∧
        Some "nft" = Some tid ∧
        MySum 2 = MySum (sum_Z token_output) ∧
        [true] = replicate (length (inputs examples.nft_send_1_1)) true)
     ∨ (fields m = GenesisFields 0 None 1 ∧
        Some "nft" = Some (txid examples.nft_send_1_1) ∧
        MySum 2 = MyGenesis ∧
        [true] = replicate (length (inputs examples.nft_send_1_1)) false)).
Proof.
  apply (X12_classified_is_own_send_or_genesis examples.parse (Some "nft")
           examples.nft_send_1_1 [true] (MySum 2)
           [Some 0%Z; Some 1%Z; Some 1%Z]).
  reflexivity.
Defined.

(** The outputs of the classified NFT1 SEND of 1 + 1 are the declared
    quantities. *)
Lemma X13_send_outputs_carried_witness :
  MySum 2 = MySum (sum_Z [0; 1; 1]%Z) ∧
  ∀ i, i < length (outputs examples.nft_send_1_1) →
       [Some 0%Z; Some 1%Z; Some 1%Z] !! i = Some ([0; 1; 1]%Z !! i).
Proof.
  apply (X13_send_outputs_carried examples.parse (Some "nft")
           examples.nft_send_1_1 false [true] (MySum 2)
           [Some 0%Z; Some 1%Z; Some 1%Z]
           (examples.op_return "NFT1 SEND 1 1")
           [examples.pay ADDR_P2PKH; examples.pay ADDR_P2PKH] 65%Z "nft").
  - reflexivity.
  - reflexivity.
  - reflexivity.
Defined.

(** Output 1 of the NFT1 SEND of 1 + 1 carries one unit and is needed. *)
Lemma X14_needed_outputs_of_a_send_witness :
  ∃ out_n,
    [Some 0%Z; Some 1%Z; Some 1%Z] !! 1%nat = Some out_n ∧
    check_needed (MySum 1) (out_n_of out_n)
    = Ok (match [0; 1; 1]%Z !! 1%nat with
          | Some q => bool_decide (0 < q)%Z
          | None => false
          end).
Proof.
  apply (X14_needed_outputs_of_a_send examples.parse (Some "nft")
           examples.nft_send_1_1 false [true] (MySum 2)
           [Some 0%Z; Some 1%Z; Some 1%Z]
           (examples.op_return "NFT1 SEND 1 1")
           [examples.pay ADDR_P2PKH; examples.pay ADDR_P2PKH] 65%Z "nft"
           [0; 1; 1]%Z 1%Z 1%nat).
  - reflexivity.
  - reflexivity.
  - reflexivity.
  - simpl. lia.
Defined.

(** A child GENESIS with no inputs, whose parent is stored and Valid, is
    Valid. *)
Lemma X15_genesis_valid_only_after_parent_witness :
  ∃ j, electroncash_nft1.JobNFT1Child examples.job_parent_valid
         = electroncash_nft1.JobNFT1Child j ∧
       electroncash_nft1.nft_parent_validity j = 1 ∧
       is_Some (electroncash_nft1.nft_parent_tx j) ∧
       @nil input_info = [] ∧ 1 = 1 ∧
       examples.env_of examples.empty_wallet
         = examples.env_of examples.empty_wallet ∧
       electroncash_nft1.JobNFT1Child examples.job_parent_valid
         = electroncash_nft1.JobNFT1Child examples.job_parent_valid.
Proof.
  apply (X15_genesis_valid_only_after_parent examples.parse
           examples.no_network examples.no_parent_job "nft"
           (examples.env_of examples.empty_wallet)
           (electroncash_nft1.JobNFT1Child examples.job_parent_valid)
           [] 1
           (examples.env_of examples.empty_wallet)
           (electroncash_nft1.JobNFT1Child examples.job_parent_valid)).
  reflexivity.
Defined.

(** A SEND of one unit funded by one Valid unit is Valid. *)
Lemma X16_valid_send_has_at_most_one_unit_witness :
  (1 ≤ 1)%Z ∧
  (1%Z = 0%Z ∨ (1 ≤ insum_valid [(0%nat, 1%nat, 1)] ≤ 1)%Z).
Proof.
  apply (X16_valid_send_has_at_most_one_unit examples.parse
           examples.no_network examples.no_parent_job "nft"
           (examples.env_of examples.empty_wallet)
           (electroncash_nft1.JobNFT1Child examples.job_parent_valid)
           1%Z [(0, 1, 1%Z)] 1
           (examples.env_of examples.empty_wallet)
           (electroncash_nft1.JobNFT1Child examples.job_parent_valid)).
  reflexivity.
Defined.

(** A SEND of five units with two units coming in is Invalid, code 3. *)
Lemma X17_decisions_carry_a_code_witness :
  3 ≠ 0 ∧ (false = true → 3 = 1).
Proof.
  apply (X17_decisions_carry_a_code examples.parse
           examples.no_network examples.no_parent_job "nft"
           (examples.env_of examples.empty_wallet)
           (electroncash_nft1.JobNFT1Child examples.job_parent_valid)
           (MySum 5) [(0, 0, 2%Z)] false 3
           (examples.env_of examples.empty_wallet)
           (electroncash_nft1.JobNFT1Child examples.job_parent_valid)).
  reflexivity.
Defined.

(** With the parent stored, the call on a one-unit SEND changes nothing. *)
Lemma X18_no_fetch_once_parent_is_stored_witness :
  examples.env_of examples.empty_wallet = examples.env_of examples.empty_wallet ∧
  electroncash_nft1.JobNFT1Child examples.job_parent_valid
    = electroncash_nft1.JobNFT1Child examples.job_parent_valid.
Proof.
  apply (X18_no_fetch_once_parent_is_stored examples.parse
           examples.no_network examples.no_parent_job "nft"
           (examples.env_of examples.empty_wallet)
           examples.job_parent_valid (MySum 1) [(0, 1, 1%Z)]
           (Some (true, 1))).
  - eexists. reflexivity.
  - reflexivity.
Defined.

(** A SEND of five units with two units coming in from an undecided input
    stays Invalid when that input turns out Valid. *)
Lemma X19_invalid_survives_resolution_witness :
  electroncash_nft1.validate examples.parse examples.no_network
    examples.no_parent_job "nft" (examples.env_of examples.empty_wallet)
    (electroncash_nft1.JobNFT1Child examples.job_parent_valid)
    (MySum 5) [(0, 1, 2%Z)]
  = Ok (Some (false, 3), examples.env_of examples.empty_wallet,
        electroncash_nft1.JobNFT1Child examples.job_parent_valid).
Proof.
  apply (X19_invalid_survives_resolution examples.parse examples.no_network
           examples.no_parent_job "nft"
           (examples.env_of examples.empty_wallet)
           (electroncash_nft1.JobNFT1Child examples.job_parent_valid)
           5%Z [(0, 0, 2%Z)] [(0, 1, 2%Z)]).
  - repeat constructor. simpl. lia.
  - repeat constructor.
  - reflexivity.
Defined.

(** In the lib copy too, the Invalid of a SEND of five units with two units
    coming in survives the resolution of its input. *)
Lemma X20_lib_decision_survives_resolution_witness :
  fst (lib_nft1.validate "nft" more_examples.lib_state_parent_known (MySum 5)
         [(0, 1, 2%Z)])
  = Ok (Some (false, 3)).
Proof.
  rewrite (X20_lib_decision_survives_resolution "nft"
             more_examples.lib_state_parent_known 5%Z
             [(0, 0, 2%Z)] [(0, 1, 2%Z)] (false, 3)
             more_examples.lib_state_parent_known).
  - reflexivity.
  - repeat constructor. simpl. lia.
  - repeat constructor.
  - reflexivity.
Defined.

(** The first call on a newly made child job fetches the child genesis and the
    group transaction and decides nothing yet. *)
Lemma X21_first_call_fetches_genesis_and_parent_witness :
  ∃ e' job',
    electroncash_nft1.validate examples.parse more_examples.network
      more_examples.parent_job_valid "nft"
      (examples.env_of examples.empty_wallet)
      (electroncash_nft1.JobNFT1Child
         (graph_context_nft1.new_child_job false "nftsend"))
      MyGenesis []
    = Ok (None, e', job') ∧
    ∃ j' g p,
      job' = electroncash_nft1.JobNFT1Child j' ∧
      electroncash_nft1.genesis_tx j' = Some g ∧ txid g = "nft" ∧
      electroncash_nft1.nft_parent_tx j' = Some p ∧
      is_Some (electroncash_nft1.transactions (electroncash_nft1.wallet e') !! "nft") ∧
      is_Some (electroncash_nft1.transactions (electroncash_nft1.wallet e') !! txid p).
Proof.
  eexists _, _. split; [vm_compute; reflexivity|].
  eapply (X21_first_call_fetches_genesis_and_parent examples.parse
            more_examples.network more_examples.parent_job_valid "nft"
            (examples.env_of examples.empty_wallet)
            (graph_context_nft1.new_child_job false "nftsend") MyGenesis []).
  - simpl. lia.
  - reflexivity.
  - discriminate.
  - reflexivity.
  - vm_compute. reflexivity.
Defined.


(** The parent job finds the group transaction Valid; the child job and the
    wallet record it. *)
Lemma X23_parent_job_result_is_recorded_witness :
  ∃ e' j',
    electroncash_nft1.start_NFT_parent_job more_examples.parent_job_valid
      (examples.env_of more_examples.wallet_with_group)
      more_examples.job_parent_fetched = Ok (e', j') ∧
    electroncash_nft1.nft_parent_validity j' = 1 ∧
    electroncash_nft1.slp_validity_signal e' = Some [("group", 1)].
Proof.
  eexists _, _. split; [vm_compute; reflexivity|].
  edestruct (X23_parent_job_result_is_recorded more_examples.parent_job_valid
               (examples.env_of more_examples.wallet_with_group)
               more_examples.job_parent_fetched)
    as (p & g & t & val & pinfo & Hp & Hg & Hrun & _ & Hval & _ & _ & _ & Hsig).
  - simpl. lia.
  - reflexivity.
  - vm_compute. reflexivity.
  - vm_compute in Hrun. injection Hrun as <- <-.
    split; [exact Hval|exact Hsig].
Defined.

(** Two nodes, one decided: the decided one is written to the cache, the
    undecided one is not. *)
Lemma X24_save_validity_lookup_witness :
  (∀ v, ("a", v) ∈ [("a", 1); ("b", 0)] → v ≠ 0 →
        save_validity [("a", 1); ("b", 0)] ∅ !! "a" = Some v) ∧
  ((∀ v, ("a", v) ∈ [("a", 1); ("b", 0)] → v = 0) →
   save_validity [("a", 1); ("b", 0)] ∅ !! "a" = (∅ : gmap string nat) !! "a").
Proof.
  apply (X24_save_validity_lookup [("a", 1); ("b", 0)] ∅ "a").
  vm_compute. repeat constructor.
  - intros H. repeat (apply elem_of_cons in H as [H|H]; [discriminate|]).
    by apply elem_of_nil in H.
  - intros H. by apply elem_of_nil in H.
Defined.

(** A first [get_graph] for an NFT1 token is cached. *)
Lemma X27_get_graph_caches_witness :
  ∃ entry r',
    lib_module.get_graph more_examples.empty_registry "t" 65 = (lib_module.Returns entry, r') ∧
    lib_module.graph_db r' !! "t" = Some entry ∧
    ∀ ty', lib_module.get_graph r' "t" ty' = (lib_module.Returns entry, r').
Proof.
  eexists _, _. split; [vm_compute; reflexivity|].
  edestruct (X27_get_graph_caches more_examples.empty_registry "t" 65)
    as (H1 & _ & H3); [vm_compute; reflexivity|].
  split; [exact H1|exact H3].
Defined.

(** On empty registries both files build an NFT1 validator for type 65. *)
Lemma X30_get_graph_token_types_witness :
  graph_validator
    (fst (fst (graph_context_nft1.get_graph (ContextJobMgr "ctx")
                 (λ _, ContextJobMgr "ctx") ∅ "t" 65)))
  = Validator_NFT1 "t" (ContextJobMgr "ctx").
Proof.
  apply (X30_get_graph_token_types more_examples.empty_registry ∅
           (ContextJobMgr "ctx") (λ _, ContextJobMgr "ctx") "t" 65).
  - reflexivity.
  - reflexivity.
Defined.
